(** * FeastFleet: record store, geo utility, authentication, cart and
      order lifecycle

    A shallow embedding of the Python sources

    - [utils/data_store.py]   (the JSON-backed record store),
    - [utils/geo_utils.py]    (Haversine distance, ETA, nearby restaurants,
      the simulated courier),
    - [utils/authentication.py] ([register_user], [login_user], the session),
    - [utils/notification_service.py] (what can raise, the phone number),
    - [pages/2_Restaurants.py] (cart handlers, the menu by category and the
      Place Order handler),
    - [pages/3_Orders_Tracking.py] (vendor actions, simulated progression),
    - [pages/4_Profile.py] (saving the personal information),

    followed by the properties the specification states about them, and by
    further properties of the same code.

    Modelling conventions.
    - A Python [dict] is a [gmap string value]; the records of the store are
      objects on a heap, and the collections of the store are lists of
      references to them, because the pages mutate records through aliases
      ([order["status"] = ...] on an element of [get_orders_by_restaurant]).
    - Python numbers ([int], [float], and [bool], a subclass of [int]) are
      real numbers.  In the record store and the page handlers floating
      point is idealised: rounding error and NaN are not modelled.  Where a
      property depends on what the machine computes (the integer
      [calculate_eta] returns, whether [calculate_distance] raises, which
      restaurants [get_nearby_restaurants] keeps and how it annotates and
      orders them), the functions of [geo_utils.py] are modelled again in
      double precision, in the module [Double].
    - A raised exception is an outcome of its own that keeps the state
      reached when it was raised. *)

From Stdlib Require Import ZArith Reals Lra Lia String Ascii List.
From Stdlib Require Import ClassicalDescription.
From Stdlib Require Floats.
From stdpp Require Import base option list gmap strings pretty sorting.

(** ** Python values *)

#[warnings="-register-all"]
Inductive value :=
| VNone
| VNum (x : R)
| VStr (s : string)
| VList (l : list value)
| VDict (d : gmap string value).

Abbreviation dict := (gmap string value).

(** Leibniz equality of values is decided classically (values hold reals);
    [py_eq] below computes on the strings the sources compare. *)
#[global] Instance value_eq_dec : EqDecision value :=
  fun a b => excluded_middle_informative (a = b).

#[global] Instance R_eq_dec : EqDecision R := Req_dec_T.

(** Python's [==]: values of different kinds are unequal, lists and dicts
    nested in a record are compared by value. *)
Definition py_eq (a b : value) : bool :=
  match a, b with
  | VNone, VNone => true
  | VStr x, VStr y => String.eqb x y
  | VNum x, VNum y => bool_decide (x = y)
  | VList x, VList y => bool_decide (x = y)
  | VDict x, VDict y => bool_decide (x = y)
  | _, _ => false
  end.

(** Truth value of a dict: [if d:] holds for a non-empty dict. *)
Definition dict_truthy (d : dict) : bool := negb (Nat.eqb (size d) 0).

(** ** Exceptions and results *)

Inductive exn :=
| KeyError (k : string)
| TypeError
| ValueError
| AttributeError
| ZeroDivisionError
| OverflowError.

Inductive res (A : Type) :=
| Ok (a : A)
| Err (e : exn).
Arguments Ok {A} a.
Arguments Err {A} e.

#[global] Instance res_ret : MRet res := fun A a => Ok a.
#[global] Instance res_bind : MBind res := fun A B f m =>
  match m with
  | Ok a => f a
  | Err e => Err e
  end.

(** [d[k]] *)
Definition getitem (d : dict) (k : string) : res value :=
  match d !! k with
  | Some v => Ok v
  | None => Err (KeyError k)
  end.

(** [v[k]] where [v] must be a dict. *)
Definition subscript (v : value) (k : string) : res value :=
  match v with
  | VDict d => getitem d k
  | _ => Err TypeError
  end.

(** A number where the sources do arithmetic. *)
Definition as_num (v : value) : res R :=
  match v with
  | VNum x => Ok x
  | _ => Err TypeError
  end.

(** ** The heap of record objects and the session state *)

Abbreviation loc := nat.
Abbreviation heap_t := (list dict).

Record data_store_t := DataStore {
  users : list loc;
  restaurants : list loc;
  menu_items : list loc;
  orders : list loc
}.

(** The persisted JSON document: the four collections by value. *)
Record document := Document {
  doc_users : list dict;
  doc_restaurants : list dict;
  doc_menu_items : list dict;
  doc_orders : list dict
}.

Record state := State {
  heap : heap_t;                (* the dict objects, by identity *)
  data_store : data_store_t;    (* st.session_state.data_store *)
  disk : option document;       (* data/app_data.json, None when absent or unreadable *)
  cart : list dict;             (* st.session_state.cart *)
  simulate_status : bool        (* "simulate_status" in st.session_state *)
}.

(** What a write of the data file does: it succeeds, or it fails and leaves
    some content behind. *)
Inductive write_result :=
| WriteOk
| WriteFails (remains : option document).

Inductive outcome (A : Type) :=
| Ret (a : A) (s : state)
| Raise (e : exn) (s : state).
Arguments Ret {A} a s.
Arguments Raise {A} e s.

Definition M (A : Type) := state -> outcome A.

#[global] Instance M_ret : MRet M := fun A a s => Ret a s.
#[global] Instance M_bind : MBind M := fun A B f m s =>
  match m s with
  | Ret a s' => f a s'
  | Raise e s' => Raise e s'
  end.

Definition gets {A} (f : state -> A) : M A := fun s => Ret (f s) s.
Definition modify (f : state -> state) : M unit := fun s => Ret tt (f s).
Definition lift {A} (r : res A) : M A := fun s =>
  match r with
  | Ok a => Ret a s
  | Err e => Raise e s
  end.

(** The state an outcome ends in. *)
Definition final {A} (o : outcome A) : state :=
  match o with
  | Ret _ s => s
  | Raise _ s => s
  end.

Definition set_heap (h : heap_t) (s : state) : state :=
  State h (data_store s) (disk s) (cart s) (simulate_status s).
Definition set_data_store (d : data_store_t) (s : state) : state :=
  State (heap s) d (disk s) (cart s) (simulate_status s).
Definition set_disk (d : option document) (s : state) : state :=
  State (heap s) (data_store s) d (cart s) (simulate_status s).
Definition set_cart (c : list dict) (s : state) : state :=
  State (heap s) (data_store s) (disk s) c (simulate_status s).
Definition set_simulate_status (b : bool) (s : state) : state :=
  State (heap s) (data_store s) (disk s) (cart s) b.

(** The object a reference denotes. *)
Definition obj (h : heap_t) (l : loc) : dict := h !!! l.

(** A new dict object: its reference is fresh. *)
Definition alloc (d : dict) : M loc := fun s =>
  Ret (length (heap s)) (set_heap (heap s ++ [d]) s).

(** [o[k] = v] on the object [l]. *)
Definition setitem (l : loc) (k : string) (v : value) : M unit :=
  modify (fun s => set_heap (<[l := <[k := v]> (obj (heap s) l)]> (heap s)) s).

(** ** utils/data_store.py *)

Inductive collection := Users | Restaurants | MenuItems | Orders.

Definition coll (c : collection) (d : data_store_t) : list loc :=
  match c with
  | Users => users d
  | Restaurants => restaurants d
  | MenuItems => menu_items d
  | Orders => orders d
  end.

Definition set_coll (c : collection) (ls : list loc) (d : data_store_t) : data_store_t :=
  match c with
  | Users => DataStore ls (restaurants d) (menu_items d) (orders d)
  | Restaurants => DataStore (users d) ls (menu_items d) (orders d)
  | MenuItems => DataStore (users d) (restaurants d) ls (orders d)
  | Orders => DataStore (users d) (restaurants d) (menu_items d) ls
  end.

(** [json.dump(st.session_state.data_store)]: the records by value. *)
Definition snapshot (s : state) : document :=
  let h := heap s in
  let d := data_store s in
  Document (obj h <$> users d) (obj h <$> restaurants d)
           (obj h <$> menu_items d) (obj h <$> orders d).

(** The write is attempted once; a failure is displayed and swallowed, and
    the in-memory store stays as it is. *)
Definition _save_data_to_file (io : write_result) : M unit :=
  modify (fun s =>
    set_disk (match io with
              | WriteOk => Some (snapshot s)
              | WriteFails remains => remains
              end) s).

Definition empty_data_store : data_store_t := DataStore [] [] [] [].

(** [json.load] gives every record an object of its own; an absent or
    unreadable file gives the empty store. *)
Definition _load_data_from_file (d : option document) : heap_t * data_store_t :=
  match d with
  | Some doc =>
      let u := doc_users doc in
      let r := doc_restaurants doc in
      let m := doc_menu_items doc in
      let o := doc_orders doc in
      (u ++ r ++ m ++ o,
       DataStore (seq 0 (length u))
                 (seq (length u) (length r))
                 (seq (length u + length r) (length m))
                 (seq (length u + length r + length m) (length o)))
  | None => ([], empty_data_store)
  end.

(** A new session: the store is loaded, the cart is empty. *)
Definition initialize_data (d : option document) : state :=
  let '(h, ds) := _load_data_from_file d in
  State h ds d [] false.

Definition get_users : M (list loc) := gets (fun s => users (data_store s)).
Definition get_restaurants : M (list loc) := gets (fun s => restaurants (data_store s)).
Definition get_menu_items : M (list loc) := gets (fun s => menu_items (data_store s)).
Definition get_orders : M (list loc) := gets (fun s => orders (data_store s)).

(** [for x in xs: if x[k] == v: return x] and then [return None]. *)
Fixpoint find_by (h : heap_t) (k : string) (v : value) (ls : list loc) : res (option loc) :=
  match ls with
  | [] => Ok None
  | l :: ls' =>
      x ← getitem (obj h l) k;
      if py_eq x v then Ok (Some l) else find_by h k v ls'
  end.

(** [[x for x in xs if x[k] == v]] *)
Fixpoint filter_by (h : heap_t) (k : string) (v : value) (ls : list loc) : res (list loc) :=
  match ls with
  | [] => Ok []
  | l :: ls' =>
      x ← getitem (obj h l) k;
      rest ← filter_by h k v ls';
      Ok (if py_eq x v then l :: rest else rest)
  end.

Definition get_by (c : collection) (k : string) (v : value) : M (option loc) :=
  h ← gets heap;
  ls ← gets (fun s => coll c (data_store s));
  lift (find_by h k v ls).

Definition get_all_by (c : collection) (k : string) (v : value) : M (list loc) :=
  h ← gets heap;
  ls ← gets (fun s => coll c (data_store s));
  lift (filter_by h k v ls).

Definition get_user_by_id (user_id : value) : M (option loc) := get_by Users "id" user_id.
Definition get_user_by_email (email : value) : M (option loc) := get_by Users "email" email.
Definition get_restaurant_by_id (restaurant_id : value) : M (option loc) :=
  get_by Restaurants "id" restaurant_id.
Definition get_order_by_id (order_id : value) : M (option loc) := get_by Orders "id" order_id.
Definition get_restaurants_by_owner (owner_id : value) : M (list loc) :=
  get_all_by Restaurants "owner_id" owner_id.
Definition get_menu_items_by_restaurant (restaurant_id : value) : M (list loc) :=
  get_all_by MenuItems "restaurant_id" restaurant_id.
Definition get_orders_by_user (user_id : value) : M (list loc) :=
  get_all_by Orders "user_id" user_id.
Definition get_orders_by_restaurant (restaurant_id : value) : M (list loc) :=
  get_all_by Orders "restaurant_id" restaurant_id.

(** [xs.append(x); st.session_state.data_store[c] = xs; _save_data_to_file()] *)
Definition append_record (c : collection) (r : loc) (io : write_result) : M unit :=
  modify (fun s => set_data_store (set_coll c (coll c (data_store s) ++ [r]) (data_store s)) s);;
  _save_data_to_file io.

(** [if k not in o: o[k] = v] *)
Definition setdefault (r : loc) (k : string) (v : value) : M unit :=
  h ← gets heap;
  match obj h r !! k with
  | None => setitem r k v
  | Some _ => mret tt
  end.

Definition add_user (user : loc) (io : write_result) : M bool :=
  append_record Users user io;;
  mret true.

Definition add_restaurant (restaurant : loc) (io : write_result) : M bool :=
  n ← gets (fun s => length (restaurants (data_store s)));
  setdefault restaurant "id" (VStr ("rest" +:+ pretty (n + 1)));;
  append_record Restaurants restaurant io;;
  mret true.

Definition add_menu_item (menu_item : loc) (io : write_result) : M bool :=
  n ← gets (fun s => length (menu_items (data_store s)));
  setdefault menu_item "id" (VStr ("item" +:+ pretty (n + 1)));;
  append_record MenuItems menu_item io;;
  mret true.

(** [now] is what [time.time()] returns. *)
Definition add_order (order : loc) (now : R) (io : write_result) : M loc :=
  n ← gets (fun s => length (orders (data_store s)));
  setdefault order "id" (VStr ("order" +:+ pretty (n + 1)));;
  setdefault order "created_at" (VNum now);;
  setdefault order "status" (VStr "pending");;
  append_record Orders order io;;
  mret order.

(** The index of the first record whose id equals the id of [r]:
    [for i, u in enumerate(xs): if u["id"] == r["id"]]. *)
Fixpoint update_index (h : heap_t) (r : loc) (i : nat) (ls : list loc) : res (option nat) :=
  match ls with
  | [] => Ok None
  | u :: ls' =>
      a ← getitem (obj h u) "id";
      b ← getitem (obj h r) "id";
      if py_eq a b then Ok (Some i) else update_index h r (S i) ls'
  end.

(** The four [update_*] functions are the same loop over their collection. *)
Definition update_record (c : collection) (r : loc) (io : write_result) : M bool :=
  h ← gets heap;
  ls ← gets (fun s => coll c (data_store s));
  found ← lift (update_index h r 0 ls);
  match found with
  | Some i =>
      modify (fun s => set_data_store (set_coll c (<[i := r]> ls) (data_store s)) s);;
      _save_data_to_file io;;
      mret true
  | None => mret false
  end.

Definition update_user := update_record Users.
Definition update_restaurant := update_record Restaurants.
Definition update_menu_item := update_record MenuItems.
Definition update_order := update_record Orders.

(** ** Numbers: [int()], [round(x, 2)], [math] *)

(** [int(x)]: truncation towards zero. *)
Definition py_int (x : R) : Z :=
  if Rle_dec 0 x then Int_part x else (- Int_part (- x))%Z.

(** The nearest integer, ties to the even one. *)
Definition round_half_even (y : R) : Z :=
  let n := Int_part y in
  let f := (y - IZR n)%R in
  if Rlt_dec f (1 / 2) then n
  else if Rlt_dec (1 / 2) f then (n + 1)%Z
  else if Z.even n then n else (n + 1)%Z.

(** [round(x, 2)] *)
Definition py_round2 (x : R) : R := (IZR (round_half_even (x * 100)) / 100)%R.

(** [math.radians] of a Python value. *)
Definition radians (v : value) : res R :=
  x ← as_num v;
  Ok (x * PI / 180)%R.

(** [math.sqrt] and [math.asin] raise outside their domains. *)
Definition py_sqrt (x : R) : res R :=
  if Rlt_dec x 0 then Err ValueError else Ok (sqrt x).

Definition py_asin (x : R) : res R :=
  if Rlt_dec x (-1) then Err ValueError
  else if Rlt_dec 1 x then Err ValueError
  else Ok (asin x).

(** ** utils/geo_utils.py *)

Definition haversine_a (lat1 lon1 lat2 lon2 : R) : R :=
  let dlon := (lon2 - lon1)%R in
  let dlat := (lat2 - lat1)%R in
  (sin (dlat / 2) ^ 2 + cos lat1 * cos lat2 * sin (dlon / 2) ^ 2)%R.

Definition calculate_distance (lat1 lon1 lat2 lon2 : value) : res R :=
  lat1 ← radians lat1;
  lon1 ← radians lon1;
  lat2 ← radians lat2;
  lon2 ← radians lon2;
  let a := haversine_a lat1 lon1 lat2 lon2 in
  root ← py_sqrt a;
  angle ← py_asin root;
  let c := (2 * angle)%R in
  let r := 6371%R in
  Ok (c * r)%R.

(** The simulated location: Bangalore. *)
Definition get_current_location : dict :=
  list_to_map [("lat", VNum 12.9716); ("lng", VNum 77.5946)].

Definition calculate_eta (distance_km speed_km_per_hour : R) : res Z :=
  if decide (speed_km_per_hour = 0%R) then Err ZeroDivisionError
  else
    let time_hours := (distance_km / speed_km_per_hour)%R in
    let time_minutes := (time_hours * 60)%R in
    let buffer_minutes := if Rlt_dec distance_km 5 then 10%R else 15%R in
    Ok (py_int (time_minutes + buffer_minutes)).

(** [sorted(xs, key=...)]: the keys are computed first, the sort is stable. *)
Fixpoint insert_by_key (x : R * loc) (l : list (R * loc)) : list (R * loc) :=
  match l with
  | [] => [x]
  | y :: l' =>
      if Rle_dec (fst x) (fst y) then x :: y :: l' else y :: insert_by_key x l'
  end.

Fixpoint sort_by_key (l : list (R * loc)) : list (R * loc) :=
  match l with
  | [] => []
  | x :: l' => insert_by_key x (sort_by_key l')
  end.

(** [x["distance"]] as the sort compares it. *)
Definition distance_key (h : heap_t) (l : loc) : res (R * loc) :=
  v ← getitem (obj h l) "distance";
  k ← as_num v;
  Ok (k, l).

Fixpoint keys_of (h : heap_t) (ls : list loc) : res (list (R * loc)) :=
  match ls with
  | [] => Ok []
  | l :: ls' =>
      k ← distance_key h l;
      ks ← keys_of h ls';
      Ok (k :: ks)
  end.

Definition sorted_by_distance (ls : list loc) : M (list loc) :=
  h ← gets heap;
  ks ← lift (keys_of h ls);
  mret (snd <$> sort_by_key ks).

(** ** utils/geo_utils.py in double precision

    The definitions of [calculate_distance] and [calculate_eta] above compute
    with real numbers; the Place Order handler is stated over them.  What
    the functions return on the machine is modelled here.

    - [calculate_eta] uses the division, the multiplication, the addition
      and the comparison of IEEE 754 doubles and [int()]: it is modelled on
      Rocq's binary64 numbers, which compute them bit for bit.
    - [calculate_distance] also calls [math.sin], [math.cos], [math.asin]
      and [**], which have no counterpart here.  A double is the real number
      it denotes, comparisons are exact, and what the machine computes is
      taken from an [arithmetic]: the rounding to the nearest double and the
      four functions of the C library.  No operation of
      [calculate_distance] overflows; the errors are those of the
      conversion of an [int] too large for a double, and of [math.sqrt] and
      [math.asin] outside their domains.  Infinities and NaN are no real
      numbers: coordinates that hold them are not modelled. *)
Module Double.

Section Binary64.
Import PrimFloat SpecFloat FloatOps.
Local Open Scope float_scope.

(** [int(x)] of a float: the integer part of the number [x] denotes;
    an infinity and a NaN have none. *)
Definition py_int (x : float) : res Z :=
  match Prim2SF x with
  | S754_zero _ => Ok 0%Z
  | S754_infinity _ => Err OverflowError
  | S754_nan => Err ValueError
  | S754_finite negative mantissa exponent =>
      let n :=
        if (0 <=? exponent)%Z then (Z.pos mantissa * 2 ^ exponent)%Z
        else (Z.pos mantissa / 2 ^ (- exponent))%Z in
      Ok (if negative : bool then (- n)%Z else n)
  end.

(** The arguments are doubles (an [int] below [2^53] in magnitude is the
    double it equals).  The integers [60], [5], [10] and [15] are converted
    to doubles exactly; a float division by zero raises. *)
Definition calculate_eta (distance_km speed_km_per_hour : float) : res Z :=
  if speed_km_per_hour =? 0 then Err ZeroDivisionError
  else
    let time_hours := distance_km / speed_km_per_hour in
    let time_minutes := time_hours * 60 in
    let buffer_minutes := if distance_km <? 5 then 10 else 15 in
    py_int (time_minutes + buffer_minutes).

End Binary64.

(** What the machine computes: [fl x] is the double nearest the real number
    [x]; the division, the multiplication, the sum, the difference and the
    square root of doubles are the exact ones rounded by [fl] (IEEE 754).
    The functions of the C library are not specified to that precision. *)
Record arithmetic := Arithmetic {
  fl : R -> R;
  m_sin : R -> R;       (* math.sin *)
  m_cos : R -> R;       (* math.cos *)
  m_asin : R -> R;      (* math.asin, on [-1, 1] *)
  m_square : R -> R     (* x ** 2 *)
}.

(** The arithmetic of the real numbers: nothing is rounded. *)
Definition exact : arithmetic :=
  Arithmetic (fun x => x) sin cos asin (fun x => (x ^ 2)%R).

(** From [2^1024 - 2^970] on a number rounds to [2^1024], which is no
    double. *)
Definition float_limit : R := (2 ^ 1024 - 2 ^ 970)%R.

Section Machine.
Variable m : arithmetic.
Local Open Scope R_scope.

(** The conversion of a number to a double, as the functions of [math]
    do it: a double is what it is, an [int] is rounded to the nearest
    double, and an [int] too large for a double raises. *)
Definition to_float (x : R) : res R :=
  if Rlt_dec (Rabs x) float_limit then Ok (fl m x) else Err OverflowError.

(** [math.radians(x)] is [x * (pi / 180)], with the constant a double. *)
Definition deg_to_rad : R := fl m (fl m PI / 180).

Definition radians (v : value) : res R :=
  x ← as_num v;
  x ← to_float x;
  Ok (fl m (x * deg_to_rad)).

Definition py_sqrt (x : R) : res R :=
  if Rlt_dec x 0 then Err ValueError else Ok (fl m (sqrt x)).

Definition py_asin (x : R) : res R :=
  if Rlt_dec x (-1) then Err ValueError
  else if Rlt_dec 1 x then Err ValueError
  else Ok (m_asin m x).

Definition calculate_distance (lat1 lon1 lat2 lon2 : value) : res R :=
  lat1 ← radians lat1;
  lon1 ← radians lon1;
  lat2 ← radians lat2;
  lon2 ← radians lon2;
  let dlon := fl m (lon2 - lon1) in
  let dlat := fl m (lat2 - lat1) in
  let a :=
    fl m (m_square m (m_sin m (fl m (dlat / 2)))
          + fl m (fl m (m_cos m lat1 * m_cos m lat2)
                  * m_square m (m_sin m (fl m (dlon / 2))))) in
  root ← py_sqrt a;
  angle ← py_asin root;
  let c := fl m (2 * angle) in
  let r := 6371 in
  Ok (fl m (c * r)).

(** [round(x, 2)]: the decimal number with two places nearest [x], ties to
    the even one, and then the double nearest that decimal. *)
Definition round2 (x : R) : R := fl m (py_round2 x).

(** The distance expression of the loop body: the four subscripts are
    evaluated first, in order. *)
Definition restaurant_distance (user_location restaurant : dict) : res R :=
  user_lat ← getitem user_location "lat";
  user_lng ← getitem user_location "lng";
  location ← getitem restaurant "location";
  lat ← subscript location "lat";
  location' ← getitem restaurant "location";
  lng ← subscript location' "lng";
  calculate_distance user_lat user_lng lat lng.

(** The loop of [get_nearby_restaurants]; [nearby] is the list built so far. *)
Fixpoint nearby_loop (user_location : dict) (radius_km : R)
    (rs : list loc) (nearby : list loc) : M (list loc) :=
  match rs with
  | [] => mret nearby
  | restaurant :: rs' =>
      h ← gets heap;
      distance ← lift (restaurant_distance user_location (obj h restaurant));
      if Rle_dec distance radius_km then
        restaurant_with_distance ← alloc (obj h restaurant);
        setitem restaurant_with_distance "distance" (VNum (round2 distance));;
        nearby_loop user_location radius_km rs' (nearby ++ [restaurant_with_distance])
      else nearby_loop user_location radius_km rs' nearby
  end.

Definition get_nearby_restaurants (user_location : dict) (restaurants : list loc)
    (radius_km : R) : M (list loc) :=
  nearby ← nearby_loop user_location radius_km restaurants [];
  sorted_by_distance nearby.

End Machine.

End Double.

Arguments Double.calculate_distance : simpl never.

(** ** utils/notification_service.py

    Sending is delegated to the SMS gateway and never raises; what can
    raise is the preparation of the message. *)

(** [format_phone_number]: only a string can be cleaned and tested. *)
Definition format_phone_number (phone_number : value) : res unit :=
  match phone_number with
  | VStr _ => Ok tt
  | VNone | VNum _ => Err TypeError
  | VList _ | VDict _ => Err AttributeError
  end.

(** [user] is what [get_user_by_id] returned: a record or [None]. *)
Definition user_fields (user : option dict) (k : string) : res value :=
  match user with
  | Some u => getitem u k
  | None => Err TypeError
  end.

Definition send_order_confirmation (order : dict) (user : option dict) : res unit :=
  phone ← user_fields user "phone";
  format_phone_number phone;;
  user_fields user "name";;
  getitem order "id";;
  getitem order "restaurant_name";;
  getitem order "eta";;
  Ok tt.

Definition send_order_status_update (order : dict) (user : option dict)
    (status : string) : res unit :=
  phone ← user_fields user "phone";
  format_phone_number phone;;
  user_fields user "name";;
  getitem order "id";;
  getitem order "restaurant_name";;
  (if String.eqb status "out_for_delivery" then getitem order "eta" else Ok VNone);;
  Ok tt.

(** ** utils/authentication.py and the page handlers *)

Section Handlers.

(** [hashlib.sha256(password.encode()).hexdigest()] *)
Variable hash_password : string -> string.

(** How an f-string prints a value. *)
Variable format_value : value -> string.

Definition new_user (name email phone password user_type : string)
    (now_id now_created : R) : dict :=
  list_to_map [
    ("id", VStr (pretty (py_int now_id)));
    ("name", VStr name);
    ("email", VStr email);
    ("phone", VStr phone);
    ("password_hash", VStr (hash_password password));
    ("user_type", VStr user_type);
    ("created_at", VNum now_created);
    ("profile", VDict (list_to_map [
        ("address", VStr "");
        ("preferences", VList []);
        ("allergies", VList [])]))
  ].

(** [now_id] and [now_created] are the two readings of [time.time()]. *)
Definition register_user (name email phone password user_type : string)
    (now_id now_created : R) (io : write_result) : M (bool * option loc) :=
  existing_user ← get_user_by_email (VStr email);
  h ← gets heap;
  if from_option (fun l => dict_truthy (obj h l)) false existing_user
  then mret (false, None)
  else
    user ← alloc (new_user name email phone password user_type now_id now_created);
    success ← add_user user io;
    mret (success, if success : bool then Some user else None).

(** *** pages/2_Restaurants.py: the cart *)

(** [next((i for i, item in enumerate(cart) if item["id"] == v), None)] *)
Fixpoint find_item (v : value) (i : nat) (c : list dict) : res (option nat) :=
  match c with
  | [] => Ok None
  | item :: c' =>
      x ← getitem item "id";
      if py_eq x v then Ok (Some i) else find_item v (S i) c'
  end.

(** [not cart or cart[0]["restaurant_id"] == restaurant["id"]] *)
Definition same_restaurant (c : list dict) (restaurant : dict) : res bool :=
  match c with
  | [] => Ok true
  | first :: _ =>
      a ← getitem first "restaurant_id";
      b ← getitem restaurant "id";
      Ok (py_eq a b)
  end.

Definition new_cart_item (menu_item restaurant : dict) : res dict :=
  id ← getitem menu_item "id";
  name ← getitem menu_item "name";
  price ← getitem menu_item "price";
  restaurant_id ← getitem restaurant "id";
  restaurant_name ← getitem restaurant "name";
  Ok (list_to_map [
    ("id", id);
    ("name", name);
    ("price", price);
    ("quantity", VNum 1);
    ("restaurant_id", restaurant_id);
    ("restaurant_name", restaurant_name)
  ]).

(** [item["quantity"] += 1] *)
Definition increment_quantity (item : dict) : res dict :=
  q ← getitem item "quantity";
  n ← as_num q;
  Ok (<["quantity" := VNum (n + 1)]> item).

Definition add_to_cart (menu_item restaurant : dict) : M unit :=
  c ← gets cart;
  accepted ← lift (same_restaurant c restaurant);
  if accepted : bool then
    cart_item ← lift (new_cart_item menu_item restaurant);
    menu_id ← lift (getitem menu_item "id");
    existing ← lift (find_item menu_id 0 c);
    match existing with
    | Some i =>
        let existing_item : dict := c !!! i in
        if dict_truthy existing_item then
          item' ← lift (increment_quantity existing_item);
          modify (set_cart (<[i := item']> c))
        else modify (set_cart (c ++ [cart_item]))
    | None => modify (set_cart (c ++ [cart_item]))
    end
  else mret tt.

(** [[item for item in cart if item["id"] != item_id]] *)
Fixpoint without_item (item_id : value) (c : list dict) : res (list dict) :=
  match c with
  | [] => Ok []
  | item :: c' =>
      x ← getitem item "id";
      rest ← without_item item_id c';
      Ok (if py_eq x item_id then rest else item :: rest)
  end.

Definition remove_from_cart (item_id : value) : M unit :=
  c ← gets cart;
  c' ← lift (without_item item_id c);
  modify (set_cart c').

(** *** pages/2_Restaurants.py: the Place Order handler *)

(** [sum(item["price"] * item["quantity"] for item in cart)] *)
Fixpoint cart_total (c : list dict) : res R :=
  match c with
  | [] => Ok 0%R
  | item :: c' =>
      p ← getitem item "price";
      q ← getitem item "quantity";
      p ← as_num p;
      q ← as_num q;
      rest ← cart_total c';
      Ok (p * q + rest)%R
  end.

(** [[f"{item['name']} x{item['quantity']}" for item in cart]] *)
Fixpoint item_lines (c : list dict) : res (list value) :=
  match c with
  | [] => Ok []
  | item :: c' =>
      n ← getitem item "name";
      q ← getitem item "quantity";
      rest ← item_lines c';
      Ok (VStr (format_value n +:+ " x" +:+ format_value q) :: rest)
  end.

(** The order record the handler builds. *)
Definition build_order (user : dict) (restaurant : value) (c : list dict) (total : R)
    (address phone payment_method : string) (now : R) : res dict :=
  first ← getitem ((c : list dict) !!! 0%nat) "restaurant_id";
  let restaurant_id := first in
  let user_location := get_current_location in
  user_lat ← getitem user_location "lat";
  user_lng ← getitem user_location "lng";
  location ← subscript restaurant "location";
  lat ← subscript location "lat";
  location' ← subscript restaurant "location";
  lng ← subscript location' "lng";
  distance ← calculate_distance user_lat user_lng lat lng;
  eta_minutes ← calculate_eta distance 25;
  user_id ← getitem user "id";
  customer_name ← getitem user "name";
  restaurant_name ← subscript restaurant "name";
  items ← item_lines c;
  Ok (list_to_map [
    ("user_id", user_id);
    ("customer_name", customer_name);
    ("restaurant_id", restaurant_id);
    ("restaurant_name", restaurant_name);
    ("items", VList items);
    ("item_details", VList (VDict <$> c));
    ("total_amount", VNum total);
    ("delivery_address", VStr address);
    ("phone", VStr phone);
    ("payment_method", VStr payment_method);
    ("status", VStr "confirmed");
    ("eta", VStr (pretty eta_minutes +:+ " minutes"));
    ("created_at", VNum now);
    ("distance_km", VNum distance)
  ]).

(** A click on Place Order.  The button is rendered only for a non-empty
    cart, after the total has been computed; an empty address is refused.
    The session's list of active orders and the displayed messages are left
    out: nothing reads them back. *)
Definition place_order (user : dict) (selected_restaurant : value)
    (address phone payment_method : string) (now : R) (io : write_result)
    : M (option loc) :=
  c ← gets cart;
  match c with
  | [] => mret None
  | _ :: _ =>
      total ← lift (cart_total c);
      if String.eqb address "" then mret None
      else
        order ← lift (build_order user selected_restaurant c total
                                address phone payment_method now);
        order ← alloc order;
        new_order ← add_order order now io;
        user_id ← lift (getitem user "id");
        customer ← get_user_by_id user_id;
        h ← gets heap;
        lift (send_order_confirmation (obj h new_order) (obj h <$> customer));;
        modify (set_cart []);;
        mret (Some new_order)
  end.

(** *** pages/3_Orders_Tracking.py *)

Inductive vendor_button := Accept | Reject | ReadyForDelivery | MarkDelivered.

(** The status of the section that shows the button. *)
Definition button_section (b : vendor_button) : string :=
  match b with
  | Accept | Reject => "confirmed"
  | ReadyForDelivery => "preparing"
  | MarkDelivered => "out_for_delivery"
  end.

(** The status the button writes. *)
Definition button_status (b : vendor_button) : string :=
  match b with
  | Accept => "preparing"
  | Reject => "cancelled"
  | ReadyForDelivery => "out_for_delivery"
  | MarkDelivered => "delivered"
  end.

(** [', '.join(items)]: [items] must be an iterable of strings; a string is
    one (of its characters), and so is a dict (of its keys). *)
Definition join (items : value) : res unit :=
  match items with
  | VList l =>
      if forallb (fun v => match v with VStr _ => true | _ => false end) l
      then Ok tt else Err TypeError
  | VStr _ | VDict _ => Ok tt
  | VNone | VNum _ => Err TypeError
  end.

(** [time.localtime(t)]: [None] stands for the current time; a number is
    converted by the platform, which raises for a time it cannot represent. *)
Definition localtime (platform : R -> res unit) (t : value) : res unit :=
  match t with
  | VNone => Ok tt
  | VNum x => platform x
  | VStr _ | VList _ | VDict _ => Err TypeError
  end.

(** What a section prints for an order before the order's buttons: the id
    and the customer's name, the items, and the total, the time of the order
    or the ETA, by section. *)
Definition caption (platform : R -> res unit) (section : string) (order : dict) : res unit :=
  getitem order "id";;
  getitem order "customer_name";;
  items ← getitem order "items";
  join items;;
  if String.eqb section "confirmed" then
    getitem order "total_amount";; Ok tt
  else if String.eqb section "preparing" then
    created_at ← getitem order "created_at";
    localtime platform created_at
  else
    getitem order "eta";; Ok tt.

(** The loop of a section until the clicked button: [clicked] is the order
    whose button was clicked, if the button is one of this section.  The
    result tells whether the button was reached; the run of the page ends
    there ([st.rerun()]). *)
Fixpoint render (platform : R -> res unit) (section : string) (clicked : option loc)
    (h : heap_t) (section_orders : list loc) : res bool :=
  match section_orders with
  | [] => Ok false
  | order :: rest =>
      caption platform section (obj h order);;
      if bool_decide (clicked = Some order) then Ok true
      else render platform section clicked h rest
  end.

(** The body of the clicked button. *)
Definition on_click (b : vendor_button) (order : loc) (io : write_result) : M unit :=
  setitem order "status" (VStr (button_status b));;
  h ← gets heap;
  user_id ← lift (getitem (obj h order) "user_id");
  customer ← get_user_by_id user_id;
  lift (send_order_status_update (obj h order) (obj h <$> customer) (button_status b));;
  update_order order io;;
  mret tt.

(** A run of [show_vendor_tracking] with a click on button [b] of [order]:
    the page lists the orders of the vendor's restaurant and renders its
    sections in turn, each order with its caption and then its buttons, up
    to the clicked button.  A button is identified with the order it is
    rendered for. *)
Definition show_vendor_tracking (platform : R -> res unit) (restaurant_id : value)
    (b : vendor_button) (order : loc) (io : write_result) : M unit :=
  orders ← get_orders_by_restaurant restaurant_id;
  h ← gets heap;
  new_orders ← lift (filter_by h "status" (VStr "confirmed") orders);
  preparing_orders ← lift (filter_by h "status" (VStr "preparing") orders);
  out_for_delivery_orders ← lift (filter_by h "status" (VStr "out_for_delivery") orders);
  let clicked section :=
    if String.eqb (button_section b) section then Some order else None in
  reached ← lift (render platform "confirmed" (clicked "confirmed") h new_orders);
  if reached : bool then on_click b order io
  else
    reached ← lift (render platform "preparing" (clicked "preparing") h preparing_orders);
    if reached : bool then on_click b order io
    else
      reached ← lift (render platform "out_for_delivery" (clicked "out_for_delivery") h
                        out_for_delivery_orders);
      if reached : bool then on_click b order io
      else mret tt.

(** The simulated progression of [display_order_tracking]; [coin] is
    [random.random() < 0.1]. *)
Definition display_order_tracking (order : loc) (coin : bool) : M unit :=
  h ← gets heap;
  status ← lift (getitem (obj h order) "status");
  flag ← gets simulate_status;
  if py_eq status (VStr "confirmed") then
    if coin && negb flag then
      setitem order "status" (VStr "preparing");;
      modify (set_simulate_status true)
    else mret tt
  else if py_eq status (VStr "preparing") then
    if coin && negb flag then
      setitem order "status" (VStr "out_for_delivery");;
      modify (set_simulate_status true)
    else mret tt
  else mret tt.

End Handlers.

(** ** The operations of a session *)

(** [add_order] on a record the caller has just built. *)
Definition insert_order (order : dict) (now : R) (io : write_result) : M loc :=
  order ← alloc order;
  add_order order now io.

Inductive op :=
| OpAddToCart (menu_item restaurant : dict)
| OpRemoveFromCart (item_id : value)
| OpPlaceOrder (user : dict) (selected_restaurant : value)
    (address phone payment_method : string) (now : R) (io : write_result)
| OpInsert (order : dict) (now : R) (io : write_result)
| OpVendor (platform : R -> res unit) (restaurant_id : value) (b : vendor_button)
    (order : loc) (io : write_result)
| OpTrack (order : loc) (coin : bool).

(** The state an operation leaves, whether it returns or raises. *)
Definition run (format_value : value -> string) (o : op) (s : state) : state :=
  match o with
  | OpAddToCart menu_item restaurant => final (add_to_cart menu_item restaurant s)
  | OpRemoveFromCart item_id => final (remove_from_cart item_id s)
  | OpPlaceOrder user restaurant address phone payment_method now io =>
      final (place_order format_value user restaurant address phone payment_method now io s)
  | OpInsert order now io => final (insert_order order now io s)
  | OpVendor platform restaurant_id b order io =>
      final (show_vendor_tracking platform restaurant_id b order io s)
  | OpTrack order coin => final (display_order_tracking order coin s)
  end.

(** A fresh installation: no data file. *)
Definition init_state : state := initialize_data None.

(** The states a session reaches from the state [s0] with operations that
    satisfy [P]. *)
Inductive reachable (format_value : value -> string) (P : op -> Prop) (s0 : state)
    : state -> Prop :=
| reach_init : reachable format_value P s0 s0
| reach_step s o :
    reachable format_value P s0 s -> P o ->
    reachable format_value P s0 (run format_value o s).

(** ** Order status *)

Definition statuses : list string :=
  ["confirmed"; "preparing"; "out_for_delivery"; "delivered"; "cancelled"].

Definition status_of (s : state) (l : loc) : option value :=
  obj (heap s) l !! "status".

Definition valid_status (v : option value) : Prop :=
  exists st, v = Some (VStr st) /\ st ∈ statuses.

(** The lifecycle as the specification draws it. *)
Inductive lifecycle : string -> string -> Prop :=
| lc_prepare : lifecycle "confirmed" "preparing"
| lc_dispatch : lifecycle "preparing" "out_for_delivery"
| lc_deliver : lifecycle "out_for_delivery" "delivered"
| lc_cancel_confirmed : lifecycle "confirmed" "cancelled"
| lc_cancel_preparing : lifecycle "preparing" "cancelled".

(** The status changes the pages make. *)
Inductive page_step : string -> string -> Prop :=
| ps_accept : page_step "confirmed" "preparing"
| ps_reject : page_step "confirmed" "cancelled"
| ps_ready : page_step "preparing" "out_for_delivery"
| ps_deliver : page_step "out_for_delivery" "delivered".

(** The status of [l] stays, or moves along [step]. *)
Definition status_moves (step : string -> string -> Prop) (s s' : state) (l : loc) : Prop :=
  status_of s' l = status_of s l \/
  exists a b, status_of s l = Some (VStr a) /\ status_of s' l = Some (VStr b) /\ step a b.

(** An inserted record that carries one of the five statuses. *)
Definition carries_status (o : op) : Prop :=
  match o with
  | OpInsert order _ _ => valid_status (order !! "status")
  | _ => True
  end.

(** ** The cart invariant *)

(** All the lines of the cart name the same restaurant. *)
Definition one_restaurant (c : list dict) : Prop :=
  forall x y : dict, x ∈ c -> y ∈ c ->
    exists a, x !! "restaurant_id" = Some a /\ y !! "restaurant_id" = Some a.

(** ** Record ids *)

(** The id of the stored record [u] equals, resp. differs from, the id of [r]. *)
Definition id_matches (h : heap_t) (r u : loc) : Prop :=
  exists a b, obj h u !! "id" = Some a /\ obj h r !! "id" = Some b /\ py_eq a b = true.

Definition id_differs (h : heap_t) (r u : loc) : Prop :=
  exists a b, obj h u !! "id" = Some a /\ obj h r !! "id" = Some b /\ py_eq a b = false.

(** The write of [_save_data_to_file] on the state [s]. *)
Definition written (io : write_result) (s : state) : option document :=
  match io with
  | WriteOk => Some (snapshot s)
  | WriteFails remains => remains
  end.

(** ** More of the modules *)

(** *** utils/data_store.py: a random location *)

(** [random.uniform(a, b)]; [u] is the reading of [random.random()]. *)
Definition uniform (a b u : R) : R := (a + (b - a) * u)%R.

(** [u1] and [u2] are the two readings of [random.random()]. *)
Definition get_random_location_near (lat lng max_distance_km : value) (u1 u2 : R) : res dict :=
  m ← as_num max_distance_km;
  let max_lat_offset := (m / 111.0)%R in
  lat_rad ← radians lat;
  la ← as_num lat;
  let divisor := (111.0 * Rabs (cos lat_rad))%R in
  if decide (divisor = 0%R) then Err ZeroDivisionError
  else
    let max_lng_offset := (m / divisor)%R in
    let lat_offset := uniform (- max_lat_offset) max_lat_offset u1 in
    let lng_offset := uniform (- max_lng_offset) max_lng_offset u2 in
    lo ← as_num lng;
    Ok (list_to_map [("lat", VNum (la + lat_offset)); ("lng", VNum (lo + lng_offset))]).

(** *** utils/geo_utils.py: the simulated courier *)

(** [u1] and [u2] are the two readings of [random.random()]. *)
Definition simulate_delivery_movement (start_lat start_lng end_lat end_lng progress : value)
    (u1 u2 : R) : res dict :=
  start_lat ← as_num start_lat;
  end_lat ← as_num end_lat;
  progress ← as_num progress;
  let current_lat := (start_lat + (end_lat - start_lat) * progress)%R in
  start_lng ← as_num start_lng;
  end_lng ← as_num end_lng;
  let current_lng := (start_lng + (end_lng - start_lng) * progress)%R in
  let jitter := 0.0005%R in
  let current_lat := (current_lat + uniform (- jitter) jitter u1)%R in
  let current_lng := (current_lng + uniform (- jitter) jitter u2)%R in
  Ok (list_to_map [("lat", VNum current_lat); ("lng", VNum current_lng)]).

(** *** pages/3_Orders_Tracking.py: the progress of the delivery *)

(** What [display_order_tracking] does to [st.session_state.delivery_progress]
    when it renders an order that is out for delivery; [None] when the key
    is absent. *)
Definition advance_progress (delivery_progress : option R) : R :=
  match delivery_progress with
  | None => 0.1%R
  | Some p =>
      let p := (p + 0.02)%R in
      if Rlt_dec 0.95 p then 0.95%R else p
  end.

(** The progress after [n] more renderings. *)
Fixpoint refreshes (n : nat) (p : R) : R :=
  match n with
  | O => p
  | S n' => advance_progress (Some (refreshes n' p))
  end.

(** *** utils/authentication.py: login and the session *)

Section Authentication.

(** [hashlib.sha256(password.encode()).hexdigest()] *)
Variable hash_password : string -> string.

(** [user and user["password_hash"] == hash_password(password) and
    user["user_type"] == user_type] *)
Definition login_user (email password user_type : string) : M (bool * option loc) :=
  user ← get_user_by_email (VStr email);
  h ← gets heap;
  match user with
  | Some u =>
      if dict_truthy (obj h u) then
        stored ← lift (getitem (obj h u) "password_hash");
        if py_eq stored (VStr (hash_password password)) then
          kind ← lift (getitem (obj h u) "user_type");
          if py_eq kind (VStr user_type) then mret (true, Some u)
          else mret (false, None)
        else mret (false, None)
      else mret (false, None)
  | None => mret (false, None)
  end.

End Authentication.

(** [st.session_state.authenticated and st.session_state.user is not None] *)
Definition check_authentication (authenticated : bool) (user : option loc) : bool :=
  authenticated && bool_decide (is_Some user).

(** [io1] is the write of [update_user], [io2] the additional one. *)
Definition save_session_state (authenticated : bool) (user : option loc)
    (io1 io2 : write_result) : M unit :=
  match user with
  | Some u =>
      if check_authentication authenticated user then
        update_user u io1;;
        _save_data_to_file io2
      else mret tt
  | None => mret tt
  end.

(** *** utils/notification_service.py: the phone number

    The text [format_phone_number] returns.  A string is the sequence of
    its characters, each a code point below 256. *)
Module Sms.

(** [c.isdigit()]: the decimal digits, and the superscripts one, two and
    three. *)
Definition isdigit (c : ascii) : bool :=
  let n := nat_of_ascii c in
  (Nat.leb 48 n && Nat.leb n 57) || Nat.eqb n 178 || Nat.eqb n 179 || Nat.eqb n 185.

(** [''.join(c for c in phone_number if c.isdigit())] *)
Fixpoint cleaned (phone_number : string) : string :=
  match phone_number with
  | EmptyString => EmptyString
  | String c rest => if isdigit c then String c (cleaned rest) else cleaned rest
  end.

(** [phone_number.startswith('+')] *)
Definition startswith_plus (phone_number : string) : bool :=
  match phone_number with
  | String c _ => Ascii.eqb c "+"
  | EmptyString => false
  end.

Definition format_phone_number (phone_number : string) : string :=
  if negb (startswith_plus phone_number) then "+91" +:+ cleaned phone_number
  else phone_number.

End Sms.

(** *** pages/2_Restaurants.py: the menu by category *)

(** Only a hashable value can be a key of [menu_by_category]. *)
Definition hashable (v : value) : bool :=
  match v with
  | VList _ | VDict _ => false
  | _ => true
  end.

(** [if category not in groups: groups[category] = []] and then
    [groups[category].append(item)], on a dict that keeps the order in which
    its keys were inserted. *)
Fixpoint group_append (category : value) (item : loc) (groups : list (value * list loc))
    : list (value * list loc) :=
  match groups with
  | [] => [(category, [item])]
  | (c, items) :: groups' =>
      if py_eq c category then (c, items ++ [item]) :: groups'
      else (c, items) :: group_append category item groups'
  end.

(** The loop of [show_restaurant_details] over the menu items of the
    restaurant; [groups] is [menu_by_category] so far. *)
Fixpoint menu_by_category (h : heap_t) (menu_items : list loc)
    (groups : list (value * list loc)) : res (list (value * list loc)) :=
  match menu_items with
  | [] => Ok groups
  | item :: rest =>
      category ← getitem (obj h item) "category";
      if hashable category then menu_by_category h rest (group_append category item groups)
      else Err TypeError
  end.

(** *** pages/4_Profile.py: personal information *)

(** [profile = user.get("profile", {})] and then [profile.get("address", "")]:
    the profile, when there is one, must be a dict. *)
Definition profile_of (user : dict) : res dict :=
  match user !! "profile" with
  | None => Ok ∅
  | Some (VDict p) => Ok p
  | Some _ => Err AttributeError
  end.

(** [show_personal_info] with a click on Save Changes: the form is
    rendered from the record, then the handler writes the record of the
    session's user. *)
Definition show_personal_info (user : loc) (name phone address : string) : M unit :=
  h ← gets heap;
  lift (getitem (obj h user) "name");;
  lift (getitem (obj h user) "email");;
  lift (getitem (obj h user) "phone");;
  lift (profile_of (obj h user));;
  setitem user "name" (VStr name);;
  setitem user "phone" (VStr phone);;
  setdefault user "profile" (VDict ∅);;
  h ← gets heap;
  profile ← lift (getitem (obj h user) "profile");
  match profile with
  | VDict p => setitem user "profile" (VDict (<["address" := VStr address]> p))
  | _ => lift (Err TypeError)
  end.

(** ** Vocabulary of the properties *)

(** The profile a new user starts with. *)
Definition default_profile : value :=
  VDict (list_to_map [("address", VStr ""); ("preferences", VList []); ("allergies", VList [])]).

(** The distance the machine computes for the restaurant [l], where the
    computation returns. *)
Definition distance_to (m : Double.arithmetic) (user_location : dict) (h : heap_t)
    (l : loc) : R :=
  match Double.restaurant_distance m user_location (obj h l) with
  | Ok d => d
  | Err _ => 0%R
  end.

(** The annotated distance of the restaurant [l]: the sort key of its copy. *)
Definition shown_distance (m : Double.arithmetic) (user_location : dict) (h : heap_t)
    (l : loc) : R :=
  Double.round2 m (distance_to m user_location h l).

(** The record [get_nearby_restaurants] returns for the restaurant [l]. *)
Definition annotate (m : Double.arithmetic) (user_location : dict) (h : heap_t)
    (l : loc) : dict :=
  <["distance" := VNum (shown_distance m user_location h l)]> (obj h l).

#[global] Instance Rle_decision (x y : R) : Decision (x <= y)%R := Rle_dec x y.

Definition key_le (x y : R * loc) : Prop := (fst x <= fst y)%R.

(** What the functions of the C library and the rounding are assumed to
    satisfy: rounding and [math.sin] commute with the change of sign,
    rounding keeps a number non-negative, a square does not depend on the
    sign, [math.asin] is non-negative on [[0, 1]], and the square and the
    arc sine of 0 are 0. *)
Record lawful (m : Double.arithmetic) : Prop := Lawful {
  law_fl_opp : forall x, Double.fl m (- x) = (- Double.fl m x)%R;
  law_fl_nonneg : forall x, (0 <= x)%R -> (0 <= Double.fl m x)%R;
  law_sin_opp : forall x, Double.m_sin m (- x) = (- Double.m_sin m x)%R;
  law_square_opp : forall x, Double.m_square m (- x) = Double.m_square m x;
  law_square_0 : Double.m_square m 0 = 0%R;
  law_asin_0 : Double.m_asin m 0 = 0%R;
  law_asin_nonneg : forall x, (0 <= x <= 1)%R -> (0 <= Double.m_asin m x)%R
}.

(** The number a finite double denotes. *)
Definition float_value (x : PrimFloat.float) : R :=
  match FloatOps.Prim2SF x with
  | SpecFloat.S754_finite negative mantissa exponent =>
      let v := (IZR (Z.pos mantissa) * powerRZ 2 exponent)%R in
      if negative then (- v)%R else v
  | _ => 0%R
  end.

(** [z] is [x] without its fractional part. *)
Definition truncation (z : Z) (x : R) : Prop :=
  ((0 <= x -> IZR z <= x < IZR z + 1) /\ (x <= 0 -> IZR z - 1 < x <= IZR z))%R.

(** [s'] has the objects of [s], unchanged, and possibly new ones; the
    rest of the state is the same. *)
Definition extends (s s' : state) : Prop :=
  exists extra,
    heap s' = heap s ++ extra /\
    data_store s' = data_store s /\
    disk s' = disk s /\
    cart s' = cart s /\
    simulate_status s' = simulate_status s.

(** What an operation does to the objects and to the orders: nothing; or one
    status moves along [page_step] and no order is added; or one new order,
    a record that satisfies [N], is appended. *)
Inductive op_effect (N : dict -> Prop) (s s' : state) : Prop :=
| eff_none :
    heap s' = heap s ->
    data_store s' = data_store s ->
    op_effect N s s'
| eff_status (l : loc) (a b : string) :
    status_of s l = Some (VStr a) ->
    page_step a b ->
    heap s' = <[l := <["status" := VStr b]> (obj (heap s) l)]> (heap s) ->
    (forall l', l' ∈ orders (data_store s') -> l' ∈ orders (data_store s)) ->
    op_effect N s s'
| eff_new (d : dict) :
    N d ->
    heap s' = heap s ++ [d] ->
    orders (data_store s') = orders (data_store s) ++ [length (heap s)] ->
    op_effect N s s'.

(** The record [setdefault] leaves. *)
Definition with_default (k : string) (v : value) (d : dict) : dict :=
  match d !! k with
  | None => <[k := v]> d
  | Some _ => d
  end.

(** The record [add_order] stores for the record [d] when the orders hold
    [n] records. *)
Definition order_defaults (n : nat) (now : R) (d : dict) : dict :=
  with_default "status" (VStr "pending")
    (with_default "created_at" (VNum now)
       (with_default "id" (VStr ("order" +:+ pretty (n + 1))) d)).

(** The record an operation may add to the orders. *)
Definition adds (o : op) (d : dict) : Prop :=
  match o with
  | OpPlaceOrder _ _ _ _ _ _ _ => d !! "status" = Some (VStr "confirmed")
  | OpInsert order _ _ => d !! "status" = Some (default (VStr "pending") (order !! "status"))
  | _ => False
  end.

(** The orders of the store are objects with one of the five statuses. *)
Definition orders_valid (s : state) : Prop :=
  forall l, l ∈ orders (data_store s) ->
    l < length (heap s) /\ valid_status (status_of s l).

(** The sections the page renders until it reaches button [b], in order. *)
Definition sections_until (b : vendor_button) : list string :=
  match b with
  | Accept | Reject => ["confirmed"]
  | ReadyForDelivery => ["confirmed"; "preparing"]
  | MarkDelivered => ["confirmed"; "preparing"; "out_for_delivery"]
  end.

(** The page can print what it lists until button [b]: every order of the
    restaurant in one of these sections has what its caption needs. *)
Definition captions_render (platform : R -> res unit) (restaurant_id : value)
    (b : vendor_button) (s : state) : Prop :=
  forall l section,
    l ∈ orders (data_store s) ->
    obj (heap s) l !! "restaurant_id" = Some restaurant_id ->
    section ∈ sections_until b ->
    status_of s l = Some (VStr section) ->
    caption platform section (obj (heap s) l) = Ok tt.

(** A result with its value mapped. *)
Definition res_map {A B : Type} (f : A -> B) (r : res A) : res B :=
  match r with
  | Ok a => Ok (f a)
  | Err e => Err e
  end.

(** What a lookup returns, with the record by value. *)
Definition by_value (o : outcome (option loc)) : res (option dict) :=
  match o with
  | Ret l s => Ok (obj (heap s) <$> l)
  | Raise e _ => Err e
  end.

Definition all_by_value (o : outcome (list loc)) : res (list dict) :=
  match o with
  | Ret ls s => Ok (obj (heap s) <$> ls)
  | Raise e _ => Err e
  end.

(** All the references the store holds. *)
Definition all_records (d : data_store_t) : list loc :=
  users d ++ restaurants d ++ menu_items d ++ orders d.

(** The records of a collection carry the ids the store assigns: the
    [i]-th record (counting from one) has the id [<prefix><i>]. *)
Definition ids_assigned (prefix : string) (h : heap_t) (ls : list loc) : Prop :=
  forall i l, ls !! i = Some l -> obj h l !! "id" = Some (VStr (prefix +:+ pretty (i + 1))).

(** An outcome without the data file. *)
Definition in_memory {A : Type} (o : outcome A) : outcome A :=
  match o with
  | Ret a s => Ret a (set_disk None s)
  | Raise e s => Raise e (set_disk None s)
  end.

(** The ids of the lines of a cart. *)
Definition line_ids (c : list dict) : list (option value) := (fun d : dict => d !! "id") <$> c.

(** Every line has an id, and no two lines have the same one. *)
Definition lines_distinct (c : list dict) : Prop :=
  Forall (fun d : dict => is_Some (d !! "id")) c /\ NoDup (line_ids c).

(** [groups] is the menu [ms] by category: no category twice, every
    group is the non-empty list of the items of its category in the order of
    the menu, and every category of the menu has a group. *)
Definition grouped (h : heap_t) (ms : list loc) (groups : list (value * list loc)) : Prop :=
  NoDup (fst <$> groups) /\
  (forall c items, (c, items) ∈ groups ->
     items <> [] /\ items = filter (fun l => obj h l !! "category" = Some c) ms) /\
  (forall l c, l ∈ ms -> obj h l !! "category" = Some c -> c ∈ (fst <$> groups)).

(** [m] never clears the flag of the simulation. *)
Definition keeps_flag {A : Type} (m : M A) : Prop :=
  forall s, simulate_status s = true -> simulate_status (final (m s)) = true.

(** ** Example data *)

(** Two users in the store, and two records offered for update: one with
    the id of the first user, one with an unknown id. *)
Definition users_example : state :=
  State [ list_to_map [("id", VStr "1700000000"); ("name", VStr "Asha")];
          list_to_map [("id", VStr "1700000001"); ("name", VStr "Ravi")];
          list_to_map [("id", VStr "1700000000"); ("name", VStr "Asha K")];
          list_to_map [("id", VStr "1700000009"); ("name", VStr "Meera")] ]
        (DataStore [0; 1] [] [] [])
        None [] false.

(** A store with two restaurants, and a new record without an id. *)
Definition insert_example : state :=
  State [ list_to_map [("id", VStr "rest1"); ("name", VStr "Dosa Corner")];
          list_to_map [("id", VStr "rest2"); ("name", VStr "Biryani House")];
          list_to_map [("name", VStr "Chaat Street")] ]
        (DataStore [] [0; 1] [] [])
        None [] false.

(** One registered customer. *)
Definition registered_example : state :=
  State [ list_to_map [("id", VStr "1700000000"); ("name", VStr "Asha");
                       ("email", VStr "asha@example.com")] ]
        (DataStore [0] [] [] [])
        None [] false.

Definition dosa_corner : dict :=
  list_to_map [("id", VStr "rest1"); ("name", VStr "Dosa Corner")].
Definition biryani_house : dict :=
  list_to_map [("id", VStr "rest2"); ("name", VStr "Biryani House")].
Definition masala_dosa : dict :=
  list_to_map [("id", VStr "item1"); ("restaurant_id", VStr "rest1");
               ("name", VStr "Masala Dosa"); ("price", VNum 80)].
Definition biryani : dict :=
  list_to_map [("id", VStr "item7"); ("restaurant_id", VStr "rest2");
               ("name", VStr "Biryani"); ("price", VNum 220)].
Definition dosa_line : dict :=
  list_to_map [("id", VStr "item1"); ("name", VStr "Masala Dosa"); ("price", VNum 80);
               ("quantity", VNum 1); ("restaurant_id", VStr "rest1");
               ("restaurant_name", VStr "Dosa Corner")].
(** A cart that holds one Masala Dosa from Dosa Corner. *)
Definition cart_example : state :=
  State [] empty_data_store None [dosa_line] false.

Definition near_location (lat : R) : value :=
  VDict (list_to_map [("lat", VNum lat); ("lng", VNum 77.5946);
                      ("address", VStr "MG Road, Bengaluru")]).
Definition rest_far : dict :=
  list_to_map [("id", VStr "rest1"); ("name", VStr "Dosa Corner");
               ("location", near_location 12.97162)].
Definition rest_near : dict :=
  list_to_map [("id", VStr "rest2"); ("name", VStr "Biryani House");
               ("location", near_location 12.97161)].
(** The farther restaurant is listed first. *)
Definition nearby_example : state :=
  State [rest_far; rest_near] (DataStore [] [0%nat; 1%nat] [] []) None [] false.

(** An order record without a status, as a caller other than the checkout
    page could insert it. *)
Definition bare_order : dict :=
  list_to_map [("user_id", VStr "1700000000"); ("restaurant_id", VStr "rest1");
               ("items", VList [VStr "Masala Dosa x1"]); ("total_amount", VNum 80)].
Definition confirmed_order : dict := <["status" := VStr "confirmed"]> bare_order.

Definition asha : dict :=
  list_to_map [("id", VStr "1700000000"); ("name", VStr "Asha");
               ("email", VStr "asha@example.com"); ("phone", VStr "9845000000");
               ("user_type", VStr "customer")].
(** The restaurant as the customer selected it: a copy with its distance. *)
Definition shown_far : dict := <["distance" := VNum 0]> rest_far.
(** Asha has a Masala Dosa from Dosa Corner in her cart. *)
Definition checkout_example : state :=
  State [asha; rest_far] (DataStore [0%nat] [1%nat] [] []) None [dosa_line] false.
Definition checkout_order (format_value : value -> string) : dict :=
  list_to_map [
    ("user_id", VStr "1700000000");
    ("customer_name", VStr "Asha");
    ("restaurant_id", VStr "rest1");
    ("restaurant_name", VStr "Dosa Corner");
    ("items", VList [VStr (format_value (VStr "Masala Dosa") +:+ " x" +:+ format_value (VNum 1))]);
    ("item_details", VList [VDict dosa_line]);
    ("total_amount", VNum (80 * 1 + 0));
    ("delivery_address", VStr "12 MG Road");
    ("phone", VStr "9845000000");
    ("payment_method", VStr "UPI");
    ("status", VStr "confirmed");
    ("eta", VStr "10 minutes");
    ("created_at", VNum 1700000600);
    ("distance_km", VNum ((12.97162 - 12.9716) * PI / 180 * 6371))
  ].

(** Two restaurants with the ids the store assigned, a new record without
    an id, and a delivered order. *)
Definition lookup_example : state :=
  State [ list_to_map [("id", VStr "rest1"); ("name", VStr "Dosa Corner")];
          list_to_map [("id", VStr "rest2"); ("name", VStr "Biryani House")];
          list_to_map [("name", VStr "Chaat Street")];
          list_to_map [("id", VStr "order1"); ("status", VStr "delivered")] ]
        (DataStore [] [0; 1] [] [3])
        None [] false.

(** A state with one registered customer whose password is ["secret"]. *)
Definition login_example : state :=
  State [ new_user (fun p => p) "Asha" "asha@example.com" "9845000000" "secret" "customer"
            1700000000 1700000000 ]
        (DataStore [0] [] [] [])
        None [] false.

(** Three dishes of one restaurant, the second and third of them in the
    same category. *)
Definition menu_example : heap_t :=
  [ list_to_map [("id", VStr "item1"); ("name", VStr "Samosa"); ("category", VStr "Starters")];
    list_to_map [("id", VStr "item2"); ("name", VStr "Biryani"); ("category", VStr "Main Course")];
    list_to_map [("id", VStr "item3"); ("name", VStr "Dal"); ("category", VStr "Main Course")] ].

(** Two customers' orders at Dosa Corner: Asha's, and one of a customer
    who has no record in the store. *)
Definition asha_order : dict :=
  list_to_map [("id", VStr "order1"); ("user_id", VStr "1700000000");
               ("customer_name", VStr "Asha");
               ("restaurant_id", VStr "rest1"); ("restaurant_name", VStr "Dosa Corner");
               ("items", VList [VStr "Masala Dosa x1"]); ("total_amount", VNum 80);
               ("status", VStr "confirmed"); ("eta", VStr "10 minutes")].
Definition orphan_order : dict :=
  list_to_map [("id", VStr "order2"); ("user_id", VStr "1699999999");
               ("customer_name", VStr "Kiran");
               ("restaurant_id", VStr "rest1"); ("restaurant_name", VStr "Dosa Corner");
               ("items", VList [VStr "Idli x2"]); ("total_amount", VNum 60);
               ("status", VStr "confirmed"); ("eta", VStr "10 minutes")].
Definition vendor_example : state :=
  State [asha; asha_order; orphan_order] (DataStore [0] [] [] [1; 2]) None [] false.

(** * Properties *)

(** ** Values *)

Lemma py_eq_true (a b : value) : py_eq a b = true <-> a = b.
Proof.
  destruct a, b; simpl; split; intros H; try discriminate; try reflexivity;
    try (apply bool_decide_eq_true in H; congruence);
    try (apply bool_decide_eq_true; congruence).
  - apply String.eqb_eq in H. congruence.
  - apply String.eqb_eq. congruence.
Qed.

Lemma py_eq_refl (a : value) : py_eq a a = true.
Proof. by apply py_eq_true. Qed.

Lemma py_eq_false (a b : value) : py_eq a b = false <-> a <> b.
Proof.
  rewrite <- py_eq_true. destruct (py_eq a b); split; congruence.
Qed.

Lemma py_eq_str (v : value) (st : string) :
  py_eq v (VStr st) = true -> v = VStr st.
Proof. apply py_eq_true. Qed.

Lemma dict_truthy_lookup (d : dict) (k : string) (v : value) :
  d !! k = Some v -> dict_truthy d = true.
Proof.
  intros H. unfold dict_truthy.
  destruct (Nat.eqb_spec (size d) 0) as [E|]; [|done].
  apply map_size_empty_inv in E. subst d. by rewrite lookup_empty in H.
Qed.

(** ** The heap *)

Lemma obj_lookup (h : heap_t) (l : loc) (d : dict) :
  h !! l = Some d -> obj h l = d.
Proof. intros H. unfold obj. by rewrite (list_lookup_total_correct _ _ _ H). Qed.

Lemma obj_insert_eq (h : heap_t) (l : loc) (d : dict) :
  l < length h -> obj (<[l := d]> h) l = d.
Proof. intros H. apply obj_lookup. by apply list_lookup_insert_eq. Qed.

Lemma obj_insert_ne (h : heap_t) (l l' : loc) (d : dict) :
  l <> l' -> obj (<[l := d]> h) l' = obj h l'.
Proof. intros H. unfold obj. by rewrite list_lookup_total_insert_ne. Qed.

Lemma obj_app_l (h h' : heap_t) (l : loc) :
  l < length h -> obj (h ++ h') l = obj h l.
Proof. intros H. unfold obj. by rewrite lookup_total_app_l. Qed.

Lemma obj_app_new (h : heap_t) (d : dict) : obj (h ++ [d]) (length h) = d.
Proof. apply obj_lookup. by rewrite lookup_app_r, Nat.sub_diag. Qed.

(** ** update *)

Lemma update_index_none (h : heap_t) (r : loc) (ls : list loc) (i : nat) :
  (forall u, u ∈ ls -> id_differs h r u) ->
  update_index h r i ls = Ok None.
Proof.
  revert i. induction ls as [|u ls IH]; intros i H; [done|].
  destruct (H u) as (a & b & Ha & Hb & Hab); [left|].
  simpl. unfold getitem. rewrite Ha, Hb. simpl. rewrite Hab.
  apply IH. intros u' Hu'. apply H. by right.
Qed.

Lemma update_index_first (h : heap_t) (r : loc) (ls : list loc) (i k : nat) (u : loc) :
  ls !! k = Some u ->
  id_matches h r u ->
  (forall j u', j < k -> ls !! j = Some u' -> id_differs h r u') ->
  update_index h r i ls = Ok (Some (i + k)).
Proof.
  revert i k. induction ls as [|u0 ls IH]; intros i k Hk Hm Hbefore; [done|].
  destruct k as [|k].
  - injection Hk as ->. destruct Hm as (a & b & Ha & Hb & Hab).
    simpl. unfold getitem. rewrite Ha, Hb. simpl. rewrite Hab.
    by rewrite Nat.add_0_r.
  - destruct (Hbefore 0 u0) as (a & b & Ha & Hb & Hab); [lia|done|].
    simpl. unfold getitem. rewrite Ha, Hb. simpl. rewrite Hab.
    rewrite (IH (S i) k); [f_equal; f_equal; lia|done|done|].
    intros j u' Hj Hu'. apply (Hbefore (S j) u'); [lia|done].
Qed.

Lemma coll_set_coll (c : collection) (ls : list loc) (d : data_store_t) :
  coll c (set_coll c ls d) = ls.
Proof. by destruct c. Qed.

Lemma coll_set_coll_ne (c c' : collection) (ls : list loc) (d : data_store_t) :
  c' <> c -> coll c' (set_coll c ls d) = coll c' d.
Proof. by destruct c, c'. Qed.

(** C5. [update_user], [update_restaurant], [update_menu_item] and
    [update_order] ([update_record] at their collection): when the id of the
    record equals the id of no stored record, the call returns [False] and
    the whole state (collection, in-memory store, data file) is as before;
    when some stored record has the id, the call returns [True] and the
    collection differs in one place only, the first record with that id,
    which now is the given record. *)
Theorem update_record_spec (c : collection) (r : loc) (io : write_result) (s : state) :
  ((forall u, u ∈ coll c (data_store s) -> id_differs (heap s) r u) ->
     update_record c r io s = Ret false s) /\
  (forall k u,
     coll c (data_store s) !! k = Some u ->
     id_matches (heap s) r u ->
     (forall j u', j < k -> coll c (data_store s) !! j = Some u' -> id_differs (heap s) r u') ->
     exists s',
       update_record c r io s = Ret true s' /\
       coll c (data_store s') = <[k := r]> (coll c (data_store s)) /\
       coll c (data_store s') !! k = Some r /\
       (forall j, j <> k -> coll c (data_store s') !! j = coll c (data_store s) !! j) /\
       (forall c', c' <> c -> coll c' (data_store s') = coll c' (data_store s)) /\
       heap s' = heap s /\
       disk s' = written io s').
Proof.
  split.
  - intros H. unfold update_record, mbind, M_bind, gets, lift. simpl.
    by rewrite (update_index_none _ _ _ _ H).
  - intros k u Hk Hm Hbefore.
    unfold update_record, mbind, M_bind, gets, lift. simpl.
    rewrite (update_index_first _ _ _ 0 k u Hk Hm Hbefore). simpl.
    eexists. split; [reflexivity|]. simpl.
    rewrite coll_set_coll.
    split; [done|]. split; [|split; [|split; [|split]]].
    + apply list_lookup_insert_eq. by apply lookup_lt_Some in Hk.
    + intros j Hj. by apply list_lookup_insert_ne.
    + intros c' Hc'. by apply coll_set_coll_ne.
    + done.
    + by destruct io.
Qed.

Lemma update_record_spec_witness :
  update_user 3 WriteOk users_example = Ret false users_example /\
  exists s', update_user 2 WriteOk users_example = Ret true s' /\
             users (data_store s') = [2; 1].
Proof.
  split.
  - apply (proj1 (update_record_spec Users 3 WriteOk users_example)).
    intros u Hu. simpl in Hu.
    apply elem_of_cons in Hu as [->|Hu]; [|apply list_elem_of_singleton in Hu as ->].
    + exists (VStr "1700000000"), (VStr "1700000009"). by vm_compute.
    + exists (VStr "1700000001"), (VStr "1700000009"). by vm_compute.
  - destruct (proj2 (update_record_spec Users 2 WriteOk users_example) 0 0)
      as (s' & Hs' & Hcoll & _).
    + reflexivity.
    + exists (VStr "1700000000"), (VStr "1700000000"). by vm_compute.
    + intros j u' Hj. lia.
    + exists s'. split; [exact Hs'|]. exact Hcoll.
Defined.

(** ** insert *)

Lemma setdefault_run (r : loc) (k : string) (v : value) (s : state) :
  r < length (heap s) ->
  exists s',
    setdefault r k v s = Ret tt s' /\
    length (heap s') = length (heap s) /\
    data_store s' = data_store s /\
    disk s' = disk s /\
    cart s' = cart s /\
    simulate_status s' = simulate_status s /\
    obj (heap s') r !! k = Some (default v (obj (heap s) r !! k)) /\
    (forall k', k' <> k -> obj (heap s') r !! k' = obj (heap s) r !! k') /\
    (forall l, l <> r -> obj (heap s') l = obj (heap s) l).
Proof.
  intros Hr. unfold setdefault, mbind, M_bind, gets. simpl.
  destruct (obj (heap s) r !! k) as [x|] eqn:E.
  - exists s. simpl. rewrite E. by repeat split.
  - eexists. split; [reflexivity|]. simpl. rewrite length_insert.
    repeat split; try done.
    + rewrite obj_insert_eq by done. by rewrite lookup_insert_eq.
    + intros k' Hk'. rewrite obj_insert_eq by done. by rewrite lookup_insert_ne.
    + intros l Hl. by apply obj_insert_ne.
Qed.

Lemma append_record_run (c : collection) (r : loc) (io : write_result) (s : state) :
  exists s',
    append_record c r io s = Ret tt s' /\
    heap s' = heap s /\
    coll c (data_store s') = coll c (data_store s) ++ [r] /\
    (forall c', c' <> c -> coll c' (data_store s') = coll c' (data_store s)) /\
    disk s' = written io s' /\
    cart s' = cart s /\
    simulate_status s' = simulate_status s.
Proof.
  eexists. split; [reflexivity|]. simpl. rewrite coll_set_coll.
  split; [done|]. split; [done|]. split; [|split; [by destruct io|done]].
  intros c' Hc'. by apply coll_set_coll_ne.
Qed.

(** C2, as the code has it.  For the restaurants, the menu items and the
    orders, a record inserted without an ["id"] gets the id
    [<prefix><count+1>], where [count] is the number of records already in
    the collection and the prefix is [rest], [item] or [order]; the record
    is appended to its collection.  For the users, the record is appended
    as it is: no object changes, and the record still has no ["id"]. *)
Theorem add_assigns_id (r : loc) (now : R) (io : write_result) (s : state) :
  r < length (heap s) ->
  obj (heap s) r !! "id" = None ->
  (exists s',
     add_restaurant r io s = Ret true s' /\
     obj (heap s') r !! "id" =
       Some (VStr ("rest" +:+ pretty (length (restaurants (data_store s)) + 1))) /\
     restaurants (data_store s') = restaurants (data_store s) ++ [r]) /\
  (exists s',
     add_menu_item r io s = Ret true s' /\
     obj (heap s') r !! "id" =
       Some (VStr ("item" +:+ pretty (length (menu_items (data_store s)) + 1))) /\
     menu_items (data_store s') = menu_items (data_store s) ++ [r]) /\
  (exists s',
     add_order r now io s = Ret r s' /\
     obj (heap s') r !! "id" =
       Some (VStr ("order" +:+ pretty (length (orders (data_store s)) + 1))) /\
     orders (data_store s') = orders (data_store s) ++ [r]) /\
  (exists s',
     add_user r io s = Ret true s' /\
     heap s' = heap s /\
     obj (heap s') r !! "id" = None /\
     users (data_store s') = users (data_store s) ++ [r]).
Proof.
  intros Hr Hid. split; [|split; [|split]].
  - unfold add_restaurant. unfold mbind at 1, M_bind at 1. simpl.
    destruct (setdefault_run r "id"
                (VStr ("rest" +:+ pretty (length (restaurants (data_store s)) + 1))) s Hr)
      as (s1 & E1 & _ & D1 & _ & _ & _ & I1 & _ & _).
    unfold mbind at 1, M_bind at 1. rewrite E1.
    destruct (append_record_run Restaurants r io s1) as (s2 & E2 & H2 & C2 & _).
    unfold mbind at 1, M_bind at 1. rewrite E2.
    exists s2. split; [done|]. rewrite H2, I1, Hid. split; [done|].
    simpl in C2. by rewrite C2, D1.
  - unfold add_menu_item. unfold mbind at 1, M_bind at 1. simpl.
    destruct (setdefault_run r "id"
                (VStr ("item" +:+ pretty (length (menu_items (data_store s)) + 1))) s Hr)
      as (s1 & E1 & _ & D1 & _ & _ & _ & I1 & _ & _).
    unfold mbind at 1, M_bind at 1. rewrite E1.
    destruct (append_record_run MenuItems r io s1) as (s2 & E2 & H2 & C2 & _).
    unfold mbind at 1, M_bind at 1. rewrite E2.
    exists s2. split; [done|]. rewrite H2, I1, Hid. split; [done|].
    simpl in C2. by rewrite C2, D1.
  - unfold add_order. unfold mbind at 1, M_bind at 1. simpl.
    destruct (setdefault_run r "id"
                (VStr ("order" +:+ pretty (length (orders (data_store s)) + 1))) s Hr)
      as (s1 & E1 & L1 & D1 & _ & _ & _ & I1 & _ & _).
    unfold mbind at 1, M_bind at 1. rewrite E1.
    destruct (setdefault_run r "created_at" (VNum now) s1) as
      (s2 & E2 & L2 & D2 & _ & _ & _ & _ & K2 & _); [lia|].
    unfold mbind at 1, M_bind at 1. rewrite E2.
    destruct (setdefault_run r "status" (VStr "pending") s2) as
      (s3 & E3 & L3 & D3 & _ & _ & _ & _ & K3 & _); [lia|].
    unfold mbind at 1, M_bind at 1. rewrite E3.
    destruct (append_record_run Orders r io s3) as (s4 & E4 & H4 & C4 & _).
    unfold mbind at 1, M_bind at 1. rewrite E4.
    exists s4. split; [done|]. rewrite H4, K3, K2, I1, Hid by done. split; [done|].
    simpl in C4. by rewrite C4, D3, D2, D1.
  - unfold add_user.
    destruct (append_record_run Users r io s) as (s1 & E1 & H1 & C1 & _).
    unfold mbind at 1, M_bind at 1. rewrite E1.
    exists s1. split; [done|]. rewrite H1. by repeat split.
Qed.

Lemma add_assigns_id_witness :
  (exists s',
     add_restaurant 2 WriteOk insert_example = Ret true s' /\
     obj (heap s') 2 !! "id" = Some (VStr "rest3") /\
     restaurants (data_store s') = [0; 1; 2]) /\
  (exists s',
     add_menu_item 2 WriteOk insert_example = Ret true s' /\
     obj (heap s') 2 !! "id" = Some (VStr "item1") /\
     menu_items (data_store s') = [2]) /\
  (exists s',
     add_order 2 0 WriteOk insert_example = Ret 2 s' /\
     obj (heap s') 2 !! "id" = Some (VStr "order1") /\
     orders (data_store s') = [2]) /\
  (exists s',
     add_user 2 WriteOk insert_example = Ret true s' /\
     heap s' = heap insert_example /\
     obj (heap s') 2 !! "id" = None /\
     users (data_store s') = [2]).
Proof.
  apply (add_assigns_id 2 0 WriteOk insert_example).
  - simpl. lia.
  - reflexivity.
Defined.

(** C2 as stated fails for the users: [add_user] stores the record as it
    is, without an id. *)
Lemma add_user_assigns_no_id :
  exists s',
    add_user 2 WriteOk insert_example = Ret true s' /\
    users (data_store s') = [2] /\
    obj (heap s') 2 !! "id" = None.
Proof. eexists. split; [reflexivity|]. split; reflexivity. Qed.

(** ** register *)

Lemma find_by_none (h : heap_t) (k : string) (v : value) (ls : list loc) :
  (forall u, u ∈ ls -> exists x, obj h u !! k = Some x /\ x <> v) ->
  find_by h k v ls = Ok None.
Proof.
  induction ls as [|u ls IH]; intros H; [done|].
  destruct (H u) as (x & Hx & Hne); [left|].
  simpl. unfold getitem. rewrite Hx. simpl.
  apply py_eq_false in Hne. rewrite Hne.
  apply IH. intros u' Hu'. apply H. by right.
Qed.

Lemma find_by_first (h : heap_t) (k : string) (v : value) (ls : list loc) (i : nat) (u : loc) :
  ls !! i = Some u ->
  obj h u !! k = Some v ->
  (forall j u', j < i -> ls !! j = Some u' -> exists x, obj h u' !! k = Some x /\ x <> v) ->
  find_by h k v ls = Ok (Some u).
Proof.
  revert i. induction ls as [|u0 ls IH]; intros i Hi Hu Hbefore; [done|].
  destruct i as [|i].
  - injection Hi as ->. simpl. unfold getitem. rewrite Hu. simpl.
    by rewrite py_eq_refl.
  - destruct (Hbefore 0 u0) as (x & Hx & Hne); [lia|done|].
    simpl. unfold getitem. rewrite Hx. simpl.
    apply py_eq_false in Hne. rewrite Hne.
    apply (IH i); [done|done|].
    intros j u' Hj Hu'. apply (Hbefore (S j) u'); [lia|done].
Qed.

(** C6. [register_user] with an email that a stored user already has
    returns [(False, None)] and leaves the whole state, hence every user
    record, as it was; with an email that no stored user has, it returns
    [(True, user)] for a new record that carries the given fields and the
    default profile, appended to the users; the records that existed are
    not touched. *)
Theorem register_user_spec (hash_password : string -> string)
    (name email phone password user_type : string) (now_id now_created : R)
    (io : write_result) (s : state) :
  (forall k u,
     users (data_store s) !! k = Some u ->
     obj (heap s) u !! "email" = Some (VStr email) ->
     (forall j u', j < k -> users (data_store s) !! j = Some u' ->
        exists e, obj (heap s) u' !! "email" = Some e /\ e <> VStr email) ->
     register_user hash_password name email phone password user_type now_id now_created io s
       = Ret (false, None) s) /\
  ((forall u, u ∈ users (data_store s) ->
      exists e, obj (heap s) u !! "email" = Some e /\ e <> VStr email) ->
   exists s',
     let user := length (heap s) in
     register_user hash_password name email phone password user_type now_id now_created io s
       = Ret (true, Some user) s' /\
     heap s' = heap s ++
       [new_user hash_password name email phone password user_type now_id now_created] /\
     obj (heap s') user !! "email" = Some (VStr email) /\
     obj (heap s') user !! "name" = Some (VStr name) /\
     obj (heap s') user !! "phone" = Some (VStr phone) /\
     obj (heap s') user !! "user_type" = Some (VStr user_type) /\
     obj (heap s') user !! "password_hash" = Some (VStr (hash_password password)) /\
     obj (heap s') user !! "profile" = Some default_profile /\
     users (data_store s') = users (data_store s) ++ [user] /\
     (forall l, l < length (heap s) -> obj (heap s') l = obj (heap s) l) /\
     disk s' = written io s').
Proof.
  split.
  - intros k u Hk Hu Hbefore.
    unfold register_user, get_user_by_email, get_by, mbind, M_bind, gets, lift. simpl.
    rewrite (find_by_first _ _ _ _ k u Hk Hu Hbefore). simpl.
    by rewrite (dict_truthy_lookup _ _ _ Hu).
  - intros Habsent.
    unfold register_user, get_user_by_email, get_by, mbind, M_bind, gets, lift. simpl.
    rewrite (find_by_none _ _ _ _ Habsent). simpl.
    eexists. split; [reflexivity|]. simpl.
    rewrite obj_app_new.
    split; [done|]. do 6 (split; [reflexivity|]). split; [done|].
    split; [|by destruct io].
    intros l Hl. by apply obj_app_l.
Qed.

Lemma register_user_spec_witness :
  register_user (fun p => p) "Imposter" "asha@example.com" "98450" "secret" "customer"
      1700000500 1700000500 WriteOk registered_example
    = Ret (false, None) registered_example /\
  exists s',
    register_user (fun p => p) "Ravi" "ravi@example.com" "98451" "secret" "vendor"
        1700000500 1700000500 WriteOk registered_example
      = Ret (true, Some 1) s' /\
    users (data_store s') = [0; 1] /\
    obj (heap s') 0 = obj (heap registered_example) 0.
Proof.
  split.
  - apply (proj1 (register_user_spec (fun p => p) "Imposter" "asha@example.com" "98450"
                    "secret" "customer" 1700000500 1700000500 WriteOk registered_example)
             0 0).
    + reflexivity.
    + reflexivity.
    + intros j u' Hj. lia.
  - destruct (proj2 (register_user_spec (fun p => p) "Ravi" "ravi@example.com" "98451"
                       "secret" "vendor" 1700000500 1700000500 WriteOk registered_example))
      as (s' & Hs' & _ & _ & _ & _ & _ & _ & _ & Hu & Hold & _).
    + intros u Hu. apply list_elem_of_singleton in Hu as ->.
      exists (VStr "asha@example.com"). split; [reflexivity|]. discriminate.
    + exists s'. split; [exact Hs'|]. split; [exact Hu|].
      apply Hold. simpl. lia.
Defined.

(** ** The cart *)

Lemma find_item_Some (v : value) (i0 i : nat) (c : list dict) :
  find_item v i0 c = Ok (Some i) ->
  exists item x,
    i0 <= i /\ c !! (i - i0) = Some item /\ item !! "id" = Some x /\ py_eq x v = true.
Proof.
  revert i0. induction c as [|item c IH]; intros i0 H; [done|].
  simpl in H. unfold getitem in H.
  destruct (item !! "id") as [x|] eqn:Hx; [|done]. simpl in H.
  destruct (py_eq x v) eqn:Hxv.
  - injection H as <-. exists item, x. rewrite Nat.sub_diag. by repeat split.
  - destruct (IH _ H) as (item' & x' & Hle & Hi & Hx' & Hv').
    exists item', x'. split; [lia|]. split; [|done].
    replace (i - i0) with (S (i - S i0)) by lia. done.
Qed.

Lemma find_item_first (v : value) (i0 i : nat) (c : list dict) (item : dict) :
  c !! i = Some item ->
  item !! "id" = Some v ->
  (forall j item', j < i -> c !! j = Some item' ->
     exists x, item' !! "id" = Some x /\ x <> v) ->
  find_item v i0 c = Ok (Some (i0 + i)).
Proof.
  revert i0 i. induction c as [|item0 c IH]; intros i0 i Hi Hv Hbefore; [done|].
  destruct i as [|i].
  - injection Hi as ->. simpl. unfold getitem. rewrite Hv. simpl.
    by rewrite py_eq_refl, Nat.add_0_r.
  - destruct (Hbefore 0 item0) as (x & Hx & Hne); [lia|done|].
    simpl. unfold getitem. rewrite Hx. simpl.
    apply py_eq_false in Hne. rewrite Hne.
    rewrite (IH (S i0) i); [f_equal; f_equal; lia|done|done|].
    intros j item' Hj Hitem'. apply (Hbefore (S j) item'); [lia|done].
Qed.

Lemma without_item_subset (item_id : value) (c c' : list dict) :
  without_item item_id c = Ok c' -> forall x, x ∈ c' -> x ∈ c.
Proof.
  revert c'. induction c as [|item c IH]; intros c' H x Hx.
  - injection H as <-. done.
  - simpl in H. unfold getitem in H.
    destruct (item !! "id") as [v|]; [|done]. simpl in H.
    destruct (without_item item_id c) as [rest|]; [|done]. simpl in H.
    injection H as <-. destruct (py_eq v item_id).
    + right. by apply (IH rest).
    + apply elem_of_cons in Hx as [->|Hx]; [left|right; by apply (IH rest)].
Qed.

Lemma new_cart_item_restaurant (menu_item restaurant item : dict) :
  new_cart_item menu_item restaurant = Ok item ->
  exists b, restaurant !! "id" = Some b /\ item !! "restaurant_id" = Some b.
Proof.
  unfold new_cart_item, getitem. intros H.
  destruct (menu_item !! "id"); [|done].
  destruct (menu_item !! "name"); [|done].
  destruct (menu_item !! "price"); [|done].
  destruct (restaurant !! "id") as [b|]; [|done].
  destruct (restaurant !! "name"); [|done].
  simpl in H. injection H as <-. by exists b.
Qed.

(** What [add_to_cart] leaves in the cart. *)
Lemma add_to_cart_cases (menu_item restaurant : dict) (s : state) :
  let c := cart s in
  let c' := cart (final (add_to_cart menu_item restaurant s)) in
  c' = c \/
  (exists i item n,
     c !! i = Some item /\ c' = <[i := <["quantity" := VNum n]> item]> c) \/
  (exists item b,
     c' = c ++ [item] /\
     restaurant !! "id" = Some b /\
     item !! "restaurant_id" = Some b /\
     same_restaurant c restaurant = Ok true).
Proof.
  unfold add_to_cart, mbind, M_bind, gets, lift, modify. simpl.
  destruct (same_restaurant (cart s) restaurant) as [[|]|] eqn:Hsame; simpl; [|by left..].
  destruct (new_cart_item menu_item restaurant) as [cart_item|] eqn:Hnew; simpl; [|by left].
  destruct (new_cart_item_restaurant _ _ _ Hnew) as (b & Hb & Hitem).
  destruct (getitem menu_item "id") as [menu_id|]; simpl; [|by left].
  destruct (find_item menu_id 0 (cart s)) as [[i|]|] eqn:Hfind; simpl; [| |by left].
  - destruct (find_item_Some _ _ _ _ Hfind) as (item & x & _ & Hi & _).
    rewrite Nat.sub_0_r in Hi.
    rewrite (list_lookup_total_correct _ _ _ Hi).
    destruct (dict_truthy item); simpl.
    + unfold increment_quantity, getitem.
      destruct (item !! "quantity") as [q|]; simpl; [|by left].
      destruct q as [|n| | |]; simpl; try by left.
      right. left. by exists i, item, (n + 1)%R.
    + right. right. by exists cart_item, b.
  - right. right. by exists cart_item, b.
Qed.

Lemma add_to_cart_one_restaurant (menu_item restaurant : dict) (s : state) :
  one_restaurant (cart s) ->
  one_restaurant (cart (final (add_to_cart menu_item restaurant s))).
Proof.
  intros Hinv.
  destruct (add_to_cart_cases menu_item restaurant s)
    as [->|[(i & item & n & Hi & ->)|(item & b & -> & Hb & Hitem & Hsame)]]; [done| |].
  - (* a quantity was incremented: the restaurant ids are the same *)
    assert (Hsub : forall x, x ∈ <[i := <["quantity" := VNum n]> item]> (cart s) ->
              exists x0, x0 ∈ cart s /\ x !! "restaurant_id" = x0 !! "restaurant_id").
    { intros x Hx. apply list_elem_of_lookup in Hx as [j Hj].
      destruct (decide (i = j)) as [<-|Hne].
      - rewrite list_lookup_insert_eq in Hj by (by apply lookup_lt_Some in Hi).
        injection Hj as <-. exists item. split; [by apply list_elem_of_lookup_2 in Hi|].
        by rewrite lookup_insert_ne.
      - rewrite list_lookup_insert_ne in Hj by done.
        exists x. split; [by apply list_elem_of_lookup_2 in Hj|done]. }
    intros x y Hx Hy.
    destruct (Hsub x Hx) as (x0 & Hx0 & ->). destruct (Hsub y Hy) as (y0 & Hy0 & ->).
    by apply Hinv.
  - (* a line was appended: it names the restaurant of the first line *)
    assert (Hall : forall x, x ∈ cart s -> x !! "restaurant_id" = Some b).
    { destruct (cart s) as [|first c] eqn:Hc.
      - intros x Hx. by apply elem_of_nil in Hx.
      - simpl in Hsame. unfold getitem in Hsame.
        destruct (first !! "restaurant_id") as [a|] eqn:Ha; [|done].
        rewrite Hb in Hsame. simpl in Hsame.
        injection Hsame as Hab. apply py_eq_true in Hab as ->.
        intros x Hx.
        destruct (Hinv first x) as (a & Ha' & Hx'); [left|done|].
        congruence. }
    intros x y Hx Hy. exists b.
    apply elem_of_app in Hx as [Hx|Hx]; apply elem_of_app in Hy as [Hy|Hy];
      try apply list_elem_of_singleton in Hx as ->;
      try apply list_elem_of_singleton in Hy as ->;
      rewrite ?Hitem; auto.
Qed.

Lemma remove_from_cart_one_restaurant (item_id : value) (s : state) :
  one_restaurant (cart s) ->
  one_restaurant (cart (final (remove_from_cart item_id s))).
Proof.
  intros Hinv. unfold remove_from_cart, mbind, M_bind, gets, lift, modify. simpl.
  destruct (without_item item_id (cart s)) as [c'|] eqn:Hc'; simpl; [|done].
  intros x y Hx Hy.
  apply Hinv; by apply (without_item_subset _ _ _ Hc').
Qed.

Lemma add_to_cart_rejects (menu_item restaurant first : dict) (rest : list dict)
    (a b : value) (s : state) :
  cart s = first :: rest ->
  first !! "restaurant_id" = Some a ->
  restaurant !! "id" = Some b ->
  a <> b ->
  add_to_cart menu_item restaurant s = Ret tt s.
Proof.
  intros Hc Ha Hb Hab.
  unfold add_to_cart, mbind, M_bind, gets, lift. simpl.
  rewrite Hc. simpl. unfold getitem. rewrite Ha, Hb. simpl.
  apply py_eq_false in Hab. by rewrite Hab.
Qed.

Lemma add_to_cart_merges (menu_item restaurant item : dict) (i : nat)
    (id name price rid rname : value) (q : R) (s : state) :
  same_restaurant (cart s) restaurant = Ok true ->
  menu_item !! "id" = Some id ->
  menu_item !! "name" = Some name ->
  menu_item !! "price" = Some price ->
  restaurant !! "id" = Some rid ->
  restaurant !! "name" = Some rname ->
  cart s !! i = Some item ->
  item !! "id" = Some id ->
  (forall j item', j < i -> cart s !! j = Some item' ->
     exists x, item' !! "id" = Some x /\ x <> id) ->
  item !! "quantity" = Some (VNum q) ->
  add_to_cart menu_item restaurant s
    = Ret tt (set_cart (<[i := <["quantity" := VNum (q + 1)]> item]> (cart s)) s).
Proof.
  intros Hsame Hid Hname Hprice Hrid Hrname Hi Hitem Hbefore Hq.
  unfold add_to_cart, mbind, M_bind, gets, lift, modify. simpl.
  rewrite Hsame. simpl.
  unfold new_cart_item, getitem. rewrite Hid, Hname, Hprice, Hrid, Hrname. simpl.
  rewrite (find_item_first id 0 i (cart s) item Hi Hitem Hbefore). simpl.
  rewrite (list_lookup_total_correct _ _ _ Hi).
  rewrite (dict_truthy_lookup _ _ _ Hitem). simpl.
  unfold increment_quantity, getitem. by rewrite Hq.
Qed.

(** C9. The cart handlers keep the cart within one restaurant:
    [add_to_cart] and [remove_from_cart] preserve [one_restaurant];
    [add_to_cart] leaves the state as it is when the restaurant the item is
    added from (its second argument) differs from the restaurant of the
    lines in a non-empty cart; and when the item is accepted and a line of
    the cart already has its id, the quantity of that line goes up by 1 and
    no line is appended. *)
Theorem cart_one_restaurant :
  (forall menu_item restaurant s,
     one_restaurant (cart s) ->
     one_restaurant (cart (final (add_to_cart menu_item restaurant s)))) /\
  (forall item_id s,
     one_restaurant (cart s) ->
     one_restaurant (cart (final (remove_from_cart item_id s)))) /\
  (forall menu_item restaurant first rest a b s,
     cart s = first :: rest ->
     first !! "restaurant_id" = Some a ->
     restaurant !! "id" = Some b ->
     a <> b ->
     add_to_cart menu_item restaurant s = Ret tt s) /\
  (forall menu_item restaurant item i id name price rid rname q s,
     same_restaurant (cart s) restaurant = Ok true ->
     menu_item !! "id" = Some id ->
     menu_item !! "name" = Some name ->
     menu_item !! "price" = Some price ->
     restaurant !! "id" = Some rid ->
     restaurant !! "name" = Some rname ->
     cart s !! i = Some item ->
     item !! "id" = Some id ->
     (forall j item', j < i -> cart s !! j = Some item' ->
        exists x, item' !! "id" = Some x /\ x <> id) ->
     item !! "quantity" = Some (VNum q) ->
     exists s',
       add_to_cart menu_item restaurant s = Ret tt s' /\
       cart s' = <[i := <["quantity" := VNum (q + 1)]> item]> (cart s) /\
       length (cart s') = length (cart s)).
Proof.
  split; [exact add_to_cart_one_restaurant|].
  split; [exact remove_from_cart_one_restaurant|].
  split; [exact add_to_cart_rejects|].
  intros menu_item restaurant item i id name price rid rname q s
    Hsame Hid Hname Hprice Hrid Hrname Hi Hitem Hbefore Hq.
  eexists. split.
  - by apply (add_to_cart_merges menu_item restaurant item i id name price rid rname q s).
  - simpl. split; [done|]. by rewrite length_insert.
Qed.

Lemma cart_one_restaurant_witness :
  add_to_cart biryani biryani_house cart_example = Ret tt cart_example /\
  (exists s',
     add_to_cart masala_dosa dosa_corner cart_example = Ret tt s' /\
     cart s' = [<["quantity" := VNum (1 + 1)]> dosa_line] /\
     length (cart s') = 1) /\
  one_restaurant (cart (final (add_to_cart masala_dosa dosa_corner cart_example))).
Proof.
  destruct cart_one_restaurant as (Hadd & _ & Hreject & Hmerge).
  split; [|split].
  - apply (Hreject biryani biryani_house dosa_line [] (VStr "rest1") (VStr "rest2"));
      [reflexivity..|discriminate].
  - apply (Hmerge masala_dosa dosa_corner dosa_line 0 (VStr "item1") (VStr "Masala Dosa")
             (VNum 80) (VStr "rest1") (VStr "Dosa Corner") 1%R cart_example);
      try reflexivity.
    intros j item' Hj. lia.
  - apply Hadd. intros x y Hx Hy.
    apply list_elem_of_singleton in Hx as ->. apply list_elem_of_singleton in Hy as ->.
    by exists (VStr "rest1").
Defined.

(** ** ETA *)

Section Geo.
Local Open Scope R_scope.

Lemma py_int_unique (x : R) (z : Z) :
  0 <= x -> IZR z <= x < IZR z + 1 -> py_int x = z.
Proof.
  intros Hx Hz. unfold py_int. destruct (Rle_dec 0 x); [|done].
  symmetry. apply Int_part_spec. lra.
Qed.

(** *** [int()] of a double *)

Section Binary64.
Import PrimFloat SpecFloat FloatOps.

Lemma IZR_pow2 (p : positive) : IZR (2 ^ Z.pos p) = 2 ^ Pos.to_nat p.
Proof. rewrite <- (positive_nat_Z p) at 1. by rewrite <- pow_IZR. Qed.

(** The integer part of [mantissa * 2 ^ exponent]. *)
Lemma truncation_scaled (mantissa : positive) (exponent : Z) :
  let n := if (0 <=? exponent)%Z then (Z.pos mantissa * 2 ^ exponent)%Z
           else (Z.pos mantissa / 2 ^ (- exponent))%Z in
  let v := IZR (Z.pos mantissa) * powerRZ 2 exponent in
  0 < v /\ IZR n <= v < IZR n + 1.
Proof.
  intros n v.
  assert (Hm : 0 < IZR (Z.pos mantissa)) by (apply IZR_lt; lia).
  assert (Hp : 0 < powerRZ 2 exponent) by (apply powerRZ_lt; lra).
  split; [by apply Rmult_lt_0_compat|].
  unfold n, v. destruct exponent as [|p|p].
  - change (0 <=? 0)%Z with true. cbv iota. simpl. rewrite Z.mul_1_r. lra.
  - change (0 <=? Z.pos p)%Z with true. cbv iota.
    rewrite mult_IZR, IZR_pow2. simpl powerRZ. lra.
  - change (0 <=? Z.neg p)%Z with false. cbv iota.
    change (- Z.neg p)%Z with (Z.pos p). simpl powerRZ.
    assert (H2 : (0 < 2 ^ Z.pos p)%Z) by (apply Z.pow_pos_nonneg; lia).
    pose proof (Z.mul_div_le (Z.pos mantissa) _ H2) as Hlo.
    pose proof (Z.mul_succ_div_gt (Z.pos mantissa) _ H2) as Hhi.
    apply IZR_le in Hlo. apply IZR_lt in Hhi.
    rewrite mult_IZR in Hlo, Hhi. rewrite succ_IZR in Hhi. rewrite IZR_pow2 in Hlo, Hhi.
    assert (Hq : 0 < 2 ^ Pos.to_nat p) by (apply pow_lt; lra).
    set (q := 2 ^ Pos.to_nat p) in *.
    set (z := IZR (Z.pos mantissa / 2 ^ Z.pos p)) in *.
    split.
    + apply (Rmult_le_reg_r q); [done|]. field_simplify; [|lra]. lra.
    + apply (Rmult_lt_reg_r q); [done|]. field_simplify; [|lra]. lra.
Qed.

(** [int(x)] is the number [x] denotes without its fractional part; it
    raises for an infinity and for a NaN. *)
Lemma py_int_truncation (x : float) :
  match Prim2SF x with
  | S754_nan => Double.py_int x = Err ValueError
  | S754_infinity _ => Double.py_int x = Err OverflowError
  | _ => exists z, Double.py_int x = Ok z /\ truncation z (float_value x)
  end.
Proof.
  unfold Double.py_int, float_value, truncation.
  destruct (Prim2SF x) as [negative|negative| |negative mantissa exponent]; try done.
  - exists 0%Z. split; [done|]. lra.
  - destruct (truncation_scaled mantissa exponent) as [Hv Hn]. cbv zeta in *.
    eexists. split; [reflexivity|].
    destruct negative; [rewrite opp_IZR|]; lra.
Qed.

(** C3, as the code has it.  For doubles [d] and [s], [s] not zero,
    let [minutes] be the double [(d / s) * 60 + buffer], where the quotient,
    the product and the sum are each rounded to the nearest double and the
    buffer is 10 when [d < 5] and 15 otherwise.  [calculate_eta] returns
    the number [minutes] denotes without its fractional part; it raises
    [OverflowError] when [minutes] is infinite and [ValueError] when it is
    not a number, and [ZeroDivisionError] when [s] is zero.
    [calculate_eta(4.9, 25)] is 21 (buffer 10) and [calculate_eta(5.0, 25)]
    is 27 (buffer 15: the boundary 5 km takes the larger buffer). *)
#[warnings="-inexact-float"]
Theorem calculate_eta_spec :
  (forall d s : float,
     (s =? 0)%float = false ->
     let buffer := if (d <? 5)%float then 10%float else 15%float in
     let minutes := (d / s * 60 + buffer)%float in
     match Prim2SF minutes with
     | S754_nan => Double.calculate_eta d s = Err ValueError
     | S754_infinity _ => Double.calculate_eta d s = Err OverflowError
     | _ => exists z, Double.calculate_eta d s = Ok z /\ truncation z (float_value minutes)
     end) /\
  (forall d s : float,
     (s =? 0)%float = true -> Double.calculate_eta d s = Err ZeroDivisionError) /\
  Double.calculate_eta 4.9 25 = Ok 21%Z /\
  Double.calculate_eta 5.0 25 = Ok 27%Z.
Proof.
  split; [|split; [|split]].
  - intros d s Hs buffer minutes. unfold Double.calculate_eta. rewrite Hs.
    apply py_int_truncation.
  - intros d s Hs. unfold Double.calculate_eta. by rewrite Hs.
  - vm_compute. reflexivity.
  - vm_compute. reflexivity.
Qed.

(** C3 as stated fails: the claim computes with exact numbers, the code
    with doubles.  [(49 / 3) * 60 + 15] is 995, but the double quotient
    times 60 is just below 980 and [calculate_eta(49, 3)] is 994; and for a
    distance of [1e308] at speed [0.5] the quotient is infinite and the call
    raises. *)
#[warnings="-inexact-float"]
Lemma calculate_eta_rounds_down :
  Double.calculate_eta 49 3 = Ok 994%Z /\
  truncation 995 (49 / 3 * 60 + 15) /\
  ~ truncation 994 (49 / 3 * 60 + 15) /\
  Double.calculate_eta 1e308 0.5 = Err OverflowError.
Proof.
  split; [vm_compute; reflexivity|].
  split; [unfold truncation; lra|].
  split; [|vm_compute; reflexivity].
  unfold truncation. intros [H _]. lra.
Qed.

Lemma calculate_eta_spec_witness :
  exists z,
    Double.calculate_eta 49 3 = Ok z /\
    truncation z (float_value (49 / 3 * 60 + 15)%float).
Proof. exact (proj1 calculate_eta_spec 49%float 3%float eq_refl). Defined.

End Binary64.

(** ** Haversine distance *)

Lemma haversine_a_sym (lat1 lon1 lat2 lon2 : R) :
  haversine_a lat1 lon1 lat2 lon2 = haversine_a lat2 lon2 lat1 lon1.
Proof.
  unfold haversine_a.
  replace ((lat1 - lat2) / 2) with (- ((lat2 - lat1) / 2)) by lra.
  replace ((lon1 - lon2) / 2) with (- ((lon2 - lon1) / 2)) by lra.
  rewrite !sin_neg. ring.
Qed.

Lemma haversine_a_range (lat1 lon1 lat2 lon2 : R) :
  0 <= haversine_a lat1 lon1 lat2 lon2 <= 1.
Proof.
  unfold haversine_a.
  replace ((lat2 - lat1) / 2) with (lat2 / 2 - lat1 / 2) by lra.
  replace (cos lat1) with (cos (2 * (lat1 / 2))) by (f_equal; lra).
  replace (cos lat2) with (cos (2 * (lat2 / 2))) by (f_equal; lra).
  rewrite sin_minus, !cos_2a.
  generalize (sin2_cos2 (lat1 / 2)) (sin2_cos2 (lat2 / 2)) (sin2_cos2 ((lon2 - lon1) / 2)).
  unfold Rsqr.
  generalize (sin (lat1 / 2)) (cos (lat1 / 2)) (sin (lat2 / 2)) (cos (lat2 / 2))
             (sin ((lon2 - lon1) / 2)) (cos ((lon2 - lon1) / 2)).
  intros sx cx sy cy st ct Hx Hy Ht.
  assert (Ht0 : 0 <= st * st) by nra.
  assert (Ht1 : 0 <= 1 - st * st) by nra.
  split.
  - replace ((sy * cx - cy * sx) ^ 2 + (cx * cx - sx * sx) * (cy * cy - sy * sy) * st ^ 2)
      with ((1 - st * st) * (sy * cx - cy * sx) ^ 2 + (st * st) * (cx * cy - sx * sy) ^ 2)
      by ring.
    apply Rplus_le_le_0_compat; apply Rmult_le_pos; try done; apply pow2_ge_0.
  - cut (0 <= 1 - ((sy * cx - cy * sx) ^ 2
                     + (cx * cx - sx * sx) * (cy * cy - sy * sy) * st ^ 2)); [lra|].
    replace (1 - ((sy * cx - cy * sx) ^ 2
                  + (cx * cx - sx * sx) * (cy * cy - sy * sy) * st ^ 2))
      with ((1 - st * st) * (cx * cy + sx * sy) ^ 2 + (st * st) * (sx * cy + cx * sy) ^ 2).
    + apply Rplus_le_le_0_compat; apply Rmult_le_pos; try done; apply pow2_ge_0.
    + transitivity
        ((sx * sx + cx * cx) * (sy * sy + cy * cy)
         - ((sy * cx - cy * sx) ^ 2 + (cx * cx - sx * sx) * (cy * cy - sy * sy) * st ^ 2)).
      * ring.
      * rewrite Hx, Hy. ring.
Qed.

Lemma asin_nonneg (x : R) : 0 <= x <= 1 -> 0 <= asin x.
Proof.
  intros Hx. destruct (Rle_lt_dec 0 (asin x)) as [|Hneg]; [done|].
  exfalso. pose proof (asin_bound x) as [Hlo _]. pose proof PI_RGT_0.
  assert (sin (asin x) < 0) by (apply sin_lt_0_var; lra).
  rewrite sin_asin in *; lra.
Qed.

(** The distance of two points given in degrees as numbers. *)
Lemma calculate_distance_num (lat1 lon1 lat2 lon2 : R) :
  calculate_distance (VNum lat1) (VNum lon1) (VNum lat2) (VNum lon2) =
  Ok (2 * asin (sqrt (haversine_a (lat1 * PI / 180) (lon1 * PI / 180)
                                  (lat2 * PI / 180) (lon2 * PI / 180))) * 6371).
Proof.
  unfold calculate_distance. simpl.
  set (a := haversine_a _ _ _ _).
  destruct (haversine_a_range (lat1 * PI / 180) (lon1 * PI / 180)
                              (lat2 * PI / 180) (lon2 * PI / 180)) as [Ha0 Ha1].
  fold a in Ha0, Ha1.
  unfold py_sqrt. destruct (Rlt_dec a 0); [lra|]. simpl.
  assert (0 <= sqrt a <= 1).
  { split; [apply sqrt_pos|]. rewrite <- sqrt_1. by apply sqrt_le_1_alt. }
  unfold py_asin. destruct (Rlt_dec (sqrt a) (-1)); [lra|].
  destruct (Rlt_dec 1 (sqrt a)); [lra|]. reflexivity.
Qed.

(** *** The distance in double precision *)

Lemma exact_lawful : lawful Double.exact.
Proof.
  split; simpl.
  - done.
  - done.
  - apply sin_neg.
  - intros x. ring.
  - ring.
  - apply asin_0.
  - apply asin_nonneg.
Qed.

Lemma float_limit_large : 1000 < Double.float_limit.
Proof.
  unfold Double.float_limit.
  change 1024%nat with (54 + 970)%nat. rewrite pow_add.
  assert (H54 : 2 ^ 1 <= 2 ^ 54) by (apply Rle_pow; [lra|lia]).
  assert (H970 : 2 ^ 10 <= 2 ^ 970) by (apply Rle_pow; [lra|lia]).
  replace (2 ^ 1) with 2 in H54 by (simpl; lra).
  replace (2 ^ 10) with 1024 in H970 by (simpl; lra).
  nra.
Qed.

(** With the arithmetic of the real numbers the machine computes what the
    definitions over the real numbers say. *)
Lemma calculate_distance_exact (lat1 lon1 lat2 lon2 : R) :
  Rabs lat1 < Double.float_limit -> Rabs lon1 < Double.float_limit ->
  Rabs lat2 < Double.float_limit -> Rabs lon2 < Double.float_limit ->
  Double.calculate_distance Double.exact (VNum lat1) (VNum lon1) (VNum lat2) (VNum lon2)
    = calculate_distance (VNum lat1) (VNum lon1) (VNum lat2) (VNum lon2).
Proof.
  intros H1 H2 H3 H4.
  assert (Hrad : forall x, Rabs x < Double.float_limit ->
            Double.radians Double.exact (VNum x) = radians (VNum x)).
  { intros x Hx. unfold Double.radians, radians, Double.to_float, Double.deg_to_rad.
    simpl. destruct (Rlt_dec (Rabs x) Double.float_limit); [|done].
    simpl. f_equal. unfold Rdiv. ring. }
  unfold Double.calculate_distance, calculate_distance. rewrite !Hrad by done.
  reflexivity.
Qed.

Section Lawful.
Variable m : Double.arithmetic.
Hypothesis laws : lawful m.

Lemma fl_0 : Double.fl m 0 = 0.
Proof. pose proof (law_fl_opp m laws 0) as H. rewrite Ropp_0 in H. lra. Qed.

Lemma sin_0_machine : Double.m_sin m 0 = 0.
Proof. pose proof (law_sin_opp m laws 0) as H. rewrite Ropp_0 in H. lra. Qed.

(** The Haversine term of a difference does not depend on its sign. *)
Lemma half_sine_square (x y : R) :
  Double.m_square m (Double.m_sin m (Double.fl m (Double.fl m (x - y) / 2)))
    = Double.m_square m (Double.m_sin m (Double.fl m (Double.fl m (y - x) / 2))).
Proof.
  replace (x - y) with (- (y - x)) by lra.
  rewrite (law_fl_opp m laws).
  replace (- Double.fl m (y - x) / 2) with (- (Double.fl m (y - x) / 2)) by lra.
  by rewrite (law_fl_opp m laws), (law_sin_opp m laws), (law_square_opp m laws).
Qed.

Lemma radians_num (x : R) :
  Double.radians m (VNum x) =
    if Rlt_dec (Rabs x) Double.float_limit
    then Ok (Double.fl m (Double.fl m x * Double.deg_to_rad m))
    else Err OverflowError.
Proof.
  unfold Double.radians, Double.to_float. simpl.
  by destruct (Rlt_dec (Rabs x) Double.float_limit).
Qed.

Lemma calculate_distance_sym (lat1 lon1 lat2 lon2 : R) :
  Double.calculate_distance m (VNum lat1) (VNum lon1) (VNum lat2) (VNum lon2) =
    Double.calculate_distance m (VNum lat2) (VNum lon2) (VNum lat1) (VNum lon1).
Proof.
  unfold Double.calculate_distance. rewrite !radians_num.
  destruct (Rlt_dec (Rabs lat1) Double.float_limit),
           (Rlt_dec (Rabs lon1) Double.float_limit),
           (Rlt_dec (Rabs lat2) Double.float_limit),
           (Rlt_dec (Rabs lon2) Double.float_limit); simpl; try done.
  rewrite (half_sine_square (Double.fl m (Double.fl m lat2 * Double.deg_to_rad m))).
  rewrite (half_sine_square (Double.fl m (Double.fl m lon2 * Double.deg_to_rad m))).
  by rewrite (Rmult_comm
                (Double.m_cos m (Double.fl m (Double.fl m lat1 * Double.deg_to_rad m)))).
Qed.

Lemma calculate_distance_same (lat lon : R) :
  Rabs lat < Double.float_limit -> Rabs lon < Double.float_limit ->
  Double.calculate_distance m (VNum lat) (VNum lon) (VNum lat) (VNum lon) = Ok 0.
Proof.
  intros Hlat Hlon.
  unfold Double.calculate_distance. rewrite !radians_num.
  destruct (Rlt_dec (Rabs lat) Double.float_limit); [|done].
  destruct (Rlt_dec (Rabs lon) Double.float_limit); [|done]. simpl.
  rewrite !Rminus_diag, fl_0.
  replace (0 / 2) with 0 by lra.
  rewrite fl_0, sin_0_machine, (law_square_0 m laws), Rmult_0_r, fl_0, Rplus_0_r, fl_0.
  unfold Double.py_sqrt. destruct (Rlt_dec 0 0) as [H|_]; [lra|]. simpl.
  rewrite sqrt_0, fl_0.
  unfold Double.py_asin.
  destruct (Rlt_dec 0 (-1)) as [H|_]; [lra|]. destruct (Rlt_dec 1 0) as [H|_]; [lra|].
  simpl. rewrite (law_asin_0 m laws), Rmult_0_r, fl_0, Rmult_0_l, fl_0. done.
Qed.

Lemma calculate_distance_outcome (lat1 lon1 lat2 lon2 : R) :
  let result :=
    Double.calculate_distance m (VNum lat1) (VNum lon1) (VNum lat2) (VNum lon2) in
  (exists d, result = Ok d /\ 0 <= d) \/
  result = Err ValueError \/
  (result = Err OverflowError /\
   ~ (Rabs lat1 < Double.float_limit /\ Rabs lon1 < Double.float_limit /\
      Rabs lat2 < Double.float_limit /\ Rabs lon2 < Double.float_limit)).
Proof.
  intros result. unfold result, Double.calculate_distance. rewrite !radians_num.
  destruct (Rlt_dec (Rabs lat1) Double.float_limit);
    [|right; right; split; [done|tauto]].
  destruct (Rlt_dec (Rabs lon1) Double.float_limit);
    [|right; right; split; [done|tauto]].
  destruct (Rlt_dec (Rabs lat2) Double.float_limit);
    [|right; right; split; [done|tauto]].
  destruct (Rlt_dec (Rabs lon2) Double.float_limit);
    [|right; right; split; [done|tauto]].
  simpl.
  match goal with |- context [Double.py_sqrt m ?a] => set (term := a) end.
  unfold Double.py_sqrt. destruct (Rlt_dec term 0) as [|Hterm]; [right; by left|]. simpl.
  assert (Hroot : 0 <= Double.fl m (sqrt term))
    by (apply (law_fl_nonneg m laws), sqrt_pos).
  unfold Double.py_asin.
  destruct (Rlt_dec (Double.fl m (sqrt term)) (-1)); [right; by left|].
  destruct (Rlt_dec 1 (Double.fl m (sqrt term))); [right; by left|]. simpl.
  left. eexists. split; [reflexivity|].
  apply (law_fl_nonneg m laws). apply Rmult_le_pos; [|lra].
  apply (law_fl_nonneg m laws). apply Rmult_le_pos; [lra|].
  apply (law_asin_nonneg m laws). lra.
Qed.

End Lawful.



(** ** Nearby restaurants *)

Lemma insert_by_key_perm (x : R * loc) (l : list (R * loc)) :
  insert_by_key x l ≡ₚ x :: l.
Proof.
  induction l as [|y l IH]; [done|]. simpl.
  destruct (Rle_dec (fst x) (fst y)); [done|].
  rewrite IH. apply Permutation_swap.
Qed.

Lemma sort_by_key_perm (l : list (R * loc)) : sort_by_key l ≡ₚ l.
Proof.
  induction l as [|x l IH]; [done|]. simpl.
  rewrite insert_by_key_perm. by rewrite IH.
Qed.

Lemma insert_by_key_sorted (x : R * loc) (l : list (R * loc)) :
  StronglySorted key_le l -> StronglySorted key_le (insert_by_key x l).
Proof.
  induction l as [|y l IH]; intros Hl; simpl.
  - repeat constructor.
  - destruct (Rle_dec (fst x) (fst y)) as [Hxy|Hxy].
    + constructor; [done|]. constructor; [done|].
      apply StronglySorted_inv in Hl as [_ Hy].
      eapply Forall_impl; [exact Hy|]. intros z Hz. unfold key_le in *. lra.
    + apply StronglySorted_inv in Hl as [Hl Hy].
      constructor; [by apply IH|].
      rewrite insert_by_key_perm. constructor; [|done]. unfold key_le. lra.
Qed.

Lemma sort_by_key_sorted (l : list (R * loc)) : StronglySorted key_le (sort_by_key l).
Proof.
  induction l as [|x l IH]; simpl; [constructor|]. by apply insert_by_key_sorted.
Qed.

Lemma obj_valid (h : heap_t) (l : loc) (k : string) (v : value) :
  obj h l !! k = Some v -> (l < length h)%nat.
Proof.
  unfold obj. rewrite list_lookup_total_alt.
  destruct (h !! l) as [d|] eqn:E; simpl.
  - intros _. by apply lookup_lt_Some in E.
  - by rewrite lookup_empty.
Qed.

Section Nearby.
Variable m : Double.arithmetic.

Lemma restaurant_distance_valid (user_location : dict) (h : heap_t) (l : loc) (d : R) :
  Double.restaurant_distance m user_location (obj h l) = Ok d -> (l < length h)%nat.
Proof.
  unfold Double.restaurant_distance, getitem. intros H.
  destruct (user_location !! "lat"); [|done].
  destruct (user_location !! "lng"); [|done]. simpl in H.
  destruct (obj h l !! "location") as [w|] eqn:E; [|done].
  by apply obj_valid in E.
Qed.

Lemma set_heap_set_heap (h h' : heap_t) (s : state) :
  set_heap h (set_heap h' s) = set_heap h s.
Proof. reflexivity. Qed.

Lemma set_heap_id (s : state) : set_heap (heap s) s = s.
Proof. by destruct s. Qed.

Lemma nearby_loop_run (user_location : dict) (radius_km : R) (h0 : heap_t) (rs : list loc) :
  (forall l, l ∈ rs -> exists d, Double.restaurant_distance m user_location (obj h0 l) = Ok d) ->
  forall (acc : list loc) (extra : heap_t) (s : state),
    heap s = h0 ++ extra ->
    let kept := filter (fun l => distance_to m user_location h0 l <= radius_km) rs in
    Double.nearby_loop m user_location radius_km rs acc s =
      Ret (acc ++ seq (length (heap s)) (length kept))
          (set_heap (heap s ++ (annotate m user_location h0 <$> kept)) s).
Proof.
  induction rs as [|r rs IH]; intros Hwf acc extra s Hs; simpl.
  - unfold mret, M_ret. by rewrite !app_nil_r, set_heap_id.
  - destruct (Hwf r) as [d Hd]; [left|].
    assert (Hr : (r < length h0)%nat) by (by apply restaurant_distance_valid in Hd).
    assert (Hobj : obj (heap s) r = obj h0 r) by (rewrite Hs; by apply obj_app_l).
    assert (Hdist : distance_to m user_location h0 r = d) by (unfold distance_to; by rewrite Hd).
    unfold mbind at 1, M_bind at 1, gets at 1.
    unfold mbind at 1, M_bind at 1, lift at 1. rewrite Hobj, Hd.
    destruct (Rle_dec d radius_km) as [Hle|Hgt].
    + rewrite filter_cons_True by (by rewrite Hdist).
      unfold mbind at 1, M_bind at 1, alloc at 1.
      unfold mbind at 1, M_bind at 1, setitem at 1, modify at 1. cbn [heap set_heap].
      rewrite set_heap_set_heap.
      rewrite obj_app_new.
      rewrite insert_app_r_alt by done. rewrite Nat.sub_diag. cbn [insert list_insert].
      rewrite (IH (fun l Hl => Hwf l (list_elem_of_further _ _ _ Hl))
                  (acc ++ [length (heap s)])
                  (extra ++ [<["distance" := VNum (Double.round2 m d)]> (obj h0 r)])).
      * cbn [heap set_heap]. rewrite set_heap_set_heap.
        rewrite length_app. cbn [length fmap list_fmap seq].
        rewrite <- !app_assoc. cbn [app].
        unfold annotate at 2, shown_distance at 1. rewrite Hdist.
        by rewrite Nat.add_1_r.
      * cbn [heap set_heap]. rewrite Hs. by rewrite <- app_assoc.
    + rewrite filter_cons_False by (by rewrite Hdist).
      by apply (IH (fun l Hl => Hwf l (list_elem_of_further _ _ _ Hl)) acc extra).
Qed.

Lemma annotate_distance (user_location : dict) (h : heap_t) (l : loc) :
  annotate m user_location h l !! "distance" = Some (VNum (shown_distance m user_location h l)).
Proof. unfold annotate. by rewrite lookup_insert_eq. Qed.

Lemma keys_of_copies (user_location : dict) (h0 h : heap_t) (ls kept : list loc) :
  Forall2 (fun o l => obj h o = annotate m user_location h0 l) ls kept ->
  exists ks,
    keys_of h ls = Ok ks /\
    snd <$> ks = ls /\
    Forall2 (fun p l => fst p = shown_distance m user_location h0 l /\
                        obj h (snd p) = annotate m user_location h0 l) ks kept.
Proof.
  induction 1 as [|o l ls kept Ho _ (ks & Hks & Hsnd & Hall)]; simpl.
  - exists []. by repeat split.
  - unfold distance_key, getitem. rewrite Ho, annotate_distance. simpl. rewrite Hks. simpl.
    eexists. split; [reflexivity|]. split.
    + cbn [fmap list_fmap snd]. f_equal. exact Hsnd.
    + constructor; [by split|done].
Qed.

Lemma sorted_transfer {A B : Type} (P : A -> B -> Prop) (R1 : relation A) (R2 : relation B)
    (l1 : list A) (l2 : list B) :
  (forall x y a b, P x a -> P y b -> R1 x y -> R2 a b) ->
  Forall2 P l1 l2 ->
  StronglySorted R1 l1 -> StronglySorted R2 l2.
Proof.
  intros HR. induction 1 as [|x a l1 l2 Hxa Hall IH]; intros Hs; [constructor|].
  apply StronglySorted_inv in Hs as [Hs Hx].
  constructor; [by apply IH|].
  clear IH Hs. induction Hall as [|y b l1 l2 Hyb _ IH]; [constructor|].
  apply Forall_cons in Hx as [Hxy Hx].
  constructor; [by apply (HR x y)|by apply IH].
Qed.

Lemma copies_located (pre copies : heap_t) :
  Forall2 (fun o c => (length pre <= o)%nat /\ obj (pre ++ copies) o = c)
          (seq (length pre) (length copies)) copies.
Proof.
  apply Forall2_same_length_lookup_2; [by rewrite length_seq|].
  intros i o c Ho Hc. apply lookup_seq in Ho as [-> _].
  split; [lia|]. apply obj_lookup.
  rewrite lookup_app_r by lia. by replace (length pre + i - length pre)%nat with i by lia.
Qed.

(** What [get_nearby_restaurants] does when every restaurant has a
    location with numeric coordinates: it returns, the heap grows by the
    annotated copies, and the result lists the copies by shown distance. *)
Lemma get_nearby_restaurants_run (user_location : dict) (rs : list loc) (radius_km : R)
    (s : state) :
  (forall l, l ∈ rs ->
     exists d, Double.restaurant_distance m user_location (obj (heap s) l) = Ok d) ->
  let h := heap s in
  let within := filter (fun l => distance_to m user_location h l <= radius_km) rs in
  let h' := h ++ (annotate m user_location h <$> within) in
  exists out kept,
    Double.get_nearby_restaurants m user_location rs radius_km s = Ret out (set_heap h' s) /\
    kept ≡ₚ within /\
    Forall2 (fun o l => (length h <= o)%nat /\ obj h' o = annotate m user_location h l) out kept /\
    StronglySorted
      (fun a b => shown_distance m user_location h a <= shown_distance m user_location h b)
                   kept.
Proof.
  intros Hwf h within h'.
  unfold Double.get_nearby_restaurants. unfold mbind at 1, M_bind at 1.
  rewrite (nearby_loop_run user_location radius_km h rs Hwf [] [] s)
    by (by rewrite app_nil_r).
  cbn [app]. fold h within h'.
  assert (Hloc : Forall2 (fun o l => (length h <= o)%nat /\
                                     obj h' o = annotate m user_location h l)
                         (seq (length h) (length within)) within).
  { pose proof (copies_located h (annotate m user_location h <$> within)) as H.
    rewrite length_fmap in H. apply Forall2_fmap_r in H. exact H. }
  destruct (keys_of_copies user_location h h' (seq (length h) (length within)) within)
    as (ks & Hks & Hsnd & Hall).
  { eapply Forall2_impl; [exact Hloc|]. by intros o l [_ ?]. }
  unfold sorted_by_distance, mbind, M_bind, gets, lift. cbn [heap set_heap].
  rewrite Hks. cbn.
  assert (Hall' : Forall2 (fun p l => (length h <= snd p)%nat /\
                              fst p = shown_distance m user_location h l /\
                              obj h' (snd p) = annotate m user_location h l) ks within).
  { apply Forall2_same_length_lookup_2; [by apply Forall2_length in Hall|].
    intros i p l Hp Hl.
    destruct (Forall2_lookup_lr _ _ _ _ _ _ Hall Hp Hl) as [? ?].
    split; [|done].
    assert (Ho : seq (length h) (length within) !! i = Some (snd p)).
    { rewrite <- Hsnd, list_lookup_fmap, Hp. done. }
    by destruct (Forall2_lookup_lr _ _ _ _ _ _ Hloc Ho Hl). }
  destruct (Permutation_Forall2 (symmetry (sort_by_key_perm ks)) Hall')
    as (kept & Hperm & Hkept).
  exists (snd <$> sort_by_key ks), kept.
  split; [done|]. split; [by symmetry|]. split.
  - apply Forall2_fmap_l. eapply Forall2_impl; [exact Hkept|]. by intros p l (? & _ & ?).
  - eapply (sorted_transfer _ key_le); [|exact Hkept|apply sort_by_key_sorted].
    intros x y a b (_ & Hx & _) (_ & Hy & _) Hxy. unfold key_le in Hxy. by rewrite <- Hx, <- Hy.
Qed.

Lemma extends_refl (s : state) : extends s s.
Proof. exists []. by rewrite app_nil_r. Qed.

Lemma extends_trans (s1 s2 s3 : state) : extends s1 s2 -> extends s2 s3 -> extends s1 s3.
Proof.
  intros (e1 & H1 & D1 & K1 & C1 & S1) (e2 & H2 & D2 & K2 & C2 & S2).
  exists (e1 ++ e2). rewrite H2, H1, app_assoc. repeat split; congruence.
Qed.

Lemma extends_obj (s s' : state) (l : loc) :
  extends s s' -> (l < length (heap s))%nat -> obj (heap s') l = obj (heap s) l.
Proof. intros (extra & -> & _) Hl. by apply obj_app_l. Qed.

Lemma nearby_loop_extends (user_location : dict) (radius_km : R) (rs : list loc) :
  forall (acc : list loc) (s : state),
    extends s (final (Double.nearby_loop m user_location radius_km rs acc s)).
Proof.
  induction rs as [|r rs IH]; intros acc s; simpl; [apply extends_refl|].
  unfold mbind at 1, M_bind at 1, gets at 1.
  unfold mbind at 1, M_bind at 1, lift at 1.
  destruct (Double.restaurant_distance m user_location (obj (heap s) r)) as [d|e];
    [|apply extends_refl].
  destruct (Rle_dec d radius_km); [|apply IH].
  unfold mbind at 1, M_bind at 1, alloc at 1.
  unfold mbind at 1, M_bind at 1, setitem at 1, modify at 1. cbn [heap set_heap].
  rewrite set_heap_set_heap, obj_app_new, insert_app_r_alt by done.
  rewrite Nat.sub_diag. cbn [insert list_insert].
  eapply extends_trans; [|apply IH].
  eexists. cbn [heap set_heap]. split; [reflexivity|]. by destruct s.
Qed.

Lemma get_nearby_restaurants_extends (user_location : dict) (rs : list loc) (radius_km : R)
    (s : state) :
  extends s (final (Double.get_nearby_restaurants m user_location rs radius_km s)).
Proof.
  unfold Double.get_nearby_restaurants, mbind at 1, M_bind at 1.
  pose proof (nearby_loop_extends user_location radius_km rs [] s) as H.
  destruct (Double.nearby_loop m user_location radius_km rs [] s) as [nearby s1|e s1]; [|done].
  simpl in H. unfold sorted_by_distance, mbind, M_bind, gets, lift. simpl.
  by destruct (keys_of (heap s1) nearby).
Qed.

(** C10. In double precision, whatever the machine's arithmetic [m]:
    [get_nearby_restaurants] does not mutate its inputs.  Whether it
    returns or raises, every object that existed keeps all its fields, and
    the store is as before.  When the distance computation returns for
    every listed restaurant the call returns, and each returned entry is a
    new object: a copy of a listed restaurant within the radius, in which
    ["distance"] holds [round(distance, 2)] of the distance the machine
    computed and every other field is the restaurant's. *)
Theorem get_nearby_restaurants_copies (user_location : dict) (rs : list loc) (radius_km : R)
    (s : state) :
  let s' := final (Double.get_nearby_restaurants m user_location rs radius_km s) in
  (forall l, (l < length (heap s))%nat -> obj (heap s') l = obj (heap s) l) /\
  data_store s' = data_store s /\
  ((forall l, l ∈ rs ->
      exists d, Double.restaurant_distance m user_location (obj (heap s) l) = Ok d) ->
   exists out,
     Double.get_nearby_restaurants m user_location rs radius_km s = Ret out s' /\
     forall o, o ∈ out ->
       exists l d,
         l ∈ rs /\
         Double.restaurant_distance m user_location (obj (heap s) l) = Ok d /\
         d <= radius_km /\
         (length (heap s) <= o)%nat /\
         obj (heap s') o = <["distance" := VNum (Double.round2 m d)]> (obj (heap s) l) /\
         obj (heap s') o !! "distance" = Some (VNum (Double.round2 m d)) /\
         forall k, k <> "distance" -> obj (heap s') o !! k = obj (heap s) l !! k).
Proof.
  intros s'.
  pose proof (get_nearby_restaurants_extends user_location rs radius_km s) as Hext.
  fold s' in Hext.
  split; [intros l Hl; by apply extends_obj|].
  split; [by destruct Hext as (? & _ & ? & _)|].
  intros Hwf.
  destruct (get_nearby_restaurants_run user_location rs radius_km s Hwf)
    as (out & kept & Hrun & Hperm & Hall & _).
  unfold s'. rewrite Hrun. cbn [final].
  exists out. split; [done|].
  intros o Ho.
  apply list_elem_of_lookup in Ho as [i Ho].
  destruct (Forall2_lookup_l _ _ _ _ _ Hall Ho) as (l & Hl & Hnew & Hobj).
  assert (Hin : l ∈ rs /\ distance_to m user_location (heap s) l <= radius_km).
  { apply list_elem_of_lookup_2 in Hl. rewrite Hperm in Hl.
    by apply list_elem_of_filter in Hl as [? ?]. }
  destruct Hin as [Hin Hle].
  destruct (Hwf l Hin) as [d Hd].
  assert (Hdist : distance_to m user_location (heap s) l = d)
    by (unfold distance_to; by rewrite Hd).
  exists l, d. cbn [heap set_heap] in *. rewrite Hobj. unfold annotate, shown_distance.
  rewrite Hdist in *.
  split; [done|]. split; [done|]. split; [done|]. split; [done|]. split; [done|].
  split; [by rewrite lookup_insert_eq|].
  intros k Hk. by rewrite lookup_insert_ne.
Qed.

(** C4, as the code has it, in double precision and whatever the
    machine's arithmetic [m].  When the distance computation returns for
    every listed restaurant, [get_nearby_restaurants] returns copies of
    exactly the listed restaurants whose computed distance from the user is
    at most the radius ([kept] is a permutation of them); each copy is
    annotated with [round(distance, 2)] of the computed distance; the result
    is ordered so that the annotated (rounded) distances are non-decreasing;
    and no returned restaurant has a computed distance above the radius. *)
Theorem get_nearby_restaurants_spec (user_location : dict) (rs : list loc) (radius_km : R)
    (s : state) :
  (forall l, l ∈ rs ->
     exists d, Double.restaurant_distance m user_location (obj (heap s) l) = Ok d) ->
  exists out kept s',
    Double.get_nearby_restaurants m user_location rs radius_km s = Ret out s' /\
    kept ≡ₚ filter (fun l => distance_to m user_location (heap s) l <= radius_km) rs /\
    Forall2 (fun o l =>
               obj (heap s') o =
                 <["distance" :=
                     VNum (Double.round2 m (distance_to m user_location (heap s) l))]>
                   (obj (heap s) l))
            out kept /\
    StronglySorted
      (fun a b => Double.round2 m (distance_to m user_location (heap s) a)
                  <= Double.round2 m (distance_to m user_location (heap s) b)) kept /\
    Forall (fun l => distance_to m user_location (heap s) l <= radius_km) kept.
Proof.
  intros Hwf.
  destruct (get_nearby_restaurants_run user_location rs radius_km s Hwf)
    as (out & kept & Hrun & Hperm & Hall & Hsorted).
  eexists out, kept, _. split; [exact Hrun|]. split; [done|]. split; [|split; [done|]].
  - eapply Forall2_impl; [exact Hall|]. by intros o l [_ ?].
  - apply Forall_forall. intros l Hl. rewrite Hperm in Hl.
    by apply list_elem_of_filter in Hl as [? _].
Qed.

End Nearby.

(** *** Two restaurants a few metres north of the user, in exact arithmetic *)

Lemma py_round2_small (x : R) : 0 <= x < 0.005 -> py_round2 x = 0.
Proof.
  intros Hx. unfold py_round2, round_half_even.
  assert (Hn : Int_part (x * 100) = 0%Z) by (symmetry; apply Int_part_spec; simpl; lra).
  rewrite Hn. simpl.
  destruct (Rlt_dec (x * 100 - 0) (1 / 2)); [lra|lra].
Qed.

(** On a meridian the distance is the difference of the latitudes. *)
Lemma calculate_distance_north (ulat ulng rlat : R) :
  ulat <= rlat <= ulat + 180 ->
  calculate_distance (VNum ulat) (VNum ulng) (VNum rlat) (VNum ulng)
    = Ok ((rlat - ulat) * PI / 180 * 6371).
Proof.
  intros Hle. rewrite calculate_distance_num. f_equal.
  unfold haversine_a.
  replace ((ulng * PI / 180 - ulng * PI / 180) / 2) with 0 by lra.
  rewrite sin_0.
  set (x := (rlat * PI / 180 - ulat * PI / 180) / 2).
  replace (sin x ^ 2 + cos (ulat * PI / 180) * cos (rlat * PI / 180) * 0 ^ 2)
    with (sin x ^ 2) by ring.
  pose proof PI_RGT_0 as Hpi.
  assert (Hx : 0 <= x <= PI / 2) by (unfold x; split; nra).
  rewrite sqrt_pow2 by (apply sin_ge_0; lra).
  rewrite asin_sin by lra.
  unfold x. lra.
Qed.

Lemma restaurant_distance_north (user_location restaurant location : dict)
    (ulat ulng rlat : R) :
  user_location !! "lat" = Some (VNum ulat) ->
  user_location !! "lng" = Some (VNum ulng) ->
  restaurant !! "location" = Some (VDict location) ->
  location !! "lat" = Some (VNum rlat) ->
  location !! "lng" = Some (VNum ulng) ->
  0 <= ulat <= rlat /\ rlat <= 180 /\ 0 <= ulng <= 180 ->
  Double.restaurant_distance Double.exact user_location restaurant
    = Ok ((rlat - ulat) * PI / 180 * 6371).
Proof.
  intros Hulat Hulng Hloc Hlat Hlng Hle.
  unfold Double.restaurant_distance, getitem. rewrite Hulat, Hulng, Hloc. simpl.
  unfold getitem. rewrite Hlat, Hlng. simpl.
  pose proof float_limit_large.
  rewrite calculate_distance_exact by (rewrite Rabs_pos_eq; lra).
  apply calculate_distance_north. lra.
Qed.

Lemma rest_far_distance :
  Double.restaurant_distance Double.exact get_current_location rest_far
    = Ok ((12.97162 - 12.9716) * PI / 180 * 6371).
Proof.
  apply (restaurant_distance_north _ _
           (list_to_map [("lat", VNum 12.97162); ("lng", VNum 77.5946);
                         ("address", VStr "MG Road, Bengaluru")]) _ 77.5946);
    try reflexivity. lra.
Qed.

Lemma rest_near_distance :
  Double.restaurant_distance Double.exact get_current_location rest_near
    = Ok ((12.97161 - 12.9716) * PI / 180 * 6371).
Proof.
  apply (restaurant_distance_north _ _
           (list_to_map [("lat", VNum 12.97161); ("lng", VNum 77.5946);
                         ("address", VStr "MG Road, Bengaluru")]) _ 77.5946);
    try reflexivity. lra.
Qed.

Lemma nearby_example_wf (l : loc) :
  l ∈ [0%nat; 1%nat] ->
  exists d,
    Double.restaurant_distance Double.exact get_current_location (obj (heap nearby_example) l)
      = Ok d.
Proof.
  intros Hl. apply elem_of_cons in Hl as [->|Hl];
    [|apply list_elem_of_singleton in Hl as ->].
  - eexists. exact rest_far_distance.
  - eexists. exact rest_near_distance.
Qed.

Lemma nearby_example_distances :
  let d0 := distance_to Double.exact get_current_location (heap nearby_example) 0 in
  let d1 := distance_to Double.exact get_current_location (heap nearby_example) 1 in
  d0 = (12.97162 - 12.9716) * PI / 180 * 6371 /\
  d1 = (12.97161 - 12.9716) * PI / 180 * 6371 /\
  0 < d1 < d0 /\
  0 <= d0 < 0.005 /\
  0 <= d1 < 0.005 /\
  d0 <= 10 /\
  d1 <= 10.
Proof.
  intros d0 d1.
  assert (H0 : d0 = (12.97162 - 12.9716) * PI / 180 * 6371).
  { unfold d0, distance_to. change (obj (heap nearby_example) 0) with rest_far.
    by rewrite rest_far_distance. }
  assert (H1 : d1 = (12.97161 - 12.9716) * PI / 180 * 6371).
  { unfold d1, distance_to. change (obj (heap nearby_example) 1) with rest_near.
    by rewrite rest_near_distance. }
  split; [done|]. split; [done|].
  pose proof PI_RGT_0. pose proof PI_4.
  repeat split; lra.
Qed.

Lemma nearby_example_result :
  Double.get_nearby_restaurants Double.exact get_current_location [0%nat; 1%nat] 10 nearby_example =
    Ret [2%nat; 3%nat]
        (set_heap [rest_far; rest_near;
                   <["distance" := VNum 0]> rest_far;
                   <["distance" := VNum 0]> rest_near] nearby_example).
Proof.
  pose proof nearby_example_distances as H. cbv zeta in H.
  destruct H as (_ & _ & _ & Hs0 & Hs1 & Hr0 & Hr1).
  unfold Double.get_nearby_restaurants. unfold mbind at 1, M_bind at 1.
  rewrite (nearby_loop_run Double.exact get_current_location 10 (heap nearby_example) [0%nat; 1%nat]
             nearby_example_wf [] [] nearby_example) by reflexivity.
  rewrite filter_cons_True by exact Hr0.
  rewrite filter_cons_True by exact Hr1.
  rewrite filter_nil.
  cbn [fmap list_fmap app length seq].
  unfold annotate, shown_distance, Double.round2. cbn [Double.fl Double.exact].
  rewrite (py_round2_small _ Hs0), (py_round2_small _ Hs1).
  change (obj (heap nearby_example) 0) with rest_far.
  change (obj (heap nearby_example) 1) with rest_near.
  change (heap nearby_example) with [rest_far; rest_near].
  cbn [app length].
  set (h' := [rest_far; rest_near; <["distance" := VNum 0]> rest_far;
              <["distance" := VNum 0]> rest_near]).
  assert (K2 : distance_key h' 2 = Ok (0, 2%nat)).
  { unfold distance_key, getitem.
    change (obj h' 2) with (<["distance" := VNum 0]> rest_far).
    by rewrite lookup_insert_eq. }
  assert (K3 : distance_key h' 3 = Ok (0, 3%nat)).
  { unfold distance_key, getitem.
    change (obj h' 3) with (<["distance" := VNum 0]> rest_near).
    by rewrite lookup_insert_eq. }
  unfold sorted_by_distance, mbind at 1, M_bind at 1, gets at 1.
  unfold mbind at 1, M_bind at 1, lift at 1. cbn [heap set_heap keys_of].
  rewrite K2, K3. cbn.
  destruct (Rle_dec 0 0) as [_|Hn]; [reflexivity|lra].
Qed.

(** C4 as stated fails: the copies are annotated with, and ordered by, the
    distance rounded to two decimals.  Here, computed without rounding
    error, both restaurants are shown at 0.0 km, the result keeps the order
    of the input, and its first entry ([rest1]) is farther from the user
    than its second ([rest2]). *)
Lemma nearby_orders_by_rounded_distance :
  exists s',
    Double.get_nearby_restaurants Double.exact get_current_location [0%nat; 1%nat] 10
        nearby_example
      = Ret [2%nat; 3%nat] s' /\
    obj (heap s') 2 !! "id" = Some (VStr "rest1") /\
    obj (heap s') 3 !! "id" = Some (VStr "rest2") /\
    obj (heap s') 2 !! "distance" = Some (VNum 0) /\
    obj (heap s') 3 !! "distance" = Some (VNum 0) /\
    Double.restaurant_distance Double.exact get_current_location (obj (heap s') 2)
      = Ok (distance_to Double.exact get_current_location (heap nearby_example) 0) /\
    Double.restaurant_distance Double.exact get_current_location (obj (heap s') 3)
      = Ok (distance_to Double.exact get_current_location (heap nearby_example) 1) /\
    0 < distance_to Double.exact get_current_location (heap nearby_example) 1
      < distance_to Double.exact get_current_location (heap nearby_example) 0.
Proof.
  pose proof nearby_example_distances as H. cbv zeta in H.
  destruct H as (H0 & H1 & Hlt & _).
  eexists. split; [exact nearby_example_result|].
  cbn [heap set_heap].
  change (obj _ 2) with (<["distance" := VNum 0]> rest_far).
  change (obj _ 3) with (<["distance" := VNum 0]> rest_near).
  split; [reflexivity|]. split; [reflexivity|].
  split; [by rewrite lookup_insert_eq|]. split; [by rewrite lookup_insert_eq|].
  split; [|split; [|exact Hlt]].
  - rewrite H0, <- rest_far_distance. reflexivity.
  - rewrite H1, <- rest_near_distance. reflexivity.
Qed.

Lemma get_nearby_restaurants_spec_witness :
  let m := Double.exact in
  let h := heap nearby_example in
  exists out kept s',
    Double.get_nearby_restaurants m get_current_location [0%nat; 1%nat] 10 nearby_example
      = Ret out s' /\
    kept ≡ₚ filter (fun l => distance_to m get_current_location h l <= 10) [0%nat; 1%nat] /\
    Forall2 (fun o l =>
               obj (heap s') o =
                 <["distance" :=
                     VNum (Double.round2 m (distance_to m get_current_location h l))]>
                   (obj h l))
            out kept /\
    StronglySorted
      (fun a b => Double.round2 m (distance_to m get_current_location h a)
                  <= Double.round2 m (distance_to m get_current_location h b))
      kept /\
    Forall (fun l => distance_to m get_current_location h l <= 10) kept.
Proof.
  exact (get_nearby_restaurants_spec Double.exact get_current_location [0%nat; 1%nat] 10
           nearby_example nearby_example_wf).
Defined.

Lemma get_nearby_restaurants_copies_witness :
  let m := Double.exact in
  let s' := final (Double.get_nearby_restaurants m get_current_location [0%nat; 1%nat] 10
                     nearby_example) in
  obj (heap s') 0 = rest_far /\
  obj (heap s') 1 = rest_near /\
  exists out,
    Double.get_nearby_restaurants m get_current_location [0%nat; 1%nat] 10 nearby_example
      = Ret out s' /\
    forall o, o ∈ out ->
      exists l d,
        l ∈ [0%nat; 1%nat] /\
        Double.restaurant_distance m get_current_location (obj (heap nearby_example) l)
          = Ok d /\
        d <= 10 /\
        (length (heap nearby_example) <= o)%nat /\
        obj (heap s') o
          = <["distance" := VNum (Double.round2 m d)]> (obj (heap nearby_example) l) /\
        obj (heap s') o !! "distance" = Some (VNum (Double.round2 m d)) /\
        forall k, k <> "distance" -> obj (heap s') o !! k = obj (heap nearby_example) l !! k.
Proof.
  intros m s'.
  destruct (get_nearby_restaurants_copies Double.exact get_current_location [0%nat; 1%nat] 10
              nearby_example) as (Hframe & _ & Hcopies).
  split; [apply Hframe; simpl; lia|].
  split; [apply Hframe; simpl; lia|].
  exact (Hcopies nearby_example_wf).
Defined.

End Geo.

(** ** The order lifecycle *)

Lemma filter_by_elem (h : heap_t) (k : string) (v : value) (ls r : list loc) (l : loc) :
  filter_by h k v ls = Ok r ->
  l ∈ r <-> l ∈ ls /\ obj h l !! k = Some v.
Proof.
  revert r. induction ls as [|l0 ls IH]; intros r H; simpl in H.
  - injection H as <-. split; [by intros ?%elem_of_nil|by intros [?%elem_of_nil _]].
  - unfold getitem in H. destruct (obj h l0 !! k) as [x|] eqn:Hx; [|done]. simpl in H.
    destruct (filter_by h k v ls) as [rest|]; [|done]. simpl in H. injection H as <-.
    specialize (IH rest eq_refl).
    destruct (py_eq x v) eqn:Hxv.
    + apply py_eq_true in Hxv as ->. rewrite !elem_of_cons, IH.
      split; [intros [->|[? ?]]; auto|intros [[->|?] ?]; auto].
    + apply py_eq_false in Hxv. rewrite elem_of_cons, IH.
      split; [intros [? ?]; auto|intros [[->|?] ?]; [congruence|auto]].
Qed.

Lemma filter_by_total (h : heap_t) (k : string) (v : value) (ls : list loc) :
  (forall l, l ∈ ls -> is_Some (obj h l !! k)) ->
  exists r, filter_by h k v ls = Ok r.
Proof.
  induction ls as [|l0 ls IH]; intros H; simpl; [by eexists|].
  destruct (H l0) as [x Hx]; [left|].
  destruct IH as [rest Hrest]; [intros l Hl; apply H; by right|].
  unfold getitem. rewrite Hx. simpl. rewrite Hrest. simpl. by eexists.
Qed.

(** What [update_record] leaves: the objects as they were, and the
    collection as it was or with one place now holding [r]. *)
Lemma update_record_final (c : collection) (r : loc) (io : write_result) (s : state) :
  let s' := final (update_record c r io s) in
  heap s' = heap s /\
  (coll c (data_store s') = coll c (data_store s) \/
   exists i, coll c (data_store s') = <[i := r]> (coll c (data_store s))) /\
  (forall c', c' <> c -> coll c' (data_store s') = coll c' (data_store s)).
Proof.
  unfold update_record, mbind, M_bind, gets, lift. simpl.
  destruct (update_index (heap s) r 0 (coll c (data_store s))) as [[i|]|]; simpl;
    [|by repeat split; auto..].
  rewrite coll_set_coll. split; [done|]. split; [right; by exists i|].
  intros c' Hc'. by apply coll_set_coll_ne.
Qed.

Lemma elem_of_list_insert_inv {A : Type} (l : list A) (i : nat) (x y : A) :
  y ∈ <[i := x]> l -> y = x \/ y ∈ l.
Proof.
  intros Hy. apply list_elem_of_lookup in Hy as [j Hj].
  destruct (decide (i = j)) as [<-|Hne].
  - destruct (decide (i < length l)) as [Hi|Hi].
    + rewrite list_lookup_insert_eq in Hj by done. left. congruence.
    + rewrite list_insert_ge in Hj by lia. right. by apply list_elem_of_lookup_2 in Hj.
  - rewrite list_lookup_insert_ne in Hj by done. right. by apply list_elem_of_lookup_2 in Hj.
Qed.

Lemma get_by_final (c : collection) (k : string) (v : value) (s : state) :
  final (get_by c k v s) = s.
Proof.
  unfold get_by, mbind, M_bind, gets, lift. simpl.
  by destruct (find_by (heap s) k v (coll c (data_store s))).
Qed.

Lemma render_reached (platform : R -> res unit) (section : string) (clicked : option loc)
    (h : heap_t) (ls : list loc) :
  render platform section clicked h ls = Ok true ->
  exists order, clicked = Some order /\ order ∈ ls.
Proof.
  induction ls as [|l ls IH]; simpl; [done|].
  destruct (caption platform section (obj h l)) as [[]|e]; simpl; [|done].
  destruct (bool_decide (clicked = Some l)) eqn:E.
  - apply bool_decide_eq_true in E. intros _. exists l. split; [done|left].
  - intros (o & Ho & Hin)%IH. exists o. split; [done|by right].
Qed.

Lemma render_found (platform : R -> res unit) (section : string) (order : loc)
    (h : heap_t) (ls : list loc) :
  (forall l, l ∈ ls -> caption platform section (obj h l) = Ok tt) ->
  order ∈ ls ->
  render platform section (Some order) h ls = Ok true.
Proof.
  induction ls as [|l ls IH]; intros Hc Hin; [by apply elem_of_nil in Hin|].
  simpl. rewrite Hc by left. simpl.
  destruct (bool_decide (Some order = Some l)) eqn:E; [done|].
  apply bool_decide_eq_false in E.
  apply elem_of_cons in Hin as [->|Hin]; [done|].
  apply IH; [|done]. intros l' Hl'. apply Hc. by right.
Qed.

Lemma render_passed (platform : R -> res unit) (section : string) (h : heap_t)
    (ls : list loc) :
  (forall l, l ∈ ls -> caption platform section (obj h l) = Ok tt) ->
  render platform section None h ls = Ok false.
Proof.
  induction ls as [|l ls IH]; intros Hc; [done|].
  simpl. rewrite Hc by left. simpl. apply IH. intros l' Hl'. apply Hc. by right.
Qed.

(** A run of the vendor's page is the body of the clicked button, on an
    order of the store that the button's section shows, or it changes
    nothing. *)
Lemma vendor_cases (platform : R -> res unit) (restaurant_id : value) (b : vendor_button)
    (order : loc) (io : write_result) (s : state) :
  (show_vendor_tracking platform restaurant_id b order io s = on_click b order io s /\
   order ∈ orders (data_store s) /\
   status_of s order = Some (VStr (button_section b))) \/
  final (show_vendor_tracking platform restaurant_id b order io s) = s.
Proof.
  remember (show_vendor_tracking platform restaurant_id b order io s) as result eqn:Hresult.
  revert Hresult.
  unfold show_vendor_tracking, get_orders_by_restaurant, get_all_by.
  unfold mbind at 1, M_bind at 1.
  unfold mbind at 1, M_bind at 1, gets at 1.
  unfold mbind at 1, M_bind at 1, gets at 1. cbn [coll].
  unfold lift at 1.
  destruct (filter_by (heap s) "restaurant_id" restaurant_id (orders (data_store s)))
    as [mine|] eqn:Hmine; [|intros ->; by right].
  unfold mbind at 1, M_bind at 1, gets at 1.
  assert (Hsec : forall section ls,
            filter_by (heap s) "status" (VStr section) mine = Ok ls ->
            render platform section
              (if String.eqb (button_section b) section then Some order else None)
              (heap s) ls = Ok true ->
            order ∈ orders (data_store s) /\
            status_of s order = Some (VStr (button_section b))).
  { intros section ls Hls (o & Ho & Hin)%render_reached.
    destruct (String.eqb (button_section b) section) eqn:E; [|done].
    apply String.eqb_eq in E as <-. injection Ho as <-.
    apply (filter_by_elem _ _ _ _ _ _ Hls) in Hin as [Hin Hstatus].
    apply (filter_by_elem _ _ _ _ _ _ Hmine) in Hin as [Hin _]. done. }
  unfold mbind at 1, M_bind at 1, lift at 1.
  destruct (filter_by (heap s) "status" (VStr "confirmed") mine)
    as [new_orders|] eqn:Hnew; [|intros ->; by right].
  unfold mbind at 1, M_bind at 1, lift at 1.
  destruct (filter_by (heap s) "status" (VStr "preparing") mine)
    as [preparing_orders|] eqn:Hpreparing; [|intros ->; by right].
  unfold mbind at 1, M_bind at 1, lift at 1.
  destruct (filter_by (heap s) "status" (VStr "out_for_delivery") mine)
    as [out_for_delivery_orders|] eqn:Hout; [|intros ->; by right].
  cbv zeta.
  unfold mbind at 1, M_bind at 1, lift at 1.
  destruct (render platform "confirmed" _ (heap s) new_orders) as [[]|] eqn:R1;
    [intros ->; left; split; [done|]; by apply (Hsec _ _ Hnew R1)| |intros ->; by right].
  unfold mbind at 1, M_bind at 1, lift at 1.
  destruct (render platform "preparing" _ (heap s) preparing_orders) as [[]|] eqn:R2;
    [intros ->; left; split; [done|]; by apply (Hsec _ _ Hpreparing R2)|
     |intros ->; by right].
  unfold mbind at 1, M_bind at 1, lift at 1.
  destruct (render platform "out_for_delivery" _ (heap s) out_for_delivery_orders)
    as [[]|] eqn:R3;
    [intros ->; left; split; [done|]; by apply (Hsec _ _ Hout R3)
    |intros ->; by right|intros ->; by right].
Qed.

(** When the page can print what precedes the button, the run is the body
    of the button. *)
Lemma vendor_reached (platform : R -> res unit) (restaurant_id : value) (b : vendor_button)
    (order : loc) (io : write_result) (s : state) :
  (forall l, l ∈ orders (data_store s) ->
     is_Some (obj (heap s) l !! "restaurant_id") /\ is_Some (status_of s l)) ->
  captions_render platform restaurant_id b s ->
  order ∈ orders (data_store s) ->
  obj (heap s) order !! "restaurant_id" = Some restaurant_id ->
  status_of s order = Some (VStr (button_section b)) ->
  show_vendor_tracking platform restaurant_id b order io s = on_click b order io s.
Proof.
  intros Hkeys Hcap Hin Hrid Hstatus.
  destruct (filter_by_total (heap s) "restaurant_id" restaurant_id (orders (data_store s)))
    as [mine Hmine]; [intros l Hl; by apply Hkeys|].
  assert (Hmine_in : order ∈ mine) by (by apply (filter_by_elem _ _ _ _ _ _ Hmine)).
  assert (Hfilter : forall section, exists ls,
            filter_by (heap s) "status" (VStr section) mine = Ok ls /\
            (order ∈ ls <-> button_section b = section) /\
            (section ∈ sections_until b ->
             forall l, l ∈ ls -> caption platform section (obj (heap s) l) = Ok tt)).
  { intros section.
    destruct (filter_by_total (heap s) "status" (VStr section) mine) as [ls Hls].
    { intros l Hl. apply (filter_by_elem _ _ _ _ _ _ Hmine) in Hl as [Hl _].
      by apply Hkeys. }
    exists ls. split; [done|]. split.
    - rewrite (filter_by_elem _ _ _ _ _ _ Hls). unfold status_of in Hstatus.
      rewrite Hstatus. split; [intros [_ E]; congruence|intros <-; done].
    - intros Hsec l Hl. apply (filter_by_elem _ _ _ _ _ _ Hls) in Hl as [Hl Hst].
      apply (filter_by_elem _ _ _ _ _ _ Hmine) in Hl as [Hl Hr].
      by apply Hcap. }
  destruct (Hfilter "confirmed") as (new_orders & Hnew & Hnew_in & Hnew_cap).
  destruct (Hfilter "preparing") as (preparing_orders & Hprep & Hprep_in & Hprep_cap).
  destruct (Hfilter "out_for_delivery") as (out_orders & Hout & Hout_in & Hout_cap).
  unfold show_vendor_tracking, get_orders_by_restaurant, get_all_by.
  unfold mbind at 1, M_bind at 1.
  unfold mbind at 1, M_bind at 1, gets at 1.
  unfold mbind at 1, M_bind at 1, gets at 1. cbn [coll].
  unfold lift at 1. rewrite Hmine.
  unfold mbind at 1, M_bind at 1, gets at 1.
  unfold mbind at 1, M_bind at 1, lift at 1. rewrite Hnew.
  unfold mbind at 1, M_bind at 1, lift at 1. rewrite Hprep.
  unfold mbind at 1, M_bind at 1, lift at 1. rewrite Hout.
  cbv zeta.
  destruct b; simpl button_section in *; simpl sections_until in *; simpl String.eqb;
    cbv iota.
  - rewrite render_found; [done|apply Hnew_cap; left|by apply Hnew_in].
  - rewrite render_found; [done|apply Hnew_cap; left|by apply Hnew_in].
  - rewrite (render_passed platform "confirmed") by (apply Hnew_cap; left).
    unfold mbind at 1, M_bind at 1, lift at 1.
    rewrite render_found; [done|apply Hprep_cap; right; left|by apply Hprep_in].
  - rewrite (render_passed platform "confirmed") by (apply Hnew_cap; left).
    unfold mbind at 1, M_bind at 1, lift at 1.
    rewrite (render_passed platform "preparing") by (apply Hprep_cap; right; left).
    unfold mbind at 1, M_bind at 1, lift at 1.
    rewrite render_found; [done|apply Hout_cap; right; right; left|by apply Hout_in].
Qed.

Lemma on_click_effect (N : dict -> Prop) (b : vendor_button) (order : loc)
    (io : write_result) (s : state) :
  order ∈ orders (data_store s) ->
  status_of s order = Some (VStr (button_section b)) ->
  op_effect N s (final (on_click b order io s)).
Proof.
  intros Hin Hstatus.
  unfold on_click, mbind, M_bind, gets, lift, setitem, modify. simpl.
  set (h1 := <[order := <["status" := VStr (button_status b)]> (obj (heap s) order)]> (heap s)).
  assert (Hstep : page_step (button_section b) (button_status b))
    by (destruct b; constructor).
  assert (Heff : forall s', heap s' = h1 ->
            (forall l', l' ∈ orders (data_store s') -> l' ∈ orders (data_store s)) ->
            op_effect N s s').
  { intros s' Hh Ho. by apply (eff_status N s s' order _ _ Hstatus Hstep). }
  destruct (getitem (obj h1 order) "user_id") as [user_id|]; simpl; [|by apply Heff].
  pose proof (get_by_final Users "id" user_id (set_heap h1 s)) as Hget.
  unfold get_user_by_id.
  destruct (get_by Users "id" user_id (set_heap h1 s)) as [customer s1|e s1];
    simpl in Hget; subst s1; [|by apply Heff].
  cbn [heap set_heap].
  destruct (send_order_status_update (obj h1 order) (obj h1 <$> customer) (button_status b));
    simpl; [|by apply Heff].
  unfold update_order.
  pose proof (update_record_final Orders order io (set_heap h1 s)) as (Hh & Ho & _).
  destruct (update_record Orders order io (set_heap h1 s)) as [found s2|e s2];
    simpl in *; (apply Heff; [done|]);
    (destruct Ho as [->|[i ->]];
     [done|intros l' [->|?]%elem_of_list_insert_inv; done]).
Qed.

Lemma vendor_effect (N : dict -> Prop) (platform : R -> res unit) (restaurant_id : value)
    (b : vendor_button) (order : loc) (io : write_result) (s : state) :
  op_effect N s (final (show_vendor_tracking platform restaurant_id b order io s)).
Proof.
  destruct (vendor_cases platform restaurant_id b order io s) as [(-> & Hin & Hstatus)| ->].
  - by apply on_click_effect.
  - by apply eff_none.
Qed.

Lemma track_effect (N : dict -> Prop) (order : loc) (coin : bool) (s : state) :
  op_effect N s (final (display_order_tracking order coin s)).
Proof.
  unfold display_order_tracking, mbind, M_bind, gets, lift, setitem, modify. simpl.
  unfold getitem.
  destruct (obj (heap s) order !! "status") as [status|] eqn:Hstatus; simpl;
    [|by apply eff_none].
  destruct (py_eq status (VStr "confirmed")) eqn:Hc.
  - apply py_eq_str in Hc as ->.
    destruct (coin && negb (simulate_status s)); simpl; [|by apply eff_none].
    by apply (eff_status N _ _ order "confirmed" "preparing"); [|constructor|..].
  - destruct (py_eq status (VStr "preparing")) eqn:Hp; [|by apply eff_none].
    apply py_eq_str in Hp as ->.
    destruct (coin && negb (simulate_status s)); simpl; [|by apply eff_none].
    by apply (eff_status N _ _ order "preparing" "out_for_delivery"); [|constructor|..].
Qed.

Lemma with_default_lookup (k : string) (v : value) (d : dict) :
  with_default k v d !! k = Some (default v (d !! k)).
Proof.
  unfold with_default. destruct (d !! k) eqn:E; simpl; [done|]. by rewrite lookup_insert_eq.
Qed.

Lemma with_default_lookup_ne (k k' : string) (v : value) (d : dict) :
  k' <> k -> with_default k v d !! k' = d !! k'.
Proof.
  intros Hne. unfold with_default. destruct (d !! k); [done|]. by rewrite lookup_insert_ne.
Qed.

Lemma setdefault_new (h : heap_t) (d : dict) (k : string) (v : value) (s : state) :
  setdefault (length h) k v (set_heap (h ++ [d]) s)
    = Ret tt (set_heap (h ++ [with_default k v d]) s).
Proof.
  unfold setdefault, with_default, mbind, M_bind, gets. cbn [heap set_heap].
  rewrite obj_app_new. destruct (d !! k); [done|].
  unfold setitem, modify. cbn [heap set_heap].
  rewrite obj_app_new, insert_app_r_alt, Nat.sub_diag by done. done.
Qed.

Lemma order_defaults_status (n : nat) (now : R) (d : dict) :
  order_defaults n now d !! "status" = Some (default (VStr "pending") (d !! "status")).
Proof.
  unfold order_defaults. by rewrite with_default_lookup, !with_default_lookup_ne by done.
Qed.

Lemma order_defaults_other (n : nat) (now : R) (d : dict) (k : string) :
  k <> "id" -> k <> "created_at" -> k <> "status" ->
  order_defaults n now d !! k = d !! k.
Proof.
  intros. unfold order_defaults. by rewrite !with_default_lookup_ne by done.
Qed.

(** [add_order] on the object just allocated for the record [d]. *)
Lemma add_order_new (d : dict) (now : R) (io : write_result) (s : state) :
  let l := length (heap s) in
  exists s',
    add_order l now io (set_heap (heap s ++ [d]) s) = Ret l s' /\
    heap s' = heap s ++ [order_defaults (length (orders (data_store s))) now d] /\
    data_store s' = set_coll Orders (orders (data_store s) ++ [l]) (data_store s) /\
    cart s' = cart s.
Proof.
  intros l. unfold add_order, l.
  unfold mbind at 1, M_bind at 1, gets at 1.
  unfold mbind at 1, M_bind at 1. rewrite setdefault_new.
  unfold mbind at 1, M_bind at 1. rewrite setdefault_new.
  unfold mbind at 1, M_bind at 1. rewrite setdefault_new.
  eexists. split; [reflexivity|]. by repeat split.
Qed.

Lemma insert_effect (order : dict) (now : R) (io : write_result) (s : state) :
  op_effect (fun d => d !! "status" = Some (default (VStr "pending") (order !! "status")))
            s (final (insert_order order now io s)).
Proof.
  unfold insert_order, mbind, M_bind, alloc.
  destruct (add_order_new order now io s) as (s' & -> & Hh & Hd & _).
  apply (eff_new _ _ _ _ (order_defaults_status _ now order) Hh).
  by rewrite Hd.
Qed.

(** One step of a computation in [res] that is known to return. *)
Ltac res_step H :=
  lazymatch type of H with
  | (match ?m with Ok _ => _ | Err _ => _ end) = Ok _ =>
      let E := fresh "E" in
      destruct m eqn:E; [cbv beta iota in H|discriminate H]
  end.

Lemma build_order_status (format_value : value -> string) (user : dict) (restaurant : value)
    (c : list dict) (total : R) (address phone payment_method : string) (now : R) (d : dict) :
  build_order format_value user restaurant c total address phone payment_method now = Ok d ->
  d !! "status" = Some (VStr "confirmed").
Proof.
  unfold build_order, mbind, res_bind. intros H.
  repeat res_step H.
  injection H as <-. reflexivity.
Qed.

Lemma place_order_effect (format_value : value -> string) (user : dict)
    (selected_restaurant : value) (address phone payment_method : string) (now : R)
    (io : write_result) (s : state) :
  op_effect (fun d => d !! "status" = Some (VStr "confirmed")) s
    (final (place_order format_value user selected_restaurant address phone
              payment_method now io s)).
Proof.
  unfold place_order. unfold mbind at 1, M_bind at 1, gets at 1.
  destruct (cart s) as [|first rest] eqn:Hcart; [by apply eff_none|].
  unfold mbind at 1, M_bind at 1, lift at 1.
  destruct (cart_total (first :: rest)) as [total|]; [|by apply eff_none].
  destruct (String.eqb address ""); [by apply eff_none|].
  unfold mbind at 1, M_bind at 1, lift at 1.
  destruct (build_order format_value user selected_restaurant (first :: rest) total
              address phone payment_method now) as [order|] eqn:Horder;
    [|by apply eff_none].
  apply build_order_status in Horder.
  unfold mbind at 1, M_bind at 1, alloc at 1.
  destruct (add_order_new order now io s) as (s1 & Hadd & Hh & Hd & _).
  unfold mbind at 1, M_bind at 1. rewrite Hadd.
  assert (Heff : forall s', heap s' = heap s1 -> data_store s' = data_store s1 ->
            op_effect (fun d => d !! "status" = Some (VStr "confirmed")) s s').
  { intros s' Hh' Hd'.
    apply (eff_new _ _ _ (order_defaults (length (orders (data_store s))) now order)).
    - by rewrite order_defaults_status, Horder.
    - congruence.
    - by rewrite Hd', Hd. }
  unfold mbind at 1, M_bind at 1, lift at 1.
  destruct (getitem user "id") as [user_id|]; [|by apply Heff].
  unfold mbind at 1, M_bind at 1.
  pose proof (get_by_final Users "id" user_id s1) as Hget.
  unfold get_user_by_id.
  destruct (get_by Users "id" user_id s1) as [customer s2|e s2];
    simpl in Hget; subst s2; [|by apply Heff].
  unfold mbind, M_bind, gets, lift, modify. simpl.
  destruct (send_order_confirmation _ _); by apply Heff.
Qed.

Lemma add_to_cart_objects (menu_item restaurant : dict) (s : state) :
  let s' := final (add_to_cart menu_item restaurant s) in
  heap s' = heap s /\ data_store s' = data_store s.
Proof.
  unfold add_to_cart, mbind, M_bind, gets, lift, modify. simpl.
  destruct (same_restaurant (cart s) restaurant) as [[|]|]; simpl; [|done..].
  destruct (new_cart_item menu_item restaurant); simpl; [|done].
  destruct (getitem menu_item "id"); simpl; [|done].
  destruct (find_item _ 0 (cart s)) as [[i|]|]; simpl; [|done..].
  destruct (dict_truthy _); simpl; [|done].
  by destruct (increment_quantity _).
Qed.

Lemma remove_from_cart_objects (item_id : value) (s : state) :
  let s' := final (remove_from_cart item_id s) in
  heap s' = heap s /\ data_store s' = data_store s.
Proof.
  unfold remove_from_cart, mbind, M_bind, gets, lift, modify. simpl.
  by destruct (without_item item_id (cart s)).
Qed.

Lemma run_effect (format_value : value -> string) (o : op) (s : state) :
  op_effect (adds o) s (run format_value o s).
Proof.
  destruct o; simpl.
  - apply eff_none; apply add_to_cart_objects.
  - apply eff_none; apply remove_from_cart_objects.
  - apply place_order_effect.
  - apply insert_effect.
  - apply vendor_effect.
  - apply track_effect.
Qed.

Lemma page_step_lifecycle (a b : string) : page_step a b -> lifecycle a b.
Proof. destruct 1; constructor. Qed.

Lemma page_step_valid (a b : string) : page_step a b -> b ∈ statuses.
Proof. destruct 1; unfold statuses; set_solver. Qed.

Lemma page_step_not_terminal (a b : string) :
  page_step a b -> a <> "cancelled" /\ a <> "delivered".
Proof. destruct 1; split; discriminate. Qed.

Lemma status_of_valid (s : state) (l : loc) (v : value) :
  status_of s l = Some v -> l < length (heap s).
Proof. apply obj_valid. Qed.

Lemma effect_status_moves (N : dict -> Prop) (s s' : state) (l : loc) :
  op_effect N s s' ->
  l < length (heap s) ->
  status_moves page_step s s' l.
Proof.
  intros [Hh _|l0 a b Ha Hab Hh _|d _ Hh _] Hl; unfold status_moves, status_of; rewrite Hh.
  - by left.
  - destruct (decide (l0 = l)) as [->|Hne].
    + right. exists a, b. split; [done|]. split; [|done].
      rewrite obj_insert_eq by done. by rewrite lookup_insert_eq.
    + left. by rewrite obj_insert_ne.
  - left. by rewrite obj_app_l.
Qed.

Lemma effect_orders_valid (N : dict -> Prop) (s s' : state) :
  (forall d, N d -> valid_status (d !! "status")) ->
  op_effect N s s' ->
  orders_valid s -> orders_valid s'.
Proof.
  intros HN Heff Hinv l Hl.
  destruct Heff as [Hh Hd|l0 a b Ha Hab Hh Ho|d Hd Hh Ho].
  - rewrite Hd in Hl. destruct (Hinv l Hl) as [Hlt Hv].
    unfold status_of in *. rewrite Hh. done.
  - apply Ho in Hl. destruct (Hinv l Hl) as [Hlt Hv].
    split; [by rewrite Hh, length_insert|].
    unfold status_of in *. rewrite Hh.
    destruct (decide (l0 = l)) as [->|Hne].
    + rewrite obj_insert_eq by done. rewrite lookup_insert_eq.
      exists b. split; [done|]. by apply (page_step_valid a).
    + by rewrite obj_insert_ne.
  - rewrite Ho in Hl. apply elem_of_app in Hl as [Hl|Hl].
    + destruct (Hinv l Hl) as [Hlt Hv].
      split; [rewrite Hh, length_app; lia|].
      unfold status_of in *. rewrite Hh. by rewrite obj_app_l.
    + apply list_elem_of_singleton in Hl as ->.
      split; [rewrite Hh, length_app; simpl; lia|].
      unfold status_of. rewrite Hh, obj_app_new. by apply HN.
Qed.

Lemma adds_valid (o : op) (d : dict) :
  carries_status o -> adds o d -> valid_status (d !! "status").
Proof.
  destruct o; simpl; try done.
  - intros _ ->. exists "confirmed". split; [done|]. unfold statuses. set_solver.
  - intros (st & Hst & Hin) ->. rewrite Hst. simpl. by exists st.
Qed.

Lemma init_orders_valid : orders_valid init_state.
Proof. intros l Hl. by apply elem_of_nil in Hl. Qed.

(** A session that starts from a data file whose orders carry one of the
    five statuses starts with valid orders. *)
Lemma loaded_orders_valid (doc : document) :
  Forall (fun order : dict => valid_status (order !! "status")) (doc_orders doc) ->
  orders_valid (initialize_data (Some doc)).
Proof.
  intros Hdoc l Hl. destruct doc as [u r m o]. simpl in *.
  apply elem_of_seq in Hl as [Hlo Hhi].
  split; [rewrite !length_app; lia|].
  unfold status_of, obj. simpl.
  rewrite (assoc_L (++) u r), (assoc_L (++) (u ++ r) m).
  rewrite list_lookup_total_alt, lookup_app_r by (rewrite !length_app; lia).
  rewrite !length_app.
  destruct (lookup_lt_is_Some_2 o (l - (length u + length r + length m))) as [d Hd];
    [lia|].
  rewrite Hd. simpl. rewrite Forall_forall in Hdoc. apply Hdoc.
  by apply list_elem_of_lookup_2 in Hd.
Qed.

Lemma reachable_orders_valid (format_value : value -> string) (s0 s : state) :
  orders_valid s0 ->
  reachable format_value carries_status s0 s -> orders_valid s.
Proof.
  intros H0. induction 1 as [|s o _ IH Ho]; [exact H0|].
  apply (effect_orders_valid (adds o) s); [|apply run_effect|done].
  intros d. by apply adds_valid.
Qed.

(** C1, as the code has it.  Start from any store whose orders carry one
    of the five statuses (a fresh installation; a data file with such
    orders, [loaded_orders_valid]; a store with registered users).  In every
    state reached from it by cart handlers, checkout, inserts of order
    records that carry one of the five statuses, vendor actions and the
    tracking page, every order of the store has one of the five statuses;
    and every operation leaves the status of each order as it is or moves it
    one step along confirmed -> preparing -> out_for_delivery -> delivered
    or into cancelled from confirmed or preparing. *)
Theorem order_status_invariant (format_value : value -> string) (s0 s : state) :
  orders_valid s0 ->
  reachable format_value carries_status s0 s ->
  (forall l, l ∈ orders (data_store s) -> valid_status (status_of s l)) /\
  (forall o l, l ∈ orders (data_store s) ->
     status_moves lifecycle s (run format_value o s) l).
Proof.
  intros H0 Hreach. pose proof (reachable_orders_valid _ _ _ H0 Hreach) as Hinv.
  split; [intros l Hl; by apply Hinv|].
  intros o l Hl. destruct (Hinv l Hl) as [Hlt _].
  destruct (effect_status_moves _ _ _ l (run_effect format_value o s) Hlt)
    as [Hsame|(a & b & Ha & Hb & Hab)]; [by left|].
  right. exists a, b. split; [done|]. split; [done|]. by apply page_step_lifecycle.
Qed.

(** C1 as stated fails for the Record Store insert: [add_order] gives a
    record without a status the status ["pending"], which is none of the
    five. *)
Lemma insert_defaults_to_pending :
  exists s l,
    reachable (fun _ => "") (fun _ => True) init_state s /\
    l ∈ orders (data_store s) /\
    status_of s l = Some (VStr "pending") /\
    "pending" ∉ statuses.
Proof.
  exists (run (fun _ => "") (OpInsert bare_order 0 WriteOk) init_state), 0.
  split; [by apply reach_step; [apply reach_init|]|].
  split; [by apply list_elem_of_singleton|].
  split; [reflexivity|].
  unfold statuses. intros H. repeat (apply elem_of_cons in H as [H|H]; [discriminate H|]).
  by apply elem_of_nil in H.
Qed.

(** A session that loads a store with a customer and her new order; the
    vendor accepts the order. *)
Lemma order_status_invariant_witness :
  let s0 := initialize_data (Some (Document [asha] [] [] [asha_order])) in
  let s := run (fun _ => "") (OpVendor (fun _ => Ok tt) (VStr "rest1") Accept 1 WriteOk) s0 in
  (forall l, l ∈ orders (data_store s) -> valid_status (status_of s l)) /\
  (forall o l, l ∈ orders (data_store s) ->
     status_moves lifecycle s (run (fun _ => "") o s) l).
Proof.
  intros s0 s. apply (order_status_invariant (fun _ => "") s0 s).
  - apply loaded_orders_valid. simpl. apply Forall_singleton.
    exists "confirmed". split; [reflexivity|]. unfold statuses. left.
  - by apply reach_step; [apply reach_init|].
Defined.

(** ** Checkout, Reject, and the terminal statuses *)

Lemma on_click_status (b : vendor_button) (order : loc) (io : write_result) (s : state) :
  order < length (heap s) ->
  status_of (final (on_click b order io s)) order = Some (VStr (button_status b)).
Proof.
  intros Hlt.
  unfold on_click, mbind, M_bind, gets, lift, setitem, modify. simpl.
  set (h1 := <[order := <["status" := VStr (button_status b)]> (obj (heap s) order)]> (heap s)).
  assert (Hres : forall s', heap s' = h1 ->
            status_of s' order = Some (VStr (button_status b))).
  { intros s' Hh. unfold status_of. rewrite Hh. unfold h1.
    rewrite obj_insert_eq by done. by rewrite lookup_insert_eq. }
  destruct (getitem (obj h1 order) "user_id") as [user_id|]; simpl; [|by apply Hres].
  pose proof (get_by_final Users "id" user_id (set_heap h1 s)) as Hget.
  unfold get_user_by_id.
  destruct (get_by Users "id" user_id (set_heap h1 s)) as [customer s1|e s1];
    simpl in Hget; subst s1; [|by apply Hres].
  cbn [heap set_heap].
  destruct (send_order_status_update (obj h1 order) (obj h1 <$> customer) (button_status b));
    simpl; [|by apply Hres].
  unfold update_order.
  pose proof (update_record_final Orders order io (set_heap h1 s)) as (Hh & _).
  destruct (update_record Orders order io (set_heap h1 s)) as [found s2|e s2];
    simpl in *; by apply Hres.
Qed.

Lemma vendor_click (platform : R -> res unit) (restaurant_id : value) (b : vendor_button)
    (order : loc) (io : write_result) (s : state) :
  (forall l, l ∈ orders (data_store s) ->
     is_Some (obj (heap s) l !! "restaurant_id") /\ is_Some (status_of s l)) ->
  captions_render platform restaurant_id b s ->
  order ∈ orders (data_store s) ->
  obj (heap s) order !! "restaurant_id" = Some restaurant_id ->
  status_of s order = Some (VStr (button_section b)) ->
  status_of (final (show_vendor_tracking platform restaurant_id b order io s)) order
    = Some (VStr (button_status b)).
Proof.
  intros Hkeys Hcap Hin Hrid Hstatus.
  rewrite (vendor_reached platform restaurant_id b order io s) by done.
  apply on_click_status. by apply status_of_valid in Hstatus.
Qed.

Lemma effect_terminal (N : dict -> Prop) (s s' : state) (l : loc) (t : string) :
  op_effect N s s' ->
  status_of s l = Some (VStr t) ->
  t = "cancelled" \/ t = "delivered" ->
  status_of s' l = Some (VStr t).
Proof.
  intros Heff Hl Ht.
  destruct (effect_status_moves N s s' l Heff (status_of_valid _ _ _ Hl))
    as [->|(a & b & Ha & _ & Hab)]; [done|].
  rewrite Hl in Ha. injection Ha as <-.
  apply page_step_not_terminal in Hab as [? ?]. by destruct Ht.
Qed.

Lemma effect_new_orders (N : dict -> Prop) (s s' : state) (l : loc) :
  op_effect N s s' ->
  l ∈ orders (data_store s') ->
  l ∈ orders (data_store s) \/ exists d, N d /\ obj (heap s') l = d.
Proof.
  intros [_ Hd|l0 a b _ _ _ Ho|d Hd Hh Ho] Hl.
  - left. by rewrite <- Hd.
  - left. by apply Ho.
  - rewrite Ho in Hl. apply elem_of_app in Hl as [Hl|Hl]; [by left|].
    apply list_elem_of_singleton in Hl as ->. right. exists d. split; [done|].
    rewrite Hh. apply obj_app_new.
Qed.

Lemma checkout_creates_order (format_value : value -> string) (user : dict)
    (selected_restaurant : value) (address phone payment_method : string) (now : R)
    (io : write_result) (s : state) (first : dict) (rest : list dict) (total : R) (d : dict) :
  cart s = first :: rest ->
  cart_total (cart s) = Ok total ->
  address <> "" ->
  build_order format_value user selected_restaurant (cart s) total
            address phone payment_method now = Ok d ->
  let s' := final (place_order format_value user selected_restaurant address phone
                     payment_method now io s) in
  heap s' = heap s ++ [order_defaults (length (orders (data_store s))) now d] /\
  orders (data_store s') = orders (data_store s) ++ [length (heap s)] /\
  status_of s' (length (heap s)) = Some (VStr "confirmed").
Proof.
  intros Hcart Htotal Haddress Horder. cbv zeta.
  assert (Hres : forall s',
            heap s' = heap s ++ [order_defaults (length (orders (data_store s))) now d] ->
            orders (data_store s') = orders (data_store s) ++ [length (heap s)] ->
            heap s' = heap s ++ [order_defaults (length (orders (data_store s))) now d] /\
            orders (data_store s') = orders (data_store s) ++ [length (heap s)] /\
            status_of s' (length (heap s)) = Some (VStr "confirmed")).
  { intros s' Hh Ho. split; [done|]. split; [done|].
    unfold status_of. rewrite Hh, obj_app_new, order_defaults_status.
    by rewrite (build_order_status _ _ _ _ _ _ _ _ _ _ Horder). }
  remember (final (place_order format_value user selected_restaurant address phone
                     payment_method now io s)) as s' eqn:Hs'.
  revert Hs'.
  unfold place_order. unfold mbind at 1, M_bind at 1, gets at 1.
  rewrite Hcart in *. cbv beta iota.
  unfold mbind at 1, M_bind at 1, lift at 1. rewrite Htotal. cbv beta iota.
  apply String.eqb_neq in Haddress. rewrite Haddress.
  unfold mbind at 1, M_bind at 1, lift at 1. rewrite Horder. cbv beta iota.
  unfold mbind at 1, M_bind at 1, alloc at 1. cbv beta iota.
  destruct (add_order_new d now io s) as (s1 & Hadd & Hh & Hd & _).
  unfold mbind at 1, M_bind at 1. rewrite Hadd. cbv beta iota.
  assert (Ho : orders (data_store s1) = orders (data_store s) ++ [length (heap s)])
    by (by rewrite Hd).
  unfold mbind at 1, M_bind at 1, lift at 1.
  destruct (getitem user "id") as [user_id|]; [|intros ->; by apply Hres].
  unfold mbind at 1, M_bind at 1.
  pose proof (get_by_final Users "id" user_id s1) as Hget.
  unfold get_user_by_id.
  destruct (get_by Users "id" user_id s1) as [customer s2|e s2];
    simpl in Hget; subst s2; [|intros ->; by apply Hres].
  unfold mbind, M_bind, gets, lift, modify. simpl.
  destruct (send_order_confirmation _ _); intros ->; by apply Hres.
Qed.

(** C8. Every order the checkout adds to the store has status
    ["confirmed"], and a checkout with a cart, an address and a record it
    can build does add one; the vendor's Reject on an order shown as new
    (status ["confirmed"]), on a page that can print the captions of the
    restaurant's new orders, sets its status to ["cancelled"]; and no
    operation (cart, checkout, insert, vendor button, tracking page) changes
    the status of an order that is ["cancelled"] or ["delivered"]. *)
Theorem order_lifecycle_terminal (format_value : value -> string) :
  (forall user selected_restaurant address phone payment_method now io s l,
     let s' := run format_value
                 (OpPlaceOrder user selected_restaurant address phone payment_method now io) s in
     l ∈ orders (data_store s') ->
     l ∈ orders (data_store s) \/ status_of s' l = Some (VStr "confirmed")) /\
  (forall user selected_restaurant address phone payment_method now io s first rest total d,
     cart s = first :: rest ->
     cart_total (cart s) = Ok total ->
     address <> "" ->
     build_order format_value user selected_restaurant (cart s) total
               address phone payment_method now = Ok d ->
     let s' := run format_value
                 (OpPlaceOrder user selected_restaurant address phone payment_method now io) s in
     heap s' = heap s ++ [order_defaults (length (orders (data_store s))) now d] /\
     orders (data_store s') = orders (data_store s) ++ [length (heap s)] /\
     status_of s' (length (heap s)) = Some (VStr "confirmed")) /\
  (forall platform restaurant_id order io s,
     (forall l, l ∈ orders (data_store s) ->
        is_Some (obj (heap s) l !! "restaurant_id") /\ is_Some (status_of s l)) ->
     captions_render platform restaurant_id Reject s ->
     order ∈ orders (data_store s) ->
     obj (heap s) order !! "restaurant_id" = Some restaurant_id ->
     status_of s order = Some (VStr "confirmed") ->
     status_of (run format_value (OpVendor platform restaurant_id Reject order io) s) order
       = Some (VStr "cancelled")) /\
  (forall o s l t,
     status_of s l = Some (VStr t) ->
     t = "cancelled" \/ t = "delivered" ->
     status_of (run format_value o s) l = Some (VStr t)).
Proof.
  split; [|split; [|split]].
  - intros user selected_restaurant address phone payment_method now io s l s' Hl.
    destruct (effect_new_orders _ s s' l (run_effect format_value _ s) Hl)
      as [?|(d & Hd & Hobj)]; [by left|].
    right. unfold status_of. rewrite Hobj. exact Hd.
  - intros user selected_restaurant address phone payment_method now io s first rest total d
      Hcart Htotal Haddress Horder.
    by apply (checkout_creates_order format_value user selected_restaurant address phone
                payment_method now io s first rest total d).
  - intros platform restaurant_id order io s Hkeys Hcap Hin Hrid Hstatus.
    by apply (vendor_click platform restaurant_id Reject).
  - intros o s l t Hl Ht.
    by apply (effect_terminal _ s _ l t (run_effect format_value o s)).
Qed.

(** *** A checkout, a rejection, and a late click *)

Section Scenario.
Local Open Scope R_scope.

Lemma res_bind_ok {A B : Type} (m : res A) (f : A -> res B) (a : A) :
  m = Ok a -> (m ≫= f) = f a.
Proof. by intros ->. Qed.

Lemma calculate_eta_small (d : R) : 0 <= d < 0.005 -> calculate_eta d 25 = Ok 10%Z.
Proof.
  intros Hd. unfold calculate_eta. destruct (decide (25 = 0)) as [E|_]; [lra|].
  destruct (Rlt_dec d 5) as [_|H]; [|lra].
  f_equal. apply py_int_unique; simpl; lra.
Qed.

Lemma build_order_example (format_value : value -> string) :
  build_order format_value asha (VDict shown_far) [dosa_line] (80 * 1 + 0)
            "12 MG Road" "9845000000" "UPI" 1700000600
    = Ok (checkout_order format_value).
Proof.
  unfold build_order.
  do 7 (erewrite res_bind_ok; [|reflexivity]).
  erewrite res_bind_ok; [|apply calculate_distance_north; lra].
  erewrite res_bind_ok.
  2:{ apply calculate_eta_small. pose proof PI_RGT_0. pose proof PI_4. split; lra. }
  do 4 (erewrite res_bind_ok; [|reflexivity]).
  reflexivity.
Qed.

Lemma order_lifecycle_terminal_witness :
  let fv := fun _ : value => "" in
  let s1 := run fv (OpPlaceOrder asha (VDict shown_far) "12 MG Road" "9845000000" "UPI"
                      1700000600 WriteOk) checkout_example in
  let clock := fun _ : R => Ok tt in
  let s2 := run fv (OpVendor clock (VStr "rest1") Reject 2 WriteOk) s1 in
  let s3 := run fv (OpVendor clock (VStr "rest1") Accept 2 WriteOk) s2 in
  orders (data_store s1) = [2%nat] /\
  status_of s1 2 = Some (VStr "confirmed") /\
  status_of s2 2 = Some (VStr "cancelled") /\
  status_of s3 2 = Some (VStr "cancelled").
Proof.
  intros fv s1 clock s2 s3.
  destruct (order_lifecycle_terminal fv) as (_ & Hcreate & Hreject & Hterminal).
  destruct (Hcreate asha (VDict shown_far) "12 MG Road" "9845000000" "UPI" 1700000600
              WriteOk checkout_example dosa_line [] (80 * 1 + 0) (checkout_order fv))
    as (Hheap & Horders & Hstatus);
    [reflexivity|reflexivity|discriminate|apply build_order_example|].
  fold s1 in Hheap, Horders, Hstatus. simpl in Horders, Hstatus.
  assert (Hrejected : status_of s2 2 = Some (VStr "cancelled")).
  { apply Hreject; [| |rewrite Horders; by apply list_elem_of_singleton| |exact Hstatus].
    - intros l Hl. rewrite Horders in Hl. apply list_elem_of_singleton in Hl as ->.
      split; [|by rewrite Hstatus].
      rewrite Hheap. change (obj _ 2) with (order_defaults 0 1700000600 (checkout_order fv)).
      by rewrite order_defaults_other.
    - intros l section Hl _ Hsection _. rewrite Horders in Hl.
      apply list_elem_of_singleton in Hl as ->.
      apply list_elem_of_singleton in Hsection as ->.
      rewrite Hheap. reflexivity.
    - rewrite Hheap. change (obj _ 2) with (order_defaults 0 1700000600 (checkout_order fv)).
      by rewrite order_defaults_other. }
  split; [exact Horders|]. split; [exact Hstatus|]. split; [exact Hrejected|].
  apply Hterminal; [exact Hrejected|by left].
Defined.

End Scenario.

(** * Further properties *)

(** ** The data file *)
Lemma obj_seq (pre xs post : heap_t) :
  obj (pre ++ xs ++ post) <$> seq (length pre) (length xs) = xs.
Proof.
  revert pre. induction xs as [|x xs IH]; intros pre; [done|].
  simpl. f_equal.
  - apply obj_lookup. by rewrite lookup_app_r, Nat.sub_diag.
  - specialize (IH (pre ++ [x])). rewrite length_app in IH. simpl in IH.
    rewrite Nat.add_1_r in IH. rewrite <- (assoc_L (++)) in IH. exact IH.
Qed.

Lemma snapshot_initialize_data (doc : document) :
  snapshot (initialize_data (Some doc)) = doc.
Proof.
  destruct doc as [u r m o]. unfold initialize_data, snapshot. simpl.
  f_equal.
  - apply (obj_seq [] u (r ++ m ++ o)).
  - apply (obj_seq u r (m ++ o)).
  - rewrite <- length_app.
    replace (u ++ r ++ m ++ o) with ((u ++ r) ++ m ++ o) by by rewrite <- (assoc_L (++)).
    apply (obj_seq (u ++ r) m o).
  - rewrite <- !length_app.
    replace (u ++ r ++ m ++ o) with (((u ++ r) ++ m) ++ o ++ [])
      by by rewrite app_nil_r, <- !(assoc_L (++)).
    apply (obj_seq ((u ++ r) ++ m) o []).
Qed.

(** X1. After a successful write of the data file, a new session
    ([initialize_data] on the file) holds, collection by collection and in the
    same order, records equal by value to the ones the store held; every
    loaded record is an object of its own (no reference occurs twice, also
    when the store listed one object twice), every reference is valid, and
    the cart of the new session is empty. *)
Theorem reload_round_trip (s : state) :
  let s' := final (_save_data_to_file WriteOk s) in
  let fresh := initialize_data (disk s') in
  snapshot fresh = snapshot s /\
  NoDup (all_records (data_store fresh)) /\
  (forall l, l ∈ all_records (data_store fresh) -> l < length (heap fresh)) /\
  cart fresh = [].
Proof.
  cbv zeta. cbn [final _save_data_to_file modify disk set_disk].
  split; [apply snapshot_initialize_data|].
  change (snapshot s) with (snapshot s).
  destruct (snapshot s) as [u r m o]. unfold initialize_data, all_records. simpl.
  split; [|split; [|done]].
  - apply NoDup_app. split; [apply NoDup_seq|]. split.
    + intros x Hx Hx'. apply elem_of_seq in Hx.
      rewrite !elem_of_app, !elem_of_seq in Hx'. lia.
    + apply NoDup_app. split; [apply NoDup_seq|]. split.
      * intros x Hx Hx'. apply elem_of_seq in Hx.
        rewrite !elem_of_app, !elem_of_seq in Hx'. lia.
      * apply NoDup_app. split; [apply NoDup_seq|]. split; [|apply NoDup_seq].
        intros x Hx Hx'. apply elem_of_seq in Hx. apply elem_of_seq in Hx'. lia.
  - intros l. rewrite !elem_of_app, !elem_of_seq, !length_app. lia.
Qed.

Lemma find_by_by_value (h h' : heap_t) (k : string) (v : value) (ls ls' : list loc) :
  obj h <$> ls = obj h' <$> ls' ->
  res_map (fmap (obj h)) (find_by h k v ls) = res_map (fmap (obj h')) (find_by h' k v ls').
Proof.
  revert ls'. induction ls as [|l ls IH]; intros [|l' ls'] H; try done.
  simpl in H. injection H as Hl Hls. simpl. rewrite <- Hl.
  unfold getitem. destruct (obj h l !! k) as [x|]; simpl; [|done].
  destruct (py_eq x v); simpl; [by rewrite Hl|]. by apply IH.
Qed.

Lemma filter_by_by_value (h h' : heap_t) (k : string) (v : value) (ls ls' : list loc) :
  obj h <$> ls = obj h' <$> ls' ->
  res_map (fmap (obj h)) (filter_by h k v ls) = res_map (fmap (obj h')) (filter_by h' k v ls').
Proof.
  revert ls'. induction ls as [|l ls IH]; intros [|l' ls'] H; try done.
  simpl in H. injection H as Hl Hls. simpl. rewrite <- Hl.
  unfold getitem. destruct (obj h l !! k) as [x|]; simpl; [|done].
  specialize (IH ls' Hls).
  destruct (filter_by h k v ls) as [r|e], (filter_by h' k v ls') as [r'|e']; simpl in *;
    try done.
  injection IH as IH. destruct (py_eq x v); rewrite ?fmap_cons; congruence.
Qed.

Lemma snapshot_coll (s s' : state) (c : collection) :
  snapshot s = snapshot s' ->
  obj (heap s) <$> coll c (data_store s) = obj (heap s') <$> coll c (data_store s').
Proof. unfold snapshot. intros H. injection H as ? ? ? ?. by destruct c. Qed.

Lemma get_by_by_value (c : collection) (k : string) (v : value) (s : state) :
  by_value (get_by c k v s)
    = res_map (fmap (obj (heap s))) (find_by (heap s) k v (coll c (data_store s))).
Proof.
  unfold get_by, mbind, M_bind, gets, lift. simpl.
  by destruct (find_by (heap s) k v (coll c (data_store s))).
Qed.

Lemma get_all_by_by_value (c : collection) (k : string) (v : value) (s : state) :
  all_by_value (get_all_by c k v s)
    = res_map (fmap (obj (heap s))) (filter_by (heap s) k v (coll c (data_store s))).
Proof.
  unfold get_all_by, mbind, M_bind, gets, lift. simpl.
  by destruct (filter_by (heap s) k v (coll c (data_store s))).
Qed.

(** X2. Every lookup of the store gives, by value, the same answer
    in a session loaded from the written file as in the session that wrote
    it: [get_by] (the lookups by id and by email) returns an equal record or
    [None] or raises the same exception, and [get_all_by] (the lookups by
    owner, restaurant and user) returns equal records in the same order. *)
Theorem reload_preserves_lookups (s : state) (c : collection) (k : string) (v : value) :
  let fresh := initialize_data (Some (snapshot s)) in
  by_value (get_by c k v fresh) = by_value (get_by c k v s) /\
  all_by_value (get_all_by c k v fresh) = all_by_value (get_all_by c k v s).
Proof.
  intros fresh. rewrite !get_by_by_value, !get_all_by_by_value.
  split; [apply find_by_by_value|apply filter_by_by_value];
    apply snapshot_coll, snapshot_initialize_data.
Qed.

(** ** Lookups *)

Lemma find_by_missing (h : heap_t) (k : string) (v : value) (ls : list loc) (i : nat) (u : loc) :
  ls !! i = Some u ->
  obj h u !! k = None ->
  (forall j u', j < i -> ls !! j = Some u' -> exists x, obj h u' !! k = Some x /\ x <> v) ->
  find_by h k v ls = Err (KeyError k).
Proof.
  revert i. induction ls as [|u0 ls IH]; intros i Hi Hu Hbefore; [done|].
  destruct i as [|i].
  - injection Hi as ->. simpl. unfold getitem. by rewrite Hu.
  - destruct (Hbefore 0 u0) as (x & Hx & Hne); [lia|done|].
    simpl. unfold getitem. rewrite Hx. simpl.
    apply py_eq_false in Hne. rewrite Hne.
    apply (IH i); [done|done|].
    intros j u' Hj Hu'. apply (Hbefore (S j) u'); [lia|done].
Qed.

(** X3. The lookups for one record ([get_user_by_id],
    [get_user_by_email], [get_restaurant_by_id], [get_order_by_id], all
    [get_by]) leave the state as it is and return [None] when every record
    has the field with another value; otherwise they return the first
    record whose field has the value; and they raise [KeyError] when a record
    without the field comes before any match, even if a later record
    matches. *)
Theorem get_by_first_match (c : collection) (k : string) (v : value) (s : state) :
  let ls := coll c (data_store s) in
  let differs l := exists x, obj (heap s) l !! k = Some x /\ x <> v in
  ((forall l, l ∈ ls -> differs l) -> get_by c k v s = Ret None s) /\
  (forall i l,
     ls !! i = Some l ->
     (forall j l', j < i -> ls !! j = Some l' -> differs l') ->
     (obj (heap s) l !! k = Some v -> get_by c k v s = Ret (Some l) s) /\
     (obj (heap s) l !! k = None -> get_by c k v s = Raise (KeyError k) s)).
Proof.
  cbv zeta. split.
  - intros H. unfold get_by, mbind, M_bind, gets, lift. simpl.
    by rewrite (find_by_none _ _ _ _ H).
  - intros i l Hi Hbefore. split; intros Hl.
    + unfold get_by, mbind, M_bind, gets, lift. simpl.
      by rewrite (find_by_first _ _ _ _ i l Hi Hl Hbefore).
    + unfold get_by, mbind, M_bind, gets, lift. simpl.
      by rewrite (find_by_missing _ _ _ _ i l Hi Hl Hbefore).
Qed.

Lemma get_by_first_match_witness :
  get_by Users "id" (VStr "1700000009") users_example = Ret None users_example /\
  get_by Users "id" (VStr "1700000001") users_example = Ret (Some 1) users_example /\
  get_by Users "email" (VStr "asha@example.com") users_example
    = Raise (KeyError "email") users_example.
Proof.
  split; [|split].
  - apply (proj1 (get_by_first_match Users "id" (VStr "1700000009") users_example)).
    intros l Hl. simpl in Hl.
    apply elem_of_cons in Hl as [->|Hl]; [|apply list_elem_of_singleton in Hl as ->].
    + exists (VStr "1700000000"). split; [reflexivity|discriminate].
    + exists (VStr "1700000001"). split; [reflexivity|discriminate].
  - apply (proj2 (get_by_first_match Users "id" (VStr "1700000001") users_example) 1 1);
      [reflexivity| |reflexivity].
    intros [|j] l' Hj Hl'; [|lia]. injection Hl' as <-.
    exists (VStr "1700000000"). split; [reflexivity|discriminate].
  - apply (proj2 (get_by_first_match Users "email" (VStr "asha@example.com") users_example)
             0 0); [reflexivity| |reflexivity].
    intros j l' Hj. lia.
Defined.

Lemma filter_by_filter (h : heap_t) (k : string) (v : value) (ls : list loc) :
  (forall l, l ∈ ls -> is_Some (obj h l !! k)) ->
  filter_by h k v ls = Ok (filter (fun l => obj h l !! k = Some v) ls).
Proof.
  induction ls as [|l ls IH]; intros H; [done|].
  destruct (H l) as [x Hx]; [left|].
  simpl. unfold getitem. rewrite Hx. simpl.
  rewrite IH by (intros l' Hl'; apply H; by right). simpl.
  rewrite filter_cons. rewrite Hx. f_equal.
  destruct (py_eq x v) eqn:E.
  - apply py_eq_true in E as ->. by rewrite decide_True.
  - apply py_eq_false in E. rewrite decide_False; [done|congruence].
Qed.

Lemma filter_by_missing (h : heap_t) (k : string) (v : value) (ls : list loc) (l : loc) :
  l ∈ ls -> obj h l !! k = None -> filter_by h k v ls = Err (KeyError k).
Proof.
  induction ls as [|l0 ls IH]; intros Hl Hk; [by apply elem_of_nil in Hl|].
  simpl. unfold getitem. destruct (obj h l0 !! k) as [x|] eqn:Hx; [|done]. simpl.
  apply elem_of_cons in Hl as [->|Hl]; [congruence|].
  by rewrite IH.
Qed.

(** X4. The lookups for several records
    ([get_restaurants_by_owner], [get_menu_items_by_restaurant],
    [get_orders_by_user], [get_orders_by_restaurant], all [get_all_by])
    return exactly the records whose field has the value, in the order of
    the store, when every record of the collection has the field; a single
    record without the field, matching or not, makes them raise
    [KeyError]. *)
Theorem get_all_by_filter (c : collection) (k : string) (v : value) (s : state) :
  let ls := coll c (data_store s) in
  ((forall l, l ∈ ls -> is_Some (obj (heap s) l !! k)) ->
     get_all_by c k v s = Ret (filter (fun l => obj (heap s) l !! k = Some v) ls) s) /\
  (forall l, l ∈ ls -> obj (heap s) l !! k = None ->
     get_all_by c k v s = Raise (KeyError k) s).
Proof.
  cbv zeta. split.
  - intros H. unfold get_all_by, mbind, M_bind, gets, lift. simpl.
    by rewrite (filter_by_filter _ _ _ _ H).
  - intros l Hl Hk. unfold get_all_by, mbind, M_bind, gets, lift. simpl.
    by rewrite (filter_by_missing _ _ _ _ l Hl Hk).
Qed.

Lemma get_all_by_filter_witness :
  get_all_by Orders "restaurant_id" (VStr "rest1") vendor_example
    = Ret (filter (fun l => obj (heap vendor_example) l !! "restaurant_id"
                            = Some (VStr "rest1")) [1; 2]) vendor_example /\
  get_all_by Orders "distance_km" (VNum 1) vendor_example
    = Raise (KeyError "distance_km") vendor_example.
Proof.
  split.
  - apply (proj1 (get_all_by_filter Orders "restaurant_id" (VStr "rest1") vendor_example)).
    intros l Hl. simpl in Hl.
    apply elem_of_cons in Hl as [->|Hl]; [|apply list_elem_of_singleton in Hl as ->];
      by eexists.
  - apply (proj2 (get_all_by_filter Orders "distance_km" (VNum 1) vendor_example) 1);
      [by left|reflexivity].
Defined.

(** ** Insert, then look up *)

Lemma add_restaurant_run (r : loc) (io : write_result) (s : state) :
  r < length (heap s) ->
  exists s',
    add_restaurant r io s = Ret true s' /\
    length (heap s') = length (heap s) /\
    obj (heap s') r !! "id" =
      Some (default (VStr ("rest" +:+ pretty (length (restaurants (data_store s)) + 1)))
                    (obj (heap s) r !! "id")) /\
    (forall k, k <> "id" -> obj (heap s') r !! k = obj (heap s) r !! k) /\
    (forall l, l <> r -> obj (heap s') l = obj (heap s) l) /\
    restaurants (data_store s') = restaurants (data_store s) ++ [r] /\
    (forall c, c <> Restaurants -> coll c (data_store s') = coll c (data_store s)) /\
    disk s' = written io s' /\
    cart s' = cart s /\
    simulate_status s' = simulate_status s.
Proof.
  intros Hr. unfold add_restaurant. unfold mbind at 1, M_bind at 1. simpl.
  destruct (setdefault_run r "id"
              (VStr ("rest" +:+ pretty (length (restaurants (data_store s)) + 1))) s Hr)
    as (s1 & E1 & L1 & D1 & _ & C1 & S1 & I1 & K1 & O1).
  unfold mbind at 1, M_bind at 1. rewrite E1.
  destruct (append_record_run Restaurants r io s1) as (s2 & E2 & H2 & C2 & N2 & W2 & A2 & B2).
  unfold mbind at 1, M_bind at 1. rewrite E2.
  exists s2. split; [done|]. rewrite H2.
  split; [done|]. split; [done|]. split; [done|]. split; [done|].
  split; [simpl in C2; by rewrite C2, D1|].
  split; [intros c Hc; by rewrite N2, D1|].
  split; [done|]. split; congruence.
Qed.

Lemma add_order_run (r : loc) (now : R) (io : write_result) (s : state) :
  r < length (heap s) ->
  exists s',
    add_order r now io s = Ret r s' /\
    length (heap s') = length (heap s) /\
    obj (heap s') r =
      order_defaults (length (orders (data_store s))) now (obj (heap s) r) /\
    (forall l, l <> r -> obj (heap s') l = obj (heap s) l) /\
    orders (data_store s') = orders (data_store s) ++ [r] /\
    (forall c, c <> Orders -> coll c (data_store s') = coll c (data_store s)) /\
    disk s' = written io s' /\
    cart s' = cart s /\
    simulate_status s' = simulate_status s.
Proof.
  intros Hr. unfold add_order. unfold mbind at 1, M_bind at 1. simpl.
  destruct (setdefault_run r "id"
              (VStr ("order" +:+ pretty (length (orders (data_store s)) + 1))) s Hr)
    as (s1 & E1 & L1 & D1 & _ & C1 & S1 & I1 & K1 & O1).
  unfold mbind at 1, M_bind at 1. rewrite E1.
  destruct (setdefault_run r "created_at" (VNum now) s1) as
    (s2 & E2 & L2 & D2 & _ & C2 & S2 & I2 & K2 & O2); [lia|].
  unfold mbind at 1, M_bind at 1. rewrite E2.
  destruct (setdefault_run r "status" (VStr "pending") s2) as
    (s3 & E3 & L3 & D3 & _ & C3 & S3 & I3 & K3 & O3); [lia|].
  unfold mbind at 1, M_bind at 1. rewrite E3.
  destruct (append_record_run Orders r io s3) as (s4 & E4 & H4 & C4 & N4 & W4 & A4 & B4).
  unfold mbind at 1, M_bind at 1. rewrite E4.
  exists s4. split; [done|]. rewrite H4.
  split; [lia|]. split.
  { apply map_eq. intros k. unfold order_defaults.
    destruct (decide (k = "status")) as [->|Hs].
    { rewrite I3, with_default_lookup. f_equal. f_equal.
      rewrite K2, K1 by done. by rewrite !with_default_lookup_ne by done. }
    rewrite K3 by done. rewrite with_default_lookup_ne by done.
    destruct (decide (k = "created_at")) as [->|Hc].
    { rewrite I2, with_default_lookup. f_equal. f_equal.
      rewrite K1 by done. by rewrite !with_default_lookup_ne by done. }
    rewrite K2 by done. rewrite with_default_lookup_ne by done.
    destruct (decide (k = "id")) as [->|Hi].
    { by rewrite I1, with_default_lookup. }
    rewrite K1 by done. by rewrite with_default_lookup_ne by done. }
  split; [intros l Hl; by rewrite O3, O2, O1|].
  split; [simpl in C4; by rewrite C4, D3, D2, D1|].
  split; [intros c Hc; by rewrite N4, D3, D2, D1|].
  split; [done|]. split; congruence.
Qed.

Lemma assigned_id_inj (prefix : string) (i j : nat) :
  VStr (prefix +:+ pretty (i + 1)) = VStr (prefix +:+ pretty (j + 1)) -> i = j.
Proof.
  intros H. injection H as H. apply String.app_inj in H. apply pretty_nat_inj in H. lia.
Qed.

Lemma ids_assigned_find (prefix : string) (h : heap_t) (ls : list loc) (i : nat) (l : loc) :
  ids_assigned prefix h ls ->
  ls !! i = Some l ->
  find_by h "id" (VStr (prefix +:+ pretty (i + 1))) ls = Ok (Some l).
Proof.
  intros Hids Hi. apply (find_by_first _ _ _ _ i l Hi); [by apply Hids|].
  intros j u' Hj Hu'. eexists. split; [by apply Hids|].
  intros E. apply assigned_id_inj in E. lia.
Qed.

Lemma ids_assigned_snoc (prefix : string) (h h' : heap_t) (ls : list loc) (r : loc) :
  ids_assigned prefix h ls ->
  obj h r !! "id" = None ->
  (forall l, l <> r -> obj h' l = obj h l) ->
  obj h' r !! "id" = Some (VStr (prefix +:+ pretty (length ls + 1))) ->
  ids_assigned prefix h' (ls ++ [r]).
Proof.
  intros Hids Hnone Hother Hr i l Hi.
  apply lookup_app_Some in Hi as [Hi|[Hlen Hi]].
  - rewrite Hother; [by apply Hids|].
    intros ->. apply Hids in Hi. congruence.
  - apply list_lookup_singleton_Some in Hi as [Hi <-].
    replace i with (length ls) by lia. done.
Qed.

(** X5. When the restaurants (the orders) carry the ids the store
    assigns, [rest1], [rest2], ... ([order1], ...) in order, inserting a
    record without an id keeps this, and afterwards [get_restaurant_by_id]
    ([get_order_by_id]) with the id of any position returns the record at
    that position; in particular the id just assigned finds the record just
    inserted. *)
Theorem add_then_get_by_id (r : loc) (now : R) (io : write_result) (s : state) :
  r < length (heap s) ->
  obj (heap s) r !! "id" = None ->
  (ids_assigned "rest" (heap s) (restaurants (data_store s)) ->
   exists s',
     add_restaurant r io s = Ret true s' /\
     ids_assigned "rest" (heap s') (restaurants (data_store s')) /\
     forall i l, restaurants (data_store s') !! i = Some l ->
       get_restaurant_by_id (VStr ("rest" +:+ pretty (i + 1))) s' = Ret (Some l) s') /\
  (ids_assigned "order" (heap s) (orders (data_store s)) ->
   exists s',
     add_order r now io s = Ret r s' /\
     ids_assigned "order" (heap s') (orders (data_store s')) /\
     forall i l, orders (data_store s') !! i = Some l ->
       get_order_by_id (VStr ("order" +:+ pretty (i + 1))) s' = Ret (Some l) s').
Proof.
  intros Hr Hid. split; intros Hids.
  - destruct (add_restaurant_run r io s Hr) as (s' & E & _ & I & _ & O & C & _).
    rewrite Hid in I. simpl in I.
    assert (Hids' : ids_assigned "rest" (heap s') (restaurants (data_store s')))
      by (rewrite C; by apply (ids_assigned_snoc _ (heap s))).
    exists s'. split; [done|]. split; [done|].
    intros i l Hi. unfold get_restaurant_by_id, get_by, mbind, M_bind, gets, lift. simpl.
    by rewrite (ids_assigned_find _ _ _ i l Hids' Hi).
  - destruct (add_order_run r now io s Hr) as (s' & E & _ & I & O & C & _).
    assert (Hids' : ids_assigned "order" (heap s') (orders (data_store s'))).
    { rewrite C. apply (ids_assigned_snoc _ (heap s)); [done..|].
      rewrite I. unfold order_defaults.
      rewrite !with_default_lookup_ne, with_default_lookup, Hid by done. done. }
    exists s'. split; [done|]. split; [done|].
    intros i l Hi. unfold get_order_by_id, get_by, mbind, M_bind, gets, lift. simpl.
    by rewrite (ids_assigned_find _ _ _ i l Hids' Hi).
Qed.

Lemma add_then_get_by_id_witness :
  (exists s',
     add_restaurant 2 WriteOk lookup_example = Ret true s' /\
     get_restaurant_by_id (VStr "rest3") s' = Ret (Some 2) s') /\
  (exists s',
     add_order 2 0 WriteOk lookup_example = Ret 2 s' /\
     get_order_by_id (VStr "order2") s' = Ret (Some 2) s').
Proof.
  destruct (add_then_get_by_id 2 0 WriteOk lookup_example) as [Hrest Horder];
    [simpl; lia|reflexivity|].
  split.
  - destruct Hrest as (s' & E & _ & Hget).
    { intros [|[|i]] l Hi; simpl in Hi; [injection Hi as <-; reflexivity..|done]. }
    exists s'. split; [done|]. apply (Hget 2).
    apply (f_equal (fun o => restaurants (data_store (final o)))) in E.
    simpl in E. by rewrite <- E.
  - destruct Horder as (s' & E & _ & Hget).
    { intros [|i] l Hi; simpl in Hi; [injection Hi as <-; reflexivity|done]. }
    exists s'. split; [done|]. apply (Hget 1).
    apply (f_equal (fun o => orders (data_store (final o)))) in E.
    simpl in E. by rewrite <- E.
Defined.

(** ** A failed write *)

Lemma in_memory_bind {A B : Type} (m m' : M A) (f f' : A -> M B) (s s' : state) :
  in_memory (m s) = in_memory (m' s') ->
  (forall a s1 s2, set_disk None s1 = set_disk None s2 ->
     in_memory (f a s1) = in_memory (f' a s2)) ->
  in_memory ((m ≫= f) s) = in_memory ((m' ≫= f') s').
Proof.
  intros Hm Hf. unfold mbind, M_bind.
  destruct (m s) as [a s1|e s1], (m' s') as [a' s2|e' s2]; simpl in Hm; try done.
  - assert (a = a') as -> by congruence. apply Hf. congruence.
  - simpl. congruence.
Qed.

Lemma set_disk_None_inv (s1 s2 : state) :
  set_disk None s1 = set_disk None s2 ->
  heap s1 = heap s2 /\ data_store s1 = data_store s2 /\ cart s1 = cart s2 /\
  simulate_status s1 = simulate_status s2.
Proof. unfold set_disk. intros H. by injection H. Qed.

Lemma in_memory_ret {A : Type} (a : A) (s1 s2 : state) :
  set_disk None s1 = set_disk None s2 ->
  in_memory (mret (M := M) a s1) = in_memory (mret (M := M) a s2).
Proof. intros H. unfold mret, M_ret. simpl. by rewrite H. Qed.

Lemma append_record_in_memory (c : collection) (r : loc) (io io' : write_result)
    (s1 s2 : state) :
  set_disk None s1 = set_disk None s2 ->
  in_memory (append_record c r io s1) = in_memory (append_record c r io' s2).
Proof.
  intros (Hh & Hd & Hc & Hf)%set_disk_None_inv.
  unfold append_record, _save_data_to_file, mbind, M_bind, modify, set_disk, set_data_store.
  simpl. unfold set_disk. simpl. by rewrite Hh, Hd, Hc, Hf.
Qed.

Lemma setdefault_in_memory (r : loc) (k : string) (v : value) (s1 s2 : state) :
  set_disk None s1 = set_disk None s2 ->
  in_memory (setdefault r k v s1) = in_memory (setdefault r k v s2).
Proof.
  intros (Hh & Hd & Hc & Hf)%set_disk_None_inv.
  unfold setdefault, setitem, mbind, M_bind, gets, modify, set_heap, set_disk. simpl.
  rewrite Hh. destruct (obj (heap s2) r !! k); simpl; unfold set_disk; simpl;
    by rewrite ?Hh, Hd, Hc, Hf.
Qed.

Lemma update_record_in_memory (c : collection) (r : loc) (io io' : write_result)
    (s1 s2 : state) :
  set_disk None s1 = set_disk None s2 ->
  in_memory (update_record c r io s1) = in_memory (update_record c r io' s2).
Proof.
  intros (Hh & Hd & Hc & Hf)%set_disk_None_inv.
  unfold update_record, _save_data_to_file, mbind, M_bind, gets, lift, modify,
    set_disk, set_data_store.
  simpl. rewrite Hh, Hd.
  destruct (update_index (heap s2) r 0 (coll c (data_store s2))) as [[i|]|]; simpl;
    unfold set_disk; simpl; by rewrite ?Hh, ?Hd, Hc, Hf.
Qed.

(** X6. A failed write of the data file is not reported and
    rolls nothing back: every insert and every update returns the same value
    (or raises the same exception) and leaves the same objects, collections,
    cart and flag in memory whether the write succeeds or fails; [add_user]
    returns [True] in either case, and only the file differs. *)
Theorem write_failure_keeps_memory (io : write_result) (s : state) :
  (forall user, in_memory (add_user user io s) = in_memory (add_user user WriteOk s)) /\
  (forall restaurant,
     in_memory (add_restaurant restaurant io s)
       = in_memory (add_restaurant restaurant WriteOk s)) /\
  (forall menu_item,
     in_memory (add_menu_item menu_item io s)
       = in_memory (add_menu_item menu_item WriteOk s)) /\
  (forall order now,
     in_memory (add_order order now io s) = in_memory (add_order order now WriteOk s)) /\
  (forall c r,
     in_memory (update_record c r io s) = in_memory (update_record c r WriteOk s)) /\
  (forall user, exists s', add_user user io s = Ret true s' /\ disk s' = written io s').
Proof.
  split; [|split; [|split; [|split; [|split]]]].
  - intros user. unfold add_user.
    apply in_memory_bind; [by apply append_record_in_memory|].
    intros _ s1 s2 H. by apply in_memory_ret.
  - intros r. unfold add_restaurant.
    apply in_memory_bind; [done|]. intros n s1 s2 H.
    apply in_memory_bind; [by apply setdefault_in_memory|]. intros _ s3 s4 H'.
    apply in_memory_bind; [by apply append_record_in_memory|]. intros _ s5 s6 H''.
    by apply in_memory_ret.
  - intros r. unfold add_menu_item.
    apply in_memory_bind; [done|]. intros n s1 s2 H.
    apply in_memory_bind; [by apply setdefault_in_memory|]. intros _ s3 s4 H'.
    apply in_memory_bind; [by apply append_record_in_memory|]. intros _ s5 s6 H''.
    by apply in_memory_ret.
  - intros r now. unfold add_order.
    apply in_memory_bind; [done|]. intros n s1 s2 H.
    apply in_memory_bind; [by apply setdefault_in_memory|]. intros _ s3 s4 H3.
    apply in_memory_bind; [by apply setdefault_in_memory|]. intros _ s5 s6 H5.
    apply in_memory_bind; [by apply setdefault_in_memory|]. intros _ s7 s8 H7.
    apply in_memory_bind; [by apply append_record_in_memory|]. intros _ s9 s10 H9.
    by apply in_memory_ret.
  - intros c r. by apply update_record_in_memory.
  - intros user. eexists. split; [reflexivity|]. by destruct io.
Qed.

(** ** Update, then look up *)

Lemma update_index_Some (h : heap_t) (r : loc) (i0 i : nat) (ls : list loc) :
  update_index h r i0 ls = Ok (Some i) ->
  exists k u b,
    i = i0 + k /\ ls !! k = Some u /\
    obj h r !! "id" = Some b /\ obj h u !! "id" = Some b /\
    forall j u', j < k -> ls !! j = Some u' -> exists x, obj h u' !! "id" = Some x /\ x <> b.
Proof.
  revert i0. induction ls as [|u0 ls IH]; intros i0 H; [done|].
  simpl in H. unfold getitem in H.
  destruct (obj h u0 !! "id") as [a|] eqn:Ha; [|done]. simpl in H.
  destruct (obj h r !! "id") as [b|] eqn:Hb; [|done]. simpl in H.
  destruct (py_eq a b) eqn:Hab.
  - injection H as <-. apply py_eq_true in Hab as ->.
    exists 0, u0, b. split; [lia|]. split; [done|]. split; [done|]. split; [done|].
    intros j u' Hj. lia.
  - apply IH in H as (k & u & b' & -> & Hk & Hb' & Hu & Hbefore).
    injection Hb' as <-. apply py_eq_false in Hab.
    exists (S k), u, b. split; [lia|]. split; [done|]. split; [done|]. split; [done|].
    intros [|j] u' Hj Hu'; [injection Hu' as <-; by exists a|].
    apply (Hbefore j u'); [lia|done].
Qed.

Lemma update_index_None (h : heap_t) (r : loc) (i0 : nat) (ls : list loc) (b : value) :
  update_index h r i0 ls = Ok None ->
  obj h r !! "id" = Some b ->
  forall u, u ∈ ls -> exists x, obj h u !! "id" = Some x /\ x <> b.
Proof.
  revert i0. induction ls as [|u0 ls IH]; intros i0 H Hb u Hu; [by apply elem_of_nil in Hu|].
  simpl in H. unfold getitem in H.
  destruct (obj h u0 !! "id") as [a|] eqn:Ha; [|done]. simpl in H.
  rewrite Hb in H. simpl in H.
  destruct (py_eq a b) eqn:Hab; [done|]. apply py_eq_false in Hab.
  apply elem_of_cons in Hu as [->|Hu]; [by exists a|].
  by apply (IH (S i0)).
Qed.

(** X7. An update and a lookup by id agree.  When
    [update_record] returns [True] for a record with an id, the lookup by
    that id in the collection returns this record afterwards; when it
    returns [False], the state is unchanged and the lookup by that id finds
    nothing. *)
Theorem update_then_lookup (c : collection) (r : loc) (io : write_result) (s : state)
    (v : value) :
  obj (heap s) r !! "id" = Some v ->
  (forall s', update_record c r io s = Ret true s' ->
     get_by c "id" v s' = Ret (Some r) s') /\
  (forall s', update_record c r io s = Ret false s' ->
     s' = s /\ get_by c "id" v s = Ret None s).
Proof.
  intros Hv.
  unfold update_record, mbind, M_bind, gets, lift. simpl.
  destruct (update_index (heap s) r 0 (coll c (data_store s))) as [[i|]|] eqn:E; simpl.
  - split; [|done]. intros s' H. injection H as <-.
    apply update_index_Some in E as (k & u & b & -> & Hk & Hb & Hu & Hbefore).
    rewrite Hv in Hb. injection Hb as <-. simpl.
    unfold get_by, mbind, M_bind, gets, lift. simpl. rewrite coll_set_coll.
    rewrite (find_by_first _ _ _ _ k r); [done| |done|].
    + apply list_lookup_insert_eq. by apply lookup_lt_Some in Hk.
    + intros j u' Hj Hu'. rewrite list_lookup_insert_ne in Hu' by lia.
      by apply (Hbefore j).
  - split; [done|]. intros s' H. injection H as <-. split; [done|].
    unfold get_by, mbind, M_bind, gets, lift. simpl.
    by rewrite (find_by_none _ _ _ _ (update_index_None _ _ _ _ _ E Hv)).
  - done.
Qed.

Lemma update_then_lookup_witness :
  (forall s', update_user 2 WriteOk users_example = Ret true s' ->
     get_by Users "id" (VStr "1700000000") s' = Ret (Some 2) s') /\
  (forall s', update_user 2 WriteOk users_example = Ret false s' ->
     s' = users_example /\
     get_by Users "id" (VStr "1700000000") users_example = Ret None users_example).
Proof. apply (update_then_lookup Users 2 WriteOk users_example). reflexivity. Defined.

(** ** Random locations, distances and times *)

Section GeoFurther.
Local Open Scope R_scope.

Lemma Rabs_le_between (x a : R) : Rabs x <= a -> - a <= x <= a.
Proof. unfold Rabs. destruct (Rcase_abs x); lra. Qed.

Lemma uniform_range (a u : R) :
  0 <= u < 1 -> Rabs (uniform (- a) a u) <= Rabs a.
Proof.
  intros Hu. unfold uniform.
  replace (- a + (a - - a) * u) with (a * (2 * u - 1)) by lra.
  rewrite Rabs_mult. rewrite <- (Rmult_1_r (Rabs a)) at 2.
  apply Rmult_le_compat_l; [apply Rabs_pos|].
  apply Rabs_le. lra.
Qed.

(** X8. For numeric arguments, readings of the
    random generator in [0, 1) and a latitude whose cosine is not zero,
    [get_random_location_near] returns a location whose latitude differs
    from the given one by at most [|max_distance_km| / 111] degrees and
    whose longitude differs by at most
    [|max_distance_km| / (111 |cos lat|)] degrees. *)
Theorem get_random_location_near_bounds (lat lng max_distance_km u1 u2 : R) :
  0 <= u1 < 1 -> 0 <= u2 < 1 ->
  cos (lat * PI / 180) <> 0 ->
  exists lat' lng',
    get_random_location_near (VNum lat) (VNum lng) (VNum max_distance_km) u1 u2
      = Ok (list_to_map [("lat", VNum lat'); ("lng", VNum lng')]) /\
    Rabs (lat' - lat) <= Rabs max_distance_km / 111 /\
    Rabs (lng' - lng) <= Rabs max_distance_km / (111 * Rabs (cos (lat * PI / 180))).
Proof.
  intros Hu1 Hu2 Hcos. unfold get_random_location_near. simpl.
  assert (Hpos : 0 < Rabs (cos (lat * PI / 180))) by by apply Rabs_pos_lt.
  destruct (decide _) as [E|_]; [exfalso; apply Rmult_integral in E as [E|E]; lra|].
  eexists _, _. split; [reflexivity|]. split.
  - replace (lat + _ - lat) with
      (uniform (- (max_distance_km / 111.0)) (max_distance_km / 111.0) u1) by lra.
    etransitivity; [by apply uniform_range|].
    unfold Rdiv. rewrite Rabs_mult. apply Rmult_le_compat_l; [apply Rabs_pos|].
    rewrite Rabs_pos_eq; lra.
  - match goal with |- Rabs (lng + uniform (- ?a) ?a u2 - lng) <= _ =>
      replace (lng + uniform (- a) a u2 - lng) with (uniform (- a) a u2) by lra end.
    etransitivity; [by apply uniform_range|].
    unfold Rdiv. rewrite Rabs_mult. apply Rmult_le_compat_l; [apply Rabs_pos|].
    rewrite Rabs_pos_eq; [apply Req_le; f_equal; lra|].
    apply Rlt_le, Rinv_0_lt_compat. lra.
Qed.

Lemma get_random_location_near_bounds_witness :
  exists lat' lng',
    get_random_location_near (VNum 0) (VNum 77.5946) (VNum 2) 0.5 0.25
      = Ok (list_to_map [("lat", VNum lat'); ("lng", VNum lng')]) /\
    Rabs (lat' - 0) <= Rabs 2 / 111 /\
    Rabs (lng' - 77.5946) <= Rabs 2 / (111 * Rabs (cos (0 * PI / 180))).
Proof.
  apply (get_random_location_near_bounds 0 77.5946 2 0.5 0.25); [lra|lra|].
  replace (0 * PI / 180) with 0 by lra. rewrite cos_0. lra.
Defined.

(** ** Haversine distance, continued *)

Lemma calculate_distance_type_error (lat1 lon1 lat2 lon2 : value) :
  (forall x, lat1 <> VNum x) \/ (forall x, lon1 <> VNum x) \/
  (forall x, lat2 <> VNum x) \/ (forall x, lon2 <> VNum x) ->
  calculate_distance lat1 lon1 lat2 lon2 = Err TypeError.
Proof.
  intros H. unfold calculate_distance, radians.
  destruct lat1 as [|x1| | |]; try done; simpl.
  destruct H as [H|H]; [by destruct (H x1)|].
  destruct lon1 as [|x2| | |]; try done; simpl.
  destruct H as [H|H]; [by destruct (H x2)|].
  destruct lat2 as [|x3| | |]; try done; simpl.
  destruct H as [H|H]; [by destruct (H x3)|].
  destruct lon2 as [|x4| | |]; try done; simpl.
  by destruct (H x4).
Qed.

(** X9. Over the real numbers, what [calculate_distance]
    returns for four numbers is non-negative and never exceeds half the
    circumference of the sphere, [6371 * pi] km; and it raises [TypeError]
    when one of its four arguments is not a number. *)
Theorem calculate_distance_bounded :
  (forall (lat1 lon1 lat2 lon2 d : R),
     calculate_distance (VNum lat1) (VNum lon1) (VNum lat2) (VNum lon2) = Ok d ->
     0 <= d <= PI * 6371) /\
  (forall lat1 lon1 lat2 lon2 : value,
     (forall x, lat1 <> VNum x) \/ (forall x, lon1 <> VNum x) \/
     (forall x, lat2 <> VNum x) \/ (forall x, lon2 <> VNum x) ->
     calculate_distance lat1 lon1 lat2 lon2 = Err TypeError).
Proof.
  split; [|apply calculate_distance_type_error].
  intros lat1 lon1 lat2 lon2 d.
  rewrite calculate_distance_num. intros [= <-].
  destruct (haversine_a_range (lat1 * PI / 180) (lon1 * PI / 180)
                              (lat2 * PI / 180) (lon2 * PI / 180)) as [Ha0 Ha1].
  match goal with |- _ <= 2 * asin ?x * 6371 <= _ =>
    pose proof (asin_bound x) as [_ H];
    assert (0 <= asin x)
      by (apply asin_nonneg; split; [apply sqrt_pos|];
          rewrite <- sqrt_1; by apply sqrt_le_1_alt)
  end.
  lra.
Qed.

Lemma calculate_distance_bounded_witness :
  exists d,
    calculate_distance (VNum 12.9716) (VNum 77.5946) (VNum 13.0827) (VNum 80.2707) = Ok d /\
    0 <= d <= PI * 6371.
Proof.
  eexists. split; [apply calculate_distance_num|].
  apply (proj1 calculate_distance_bounded 12.9716 77.5946 13.0827 80.2707).
  apply calculate_distance_num.
Defined.

(** X10. Along a meridian, and along the equator, the
    distance of two points at most 180 degrees apart is the difference of
    their coordinates in radians times 6371: one degree is
    [6371 * pi / 180] km. *)
Theorem calculate_distance_degrees (a b c : R) :
  Rabs (b - a) <= 180 ->
  calculate_distance (VNum a) (VNum c) (VNum b) (VNum c)
    = Ok (Rabs (b - a) * PI / 180 * 6371) /\
  calculate_distance (VNum 0) (VNum a) (VNum 0) (VNum b)
    = Ok (Rabs (b - a) * PI / 180 * 6371).
Proof.
  intros Hab. pose proof PI_RGT_0 as Hpi. split.
  - destruct (Rle_dec a b) as [Hle|Hgt].
    + rewrite Rabs_pos_eq in * by lra. apply calculate_distance_north. lra.
    + rewrite Rabs_left in * by lra.
      rewrite calculate_distance_num, haversine_a_sym, <- calculate_distance_num.
      rewrite calculate_distance_north by lra. f_equal. lra.
  - rewrite calculate_distance_num. f_equal. unfold haversine_a.
    replace ((0 * PI / 180 - 0 * PI / 180) / 2) with 0 by lra.
    replace (0 * PI / 180) with 0 by lra.
    rewrite sin_0, cos_0.
    set (x := (b * PI / 180 - a * PI / 180) / 2).
    replace (0 ^ 2 + 1 * 1 * sin x ^ 2) with (sin x ^ 2) by ring.
    assert (Hx : Rabs x <= PI / 2).
    { unfold x. replace ((b * PI / 180 - a * PI / 180) / 2) with ((b - a) * (PI / 360)) by lra.
      rewrite Rabs_mult, (Rabs_pos_eq (PI / 360)) by lra. nra. }
    replace (sin x ^ 2) with (sin (Rabs x) ^ 2).
    2: { unfold Rabs. destruct (Rcase_abs x); [rewrite sin_neg; ring|done]. }
    pose proof (Rabs_pos x).
    rewrite sqrt_pow2 by (apply sin_ge_0; lra).
    rewrite asin_sin by lra.
    unfold x. replace ((b * PI / 180 - a * PI / 180) / 2) with ((b - a) * (PI / 360)) by lra.
    rewrite Rabs_mult, (Rabs_pos_eq (PI / 360)) by lra. lra.
Qed.

Lemma calculate_distance_degrees_witness :
  calculate_distance (VNum 12) (VNum 77) (VNum 13) (VNum 77)
    = Ok (Rabs (13 - 12) * PI / 180 * 6371) /\
  calculate_distance (VNum 0) (VNum 12) (VNum 0) (VNum 13)
    = Ok (Rabs (13 - 12) * PI / 180 * 6371).
Proof.
  apply (calculate_distance_degrees 12 13 77).
  rewrite Rabs_pos_eq; lra.
Defined.

(** ** The estimated time of arrival, continued *)

Lemma py_int_bounds (x : R) :
  (0 <= x -> IZR (py_int x) <= x < IZR (py_int x) + 1) /\
  (x < 0 -> x <= IZR (py_int x) < x + 1).
Proof.
  unfold py_int. destruct (Rle_dec 0 x) as [H|H]; split; intros H'; try lra.
  - destruct (base_Int_part x). lra.
  - destruct (base_Int_part (- x)). rewrite opp_IZR. lra.
Qed.

Lemma py_int_mono (x y : R) : x <= y -> (py_int x <= py_int y)%Z.
Proof.
  intros Hxy.
  destruct (py_int_bounds x) as [Hx0 Hx1], (py_int_bounds y) as [Hy0 Hy1].
  destruct (Rle_lt_dec 0 x) as [Hx|Hx], (Rle_lt_dec 0 y) as [Hy|Hy];
    try specialize (Hx0 Hx); try specialize (Hx1 Hx);
    try specialize (Hy0 Hy); try specialize (Hy1 Hy).
  - apply Z.lt_succ_r, lt_IZR. rewrite succ_IZR. lra.
  - lra.
  - transitivity 0%Z.
    + apply Z.lt_succ_r, lt_IZR. rewrite succ_IZR. simpl. lra.
    + apply Z.lt_succ_r, lt_IZR. rewrite succ_IZR. lra.
  - apply Z.lt_succ_r, lt_IZR. rewrite succ_IZR. lra.
Qed.

(** X11. Over the real numbers, for a positive speed what
    [calculate_eta] returns is monotone in the distance (the larger buffer
    from 5 km on and the truncation never make a longer trip look shorter),
    and is at least 10 minutes for a non-negative distance. *)
Theorem calculate_eta_monotone (d1 d2 speed : R) (z1 z2 : Z) :
  0 < speed -> d1 <= d2 ->
  calculate_eta d1 speed = Ok z1 ->
  calculate_eta d2 speed = Ok z2 ->
  (z1 <= z2)%Z /\ (0 <= d1 -> (10 <= z1)%Z).
Proof.
  intros Hs Hd. unfold calculate_eta.
  destruct (decide (speed = 0)) as [E|_]; [lra|].
  intros [= <-] [= <-].
  assert (Hinv : 0 <= / speed) by (by apply Rlt_le, Rinv_0_lt_compat).
  assert (Hdiv : d1 / speed * 60 <= d2 / speed * 60).
  { apply Rmult_le_compat_r; [lra|]. by apply Rmult_le_compat_r. }
  split.
  - apply py_int_mono. destruct (Rlt_dec d1 5), (Rlt_dec d2 5); lra.
  - intros H0.
    assert (E : py_int 10 = 10%Z) by (apply py_int_unique; simpl; lra).
    apply (Z.le_trans _ (py_int 10)); [by rewrite E|].
    apply py_int_mono.
    assert (0 <= d1 / speed * 60).
    { apply Rmult_le_pos; [|lra]. by apply Rmult_le_pos. }
    destruct (Rlt_dec d1 5); lra.
Qed.

Lemma calculate_eta_monotone_witness :
  (py_int (4.9 / 25 * 60 + 10) <= py_int (5 / 25 * 60 + 15))%Z /\
  (0 <= 4.9 -> (10 <= py_int (4.9 / 25 * 60 + 10))%Z).
Proof.
  apply (calculate_eta_monotone 4.9 5 25); [lra|lra| |].
  - unfold calculate_eta. destruct (decide (25 = 0)) as [E|_]; [lra|].
    destruct (Rlt_dec 4.9 5) as [_|H]; [reflexivity|lra].
  - unfold calculate_eta. destruct (decide (25 = 0)) as [E|_]; [lra|].
    destruct (Rlt_dec 5 5) as [H|_]; [lra|reflexivity].
Defined.

(** ** The simulated courier *)

(** X12. For numeric arguments, a progress in [0, 1] and
    readings of the random generator in [0, 1),
    [simulate_delivery_movement] returns a point within 0.0005 degrees, on
    each axis, of the linear interpolation between start and end; hence it
    lies in the bounding box of start and end widened by 0.0005 degrees. *)
Theorem simulate_delivery_movement_box (start_lat start_lng end_lat end_lng progress u1 u2 : R) :
  0 <= progress <= 1 -> 0 <= u1 < 1 -> 0 <= u2 < 1 ->
  exists lat lng,
    simulate_delivery_movement (VNum start_lat) (VNum start_lng) (VNum end_lat) (VNum end_lng)
        (VNum progress) u1 u2
      = Ok (list_to_map [("lat", VNum lat); ("lng", VNum lng)]) /\
    Rabs (lat - (start_lat + (end_lat - start_lat) * progress)) <= 0.0005 /\
    Rabs (lng - (start_lng + (end_lng - start_lng) * progress)) <= 0.0005 /\
    Rmin start_lat end_lat - 0.0005 <= lat <= Rmax start_lat end_lat + 0.0005 /\
    Rmin start_lng end_lng - 0.0005 <= lng <= Rmax start_lng end_lng + 0.0005.
Proof.
  intros Hp Hu1 Hu2. unfold simulate_delivery_movement. simpl.
  eexists _, _. split; [reflexivity|].
  pose proof (uniform_range 0.0005 u1 Hu1) as H1.
  pose proof (uniform_range 0.0005 u2 Hu2) as H2.
  rewrite (Rabs_pos_eq 0.0005) in H1, H2 by lra.
  apply Rabs_le_between in H1, H2.
  assert (Hbox : forall a b, Rmin a b <= a + (b - a) * progress <= Rmax a b).
  { intros a b. unfold Rmin, Rmax. destruct (Rle_dec a b); split; nra. }
  pose proof (Hbox start_lat end_lat). pose proof (Hbox start_lng end_lng).
  split; [apply Rabs_le; lra|]. split; [apply Rabs_le; lra|]. split; lra.
Qed.

Lemma simulate_delivery_movement_box_witness :
  exists lat lng,
    simulate_delivery_movement (VNum 12.97) (VNum 77.59) (VNum 12.98) (VNum 77.60)
        (VNum 0.5) 0.5 0.5
      = Ok (list_to_map [("lat", VNum lat); ("lng", VNum lng)]) /\
    Rabs (lat - (12.97 + (12.98 - 12.97) * 0.5)) <= 0.0005 /\
    Rabs (lng - (77.59 + (77.60 - 77.59) * 0.5)) <= 0.0005 /\
    Rmin 12.97 12.98 - 0.0005 <= lat <= Rmax 12.97 12.98 + 0.0005 /\
    Rmin 77.59 77.60 - 0.0005 <= lng <= Rmax 77.59 77.60 + 0.0005.
Proof. apply (simulate_delivery_movement_box 12.97 77.59 12.98 77.60 0.5 0.5 0.5); lra. Defined.

Lemma advance_progress_range (p : R) :
  0.1 <= p <= 0.95 ->
  0.1 <= advance_progress (Some p) <= 0.95 /\ p <= advance_progress (Some p).
Proof. intros Hp. unfold advance_progress. destruct (Rlt_dec _ _); lra. Qed.

Lemma refreshes_range (n : nat) : 0.1 <= refreshes n 0.1 <= 0.95.
Proof.
  induction n as [|n IH]; simpl; [lra|].
  by apply advance_progress_range.
Qed.

Lemma refreshes_closed (n : nat) :
  refreshes n 0.1 = Rmin (0.1 + 0.02 * INR n) 0.95.
Proof.
  induction n as [|n IH].
  - simpl. unfold Rmin. destruct (Rle_dec _ _); lra.
  - cbn [refreshes]. rewrite IH, S_INR. pose proof (pos_INR n).
    unfold advance_progress, Rmin.
    destruct (Rle_dec (0.1 + 0.02 * INR n) 0.95), (Rlt_dec _ _),
      (Rle_dec (0.1 + 0.02 * (INR n + 1)) 0.95); lra.
Qed.

(** X13. The progress of the delivery on the tracking page,
    over the real numbers: after [n] renderings of an order that is out for
    delivery, starting from the initial 0.1, it is [min (0.1 + 0.02 n, 0.95)];
    it never decreases, never exceeds 0.95, and is 0.95 from the 43rd
    rendering on, so the courier is never shown at the customer. *)
Theorem delivery_progress_clamped (n : nat) :
  refreshes n 0.1 = Rmin (0.1 + 0.02 * INR n) 0.95 /\
  refreshes n 0.1 <= refreshes (S n) 0.1 <= 0.95 /\
  ((43 <= n)%nat -> refreshes n 0.1 = 0.95).
Proof.
  split; [apply refreshes_closed|]. split.
  - pose proof (refreshes_range n) as Hn. cbn [refreshes].
    destruct (advance_progress_range _ Hn). lra.
  - intros Hn. rewrite refreshes_closed.
    apply le_INR in Hn. replace (INR 43) with 43 in Hn by (simpl; lra).
    unfold Rmin. destruct (Rle_dec _ _); lra.
Qed.

(** ** Nearby restaurants: ties *)

Lemma insert_by_key_filter (x : R * loc) (l : list (R * loc)) (r : R) :
  filter (fun p => fst p = r) (insert_by_key x l) = filter (fun p => fst p = r) (x :: l).
Proof.
  induction l as [|y l IH]; [done|]. simpl.
  destruct (Rle_dec (fst x) (fst y)) as [Hle|Hgt]; [done|].
  rewrite (filter_cons _ y), IH, !filter_cons.
  destruct (decide (fst y = r)) as [Hy|Hy]; [|done].
  destruct (decide (fst x = r)) as [Hx|Hx]; [lra|done].
Qed.

Lemma sort_by_key_filter (l : list (R * loc)) (r : R) :
  filter (fun p => fst p = r) (sort_by_key l) = filter (fun p => fst p = r) l.
Proof.
  induction l as [|x l IH]; [done|]. simpl.
  by rewrite insert_by_key_filter, !filter_cons, IH.
Qed.

Lemma insert_by_key_Forall2 (Q : loc -> loc -> Prop) (x y : R * loc) (ks ps : list (R * loc)) :
  let T := fun p q : R * loc => fst p = fst q /\ Q (snd p) (snd q) in
  T x y -> Forall2 T ks ps -> Forall2 T (insert_by_key x ks) (insert_by_key y ps).
Proof.
  intros T Hxy. induction 1 as [|k p ks ps Hkp Hall IH]; simpl.
  - constructor; [exact Hxy|constructor].
  - assert (Hf : fst x = fst y) by apply Hxy.
    assert (Hf' : fst k = fst p) by apply Hkp.
    rewrite Hf, Hf'.
    destruct (Rle_dec (fst y) (fst p)).
    + constructor; [exact Hxy|]. by constructor.
    + by constructor.
Qed.

Lemma sort_by_key_Forall2 (Q : loc -> loc -> Prop) (ks ps : list (R * loc)) :
  let T := fun p q : R * loc => fst p = fst q /\ Q (snd p) (snd q) in
  Forall2 T ks ps -> Forall2 T (sort_by_key ks) (sort_by_key ps).
Proof.
  intros T. induction 1 as [|k p ks ps Hkp Hall IH]; simpl; [constructor|].
  by apply insert_by_key_Forall2.
Qed.

Lemma filter_keyed (f : loc -> R) (qs : list (R * loc)) (r : R) :
  (forall q, q ∈ qs -> fst q = f (snd q)) ->
  filter (fun l => f l = r) (snd <$> qs) = snd <$> filter (fun p => fst p = r) qs.
Proof.
  induction qs as [|q qs IH]; intros H; [done|].
  rewrite fmap_cons, !filter_cons, <- (H q) by left.
  rewrite IH by (intros q' Hq'; apply H; by right).
  by destruct (decide (fst q = r)).
Qed.

(** X14. In double precision, whatever the machine's
    arithmetic [m], [get_nearby_restaurants] keeps the order of the input
    among restaurants with the same annotated distance: the restaurants
    whose copies are returned, in the order of their copies and restricted to
    any one annotated distance, are the input restaurants within the radius
    restricted to that distance, in input order. *)
Theorem get_nearby_restaurants_stable (m : Double.arithmetic) (user_location : dict)
    (rs : list loc) (radius_km : R) (s : state) :
  (forall l, l ∈ rs ->
     exists d, Double.restaurant_distance m user_location (obj (heap s) l) = Ok d) ->
  exists out kept s',
    Double.get_nearby_restaurants m user_location rs radius_km s = Ret out s' /\
    Forall2 (fun o l => obj (heap s') o = annotate m user_location (heap s) l) out kept /\
    forall r,
      filter (fun l => shown_distance m user_location (heap s) l = r) kept
      = filter (fun l => shown_distance m user_location (heap s) l = r)
          (filter (fun l => distance_to m user_location (heap s) l <= radius_km) rs).
Proof.
  intros Hwf.
  set (h := heap s).
  set (within := filter (fun l => distance_to m user_location h l <= radius_km) rs).
  set (h' := h ++ (annotate m user_location h <$> within)).
  unfold Double.get_nearby_restaurants. unfold mbind at 1, M_bind at 1.
  rewrite (nearby_loop_run m user_location radius_km h rs Hwf [] [] s)
    by (by rewrite app_nil_r).
  cbn [app]. fold h within h'.
  assert (Hloc : Forall2 (fun o l => obj h' o = annotate m user_location h l)
                         (seq (length h) (length within)) within).
  { pose proof (copies_located h (annotate m user_location h <$> within)) as H.
    rewrite length_fmap in H. apply Forall2_fmap_r in H.
    eapply Forall2_impl; [exact H|]. by intros o l [_ ?]. }
  destruct (keys_of_copies m user_location h h' (seq (length h) (length within)) within Hloc)
    as (ks & Hks & Hsnd & Hall).
  unfold sorted_by_distance, mbind, M_bind, gets, lift. cbn [heap set_heap].
  rewrite Hks. cbn.
  set (ps := (fun l => (shown_distance m user_location h l, l)) <$> within).
  assert (HT : Forall2 (fun p q : R * loc => fst p = fst q /\
                          obj h' (snd p) = annotate m user_location h (snd q)) ks ps).
  { unfold ps. apply Forall2_fmap_r. eapply Forall2_impl; [exact Hall|]. by intros p l [? ?]. }
  apply (sort_by_key_Forall2 (fun o l => obj h' o = annotate m user_location h l)) in HT.
  exists (snd <$> sort_by_key ks), (snd <$> sort_by_key ps), (set_heap h' s).
  split; [done|]. split.
  - cbn [heap set_heap]. apply Forall2_fmap. eapply Forall2_impl; [exact HT|]. by intros p q [_ ?].
  - intros r.
    assert (Hps : forall q, q ∈ ps -> fst q = shown_distance m user_location h (snd q)).
    { intros q (l & -> & _)%list_elem_of_fmap. done. }
    rewrite filter_keyed
      by (intros q Hq; apply Hps; by rewrite <- (sort_by_key_perm ps)).
    rewrite sort_by_key_filter, <- (filter_keyed (shown_distance m user_location h)) by done.
    f_equal. unfold ps. rewrite <- list_fmap_compose. apply list_fmap_id.
Qed.

Lemma get_nearby_restaurants_stable_witness :
  let m := Double.exact in
  exists out kept s',
    Double.get_nearby_restaurants m get_current_location [0%nat; 1%nat] 10 nearby_example
      = Ret out s' /\
    Forall2 (fun o l => obj (heap s') o
                        = annotate m get_current_location (heap nearby_example) l) out kept /\
    forall r,
      filter (fun l => shown_distance m get_current_location (heap nearby_example) l = r) kept
      = filter (fun l => shown_distance m get_current_location (heap nearby_example) l = r)
          (filter (fun l => distance_to m get_current_location (heap nearby_example) l <= 10)
                  [0%nat; 1%nat]).
Proof.
  apply (get_nearby_restaurants_stable Double.exact get_current_location [0%nat; 1%nat] 10
           nearby_example).
  apply nearby_example_wf.
Defined.

End GeoFurther.

(** ** Login *)

Lemma login_user_absent (hash_password : string -> string)
    (email password user_type : string) (s : state) :
  (forall u, u ∈ users (data_store s) ->
     exists e, obj (heap s) u !! "email" = Some e /\ e <> VStr email) ->
  login_user hash_password email password user_type s = Ret (false, None) s.
Proof.
  intros Habsent.
  unfold login_user, get_user_by_email, get_by, mbind, M_bind, gets, lift. simpl.
  by rewrite (find_by_none _ _ _ _ Habsent).
Qed.

Lemma login_user_found (hash_password : string -> string)
    (email password user_type : string) (s : state) (k : nat) (u : loc)
    (stored kind : value) :
  users (data_store s) !! k = Some u ->
  obj (heap s) u !! "email" = Some (VStr email) ->
  (forall j u', j < k -> users (data_store s) !! j = Some u' ->
     exists e, obj (heap s) u' !! "email" = Some e /\ e <> VStr email) ->
  obj (heap s) u !! "password_hash" = Some stored ->
  obj (heap s) u !! "user_type" = Some kind ->
  (stored = VStr (hash_password password) -> kind = VStr user_type ->
     login_user hash_password email password user_type s = Ret (true, Some u) s) /\
  (stored <> VStr (hash_password password) \/ kind <> VStr user_type ->
     login_user hash_password email password user_type s = Ret (false, None) s).
Proof.
  intros Hk Hu Hbefore Hstored Hkind.
  unfold login_user, get_user_by_email, get_by, mbind, M_bind, gets, lift. simpl.
  rewrite (find_by_first _ _ _ _ k u Hk Hu Hbefore). simpl.
  rewrite (dict_truthy_lookup _ _ _ Hu). unfold getitem. rewrite Hstored, Hkind. simpl.
  split.
  - intros -> ->. by rewrite !py_eq_refl.
  - intros [H|H].
    + apply py_eq_false in H. by rewrite H.
    + apply py_eq_false in H. rewrite H. by destruct (py_eq stored _).
Qed.

(** X15. [login_user] never changes the state.  It returns
    [(False, None)] when no stored user has the email; otherwise only the
    first user with the email counts, and it returns [(True, user)] when
    that user's stored hash is the hash of the password and the user type is
    the given one, and [(False, None)] when either differs. *)
Theorem login_user_spec (hash_password : string -> string)
    (email password user_type : string) (s : state) :
  ((forall u, u ∈ users (data_store s) ->
      exists e, obj (heap s) u !! "email" = Some e /\ e <> VStr email) ->
   login_user hash_password email password user_type s = Ret (false, None) s) /\
  (forall k u stored kind,
     users (data_store s) !! k = Some u ->
     obj (heap s) u !! "email" = Some (VStr email) ->
     (forall j u', j < k -> users (data_store s) !! j = Some u' ->
        exists e, obj (heap s) u' !! "email" = Some e /\ e <> VStr email) ->
     obj (heap s) u !! "password_hash" = Some stored ->
     obj (heap s) u !! "user_type" = Some kind ->
     (stored = VStr (hash_password password) -> kind = VStr user_type ->
        login_user hash_password email password user_type s = Ret (true, Some u) s) /\
     (stored <> VStr (hash_password password) \/ kind <> VStr user_type ->
        login_user hash_password email password user_type s = Ret (false, None) s)).
Proof.
  split; [apply login_user_absent|].
  intros k u stored kind. apply login_user_found.
Qed.

Lemma login_user_spec_witness :
  login_user (fun p => p) "ravi@example.com" "secret" "customer" login_example
    = Ret (false, None) login_example /\
  login_user (fun p => p) "asha@example.com" "secret" "customer" login_example
    = Ret (true, Some 0) login_example /\
  login_user (fun p => p) "asha@example.com" "secret" "vendor" login_example
    = Ret (false, None) login_example.
Proof.
  split; [|split].
  - apply (proj1 (login_user_spec (fun p => p) "ravi@example.com" "secret" "customer"
                    login_example)).
    intros u Hu. apply list_elem_of_singleton in Hu as ->.
    exists (VStr "asha@example.com"). split; [reflexivity|]. discriminate.
  - apply (proj2 (login_user_spec (fun p => p) "asha@example.com" "secret" "customer"
                    login_example) 0 0 (VStr "secret") (VStr "customer"));
      try reflexivity.
    intros j u' Hj. lia.
  - apply (proj2 (login_user_spec (fun p => p) "asha@example.com" "secret" "vendor"
                    login_example) 0 0 (VStr "secret") (VStr "customer"));
      try reflexivity.
    + intros j u' Hj. lia.
    + right. discriminate.
Defined.

(** X16. After a successful [register_user], [login_user] with
    the same email, password and user type returns the registered record;
    with another user type, or with a password whose hash differs, it
    returns [(False, None)]. *)
Theorem register_then_login (hash_password : string -> string)
    (name email phone password user_type : string) (now_id now_created : R)
    (io : write_result) (s : state) :
  (forall u, u ∈ users (data_store s) ->
     exists e, obj (heap s) u !! "email" = Some e /\ e <> VStr email) ->
  exists user s',
    register_user hash_password name email phone password user_type now_id now_created io s
      = Ret (true, Some user) s' /\
    login_user hash_password email password user_type s' = Ret (true, Some user) s' /\
    (forall other, other <> user_type ->
       login_user hash_password email password other s' = Ret (false, None) s') /\
    (forall other, hash_password other <> hash_password password ->
       login_user hash_password email other user_type s' = Ret (false, None) s').
Proof.
  intros Habsent.
  set (user := length (heap s)).
  set (record := new_user hash_password name email phone password user_type now_id now_created).
  assert (Hreg : exists s',
    register_user hash_password name email phone password user_type now_id now_created io s
      = Ret (true, Some user) s' /\
    heap s' = heap s ++ [record] /\
    users (data_store s') = users (data_store s) ++ [user]).
  { unfold register_user, get_user_by_email, get_by, mbind, M_bind, gets, lift. simpl.
    rewrite (find_by_none _ _ _ _ Habsent). simpl.
    eexists. split; [reflexivity|]. by split. }
  destruct Hreg as (s' & Hreg & Hheap & Husers).
  exists user, s'. split; [done|].
  assert (Hold : forall u, u ∈ users (data_store s) -> obj (heap s') u = obj (heap s) u).
  { intros u Hu. destruct (Habsent u Hu) as (e & He & _).
    rewrite Hheap. apply obj_app_l. by apply obj_valid in He. }
  assert (Hnew : obj (heap s') user = record) by (rewrite Hheap; apply obj_app_new).
  assert (Hfirst : forall j u', j < length (users (data_store s)) ->
            users (data_store s') !! j = Some u' ->
            exists e, obj (heap s') u' !! "email" = Some e /\ e <> VStr email).
  { intros j u' Hj Hu'. rewrite Husers, lookup_app_l in Hu' by done.
    apply list_elem_of_lookup_2 in Hu'. rewrite Hold by done. by apply Habsent. }
  assert (Hat : users (data_store s') !! length (users (data_store s)) = Some user).
  { rewrite Husers. by rewrite lookup_app_r, Nat.sub_diag. }
  assert (Hlogin : forall pw ut,
    (VStr (hash_password password) = VStr (hash_password pw) -> VStr user_type = VStr ut ->
       login_user hash_password email pw ut s' = Ret (true, Some user) s') /\
    (VStr (hash_password password) <> VStr (hash_password pw) \/ VStr user_type <> VStr ut ->
       login_user hash_password email pw ut s' = Ret (false, None) s')).
  { intros pw ut.
    apply (login_user_found hash_password email pw ut s' _ user _ _ Hat);
      try done; by rewrite Hnew. }
  split; [by apply Hlogin|]. split.
  - intros other Hother. apply Hlogin. right. congruence.
  - intros other Hother. apply Hlogin. left. congruence.
Qed.

Lemma register_then_login_witness :
  exists user s',
    register_user (fun p => p) "Ravi" "ravi@example.com" "98451" "secret" "vendor"
        1700000500 1700000500 WriteOk registered_example
      = Ret (true, Some user) s' /\
    login_user (fun p => p) "ravi@example.com" "secret" "vendor" s' = Ret (true, Some user) s' /\
    (forall other, other <> "vendor" ->
       login_user (fun p => p) "ravi@example.com" "secret" other s' = Ret (false, None) s') /\
    (forall other, other <> "secret" ->
       login_user (fun p => p) "ravi@example.com" other "vendor" s' = Ret (false, None) s').
Proof.
  apply (register_then_login (fun p => p) "Ravi" "ravi@example.com" "98451" "secret" "vendor"
           1700000500 1700000500 WriteOk registered_example).
  intros u Hu. apply list_elem_of_singleton in Hu as ->.
  exists (VStr "asha@example.com"). split; [reflexivity|]. discriminate.
Defined.

(** ** Saving the session *)

(** X17. [save_session_state] does nothing when the session is
    not authenticated or has no user (so a logout writes nothing); for a
    logged-in user that is a stored record and the first with its id, it
    leaves objects, collections and cart as they are and ends with the
    outcome of its second write: the file holds the store when that write
    succeeds. *)
Theorem save_session_state_spec (user : loc) (io1 io2 : write_result) (s : state) :
  save_session_state false (Some user) io1 io2 s = Ret tt s /\
  save_session_state true None io1 io2 s = Ret tt s /\
  (forall k v,
     users (data_store s) !! k = Some user ->
     obj (heap s) user !! "id" = Some v ->
     (forall j u', j < k -> users (data_store s) !! j = Some u' ->
        exists x, obj (heap s) u' !! "id" = Some x /\ x <> v) ->
     exists s',
       save_session_state true (Some user) io1 io2 s = Ret tt s' /\
       heap s' = heap s /\
       data_store s' = data_store s /\
       cart s' = cart s /\
       disk s' = written io2 s).
Proof.
  split; [done|]. split; [done|].
  intros k v Hk Hv Hbefore.
  unfold save_session_state, check_authentication. simpl.
  unfold update_user, update_record. unfold mbind, M_bind, gets, lift. simpl.
  rewrite (update_index_first _ _ _ 0 k user Hk).
  - simpl. eexists. split; [reflexivity|]. simpl.
    rewrite list_insert_id by done.
    split; [done|]. split; [by destruct (data_store s)|]. split; [done|].
    by destruct io2.
  - exists v, v. split; [done|]. split; [done|]. apply py_eq_refl.
  - intros j u' Hj Hu'. destruct (Hbefore j u' Hj Hu') as (x & Hx & Hne).
    exists x, v. split; [done|]. split; [done|]. by apply py_eq_false.
Qed.

Lemma save_session_state_spec_witness :
  exists s',
    save_session_state true (Some 0) WriteOk WriteOk users_example = Ret tt s' /\
    heap s' = heap users_example /\
    data_store s' = data_store users_example /\
    cart s' = cart users_example /\
    disk s' = written WriteOk users_example.
Proof.
  apply (proj2 (proj2 (save_session_state_spec 0 WriteOk WriteOk users_example))
           0 (VStr "1700000000")); [reflexivity|reflexivity|].
  intros j u' Hj. lia.
Defined.

(** ** The phone number of a notification *)

Lemma cleaned_filter (p : string) :
  list_ascii_of_string (Sms.cleaned p)
    = List.filter Sms.isdigit (list_ascii_of_string p).
Proof.
  induction p as [|c p IH]; [done|]. simpl.
  destruct (Sms.isdigit c); simpl; by rewrite IH.
Qed.

(** X18. [format_phone_number] returns a text that starts with
    [+], and formatting twice is formatting once.  A number that starts with
    [+] is returned as it is, spaces and dashes included; any other number
    becomes [+91] followed by exactly the characters of the number that are
    digits, in the order they have in the number.  For a string the function
    never raises. *)
Theorem format_phone_number_shape (phone_number : string) :
  Sms.startswith_plus (Sms.format_phone_number phone_number) = true /\
  Sms.format_phone_number (Sms.format_phone_number phone_number)
    = Sms.format_phone_number phone_number /\
  (Sms.startswith_plus phone_number = true ->
     Sms.format_phone_number phone_number = phone_number) /\
  (Sms.startswith_plus phone_number = false ->
     exists digits,
       Sms.format_phone_number phone_number = "+91" +:+ digits /\
       list_ascii_of_string digits
         = List.filter Sms.isdigit (list_ascii_of_string phone_number)) /\
  format_phone_number (VStr phone_number) = Ok tt.
Proof.
  unfold Sms.format_phone_number.
  destruct (Sms.startswith_plus phone_number) eqn:E; simpl; rewrite ?E; simpl.
  - repeat split; try done.
  - repeat split; try done.
    intros _. exists (Sms.cleaned phone_number). split; [done|].
    apply cleaned_filter.
Qed.

(** ** The cart and the menu *)

Section CartTotal.
Local Open Scope R_scope.

Lemma cart_total_cons (item : dict) (c : list dict) (p q t : R) :
  item !! "price" = Some (VNum p) ->
  item !! "quantity" = Some (VNum q) ->
  cart_total c = Ok t ->
  cart_total (item :: c) = Ok (p * q + t).
Proof. intros Hp Hq Ht. simpl. unfold getitem. by rewrite Hp, Hq, Ht. Qed.

Lemma cart_total_cons_inv (item : dict) (c : list dict) (t : R) :
  cart_total (item :: c) = Ok t ->
  exists p q t',
    item !! "price" = Some (VNum p) /\ item !! "quantity" = Some (VNum q) /\
    cart_total c = Ok t' /\ t = p * q + t'.
Proof.
  simpl. unfold getitem. intros H.
  destruct (item !! "price") as [vp|]; [|done].
  destruct (item !! "quantity") as [vq|]; [|done].
  destruct vp as [|p| | |]; try done.
  destruct vq as [|q| | |]; try done.
  simpl in H. destruct (cart_total c) as [t'|]; [|done].
  simpl in H. injection H as <-. by exists p, q, t'.
Qed.

Lemma cart_total_snoc (c : list dict) (x : dict) (t p q : R) :
  cart_total c = Ok t ->
  x !! "price" = Some (VNum p) ->
  x !! "quantity" = Some (VNum q) ->
  cart_total (c ++ [x]) = Ok (t + p * q).
Proof.
  intros Ht Hp Hq. revert t Ht. induction c as [|item c IH]; intros t Ht.
  - injection Ht as <-. cbn [app]. rewrite (cart_total_cons x [] p q 0) by done. f_equal. lra.
  - apply cart_total_cons_inv in Ht as (p' & q' & t' & Hp' & Hq' & Ht' & ->).
    cbn [app]. rewrite (cart_total_cons item _ p' q' (t' + p * q)); [f_equal; lra|done..|].
    by apply IH.
Qed.

Lemma cart_total_line (c : list dict) (i : nat) (item : dict) (t : R) :
  cart_total c = Ok t ->
  c !! i = Some item ->
  exists p q, item !! "price" = Some (VNum p) /\ item !! "quantity" = Some (VNum q).
Proof.
  revert i t. induction c as [|item0 c IH]; intros i t Ht Hi; [done|].
  apply cart_total_cons_inv in Ht as (p' & q' & t' & Hp' & Hq' & Ht' & ->).
  destruct i as [|i].
  - injection Hi as <-. by exists p', q'.
  - by apply (IH i t').
Qed.

Lemma cart_total_increment (c : list dict) (i : nat) (item : dict) (t p q : R) :
  cart_total c = Ok t ->
  c !! i = Some item ->
  item !! "price" = Some (VNum p) ->
  item !! "quantity" = Some (VNum q) ->
  cart_total (<[i := <["quantity" := VNum (q + 1)]> item]> c) = Ok (t + p).
Proof.
  revert i t. induction c as [|item0 c IH]; intros i t Ht Hi Hp Hq; [done|].
  apply cart_total_cons_inv in Ht as (p' & q' & t' & Hp' & Hq' & Ht' & ->).
  destruct i as [|i].
  - injection Hi as ->. rewrite Hp in Hp'. rewrite Hq in Hq'.
    injection Hp' as <-. injection Hq' as <-. cbn [insert list_insert].
    rewrite (cart_total_cons _ c p (q + 1) t'); [f_equal; lra| |by rewrite lookup_insert_eq|done].
    by rewrite lookup_insert_ne.
  - cbn [insert list_insert].
    rewrite (cart_total_cons item0 _ p' q' (t' + p)); [f_equal; lra|done..|].
    by apply IH.
Qed.

Lemma find_item_none (v : value) (i0 : nat) (c : list dict) :
  (forall item, item ∈ c -> exists x, item !! "id" = Some x /\ x <> v) ->
  find_item v i0 c = Ok None.
Proof.
  revert i0. induction c as [|item c IH]; intros i0 H; [done|].
  destruct (H item) as (x & Hx & Hne); [left|].
  simpl. unfold getitem. rewrite Hx. simpl.
  apply py_eq_false in Hne. rewrite Hne.
  apply IH. intros item' Hitem'. apply H. by right.
Qed.

Lemma add_to_cart_appends (menu_item restaurant : dict)
    (id name price rid rname : value) (s : state) :
  same_restaurant (cart s) restaurant = Ok true ->
  menu_item !! "id" = Some id ->
  menu_item !! "name" = Some name ->
  menu_item !! "price" = Some price ->
  restaurant !! "id" = Some rid ->
  restaurant !! "name" = Some rname ->
  (forall item, item ∈ cart s -> exists x, item !! "id" = Some x /\ x <> id) ->
  add_to_cart menu_item restaurant s
    = Ret tt (set_cart (cart s ++ [list_to_map [
          ("id", id); ("name", name); ("price", price); ("quantity", VNum 1);
          ("restaurant_id", rid); ("restaurant_name", rname)]]) s).
Proof.
  intros Hsame Hid Hname Hprice Hrid Hrname Habsent.
  unfold add_to_cart, mbind, M_bind, gets, lift, modify. simpl.
  rewrite Hsame. simpl.
  unfold new_cart_item, getitem. rewrite Hid, Hname, Hprice, Hrid, Hrname. simpl.
  by rewrite (find_item_none id 0 (cart s) Habsent).
Qed.

(** X19. An accepted [add_to_cart] raises the total of the cart
    by one price: by the price of the menu item when no line has its id
    (a line with quantity 1 is appended), and by the price recorded on the
    existing line when a line has its id (no line is appended). *)
Theorem add_to_cart_total (menu_item restaurant : dict) (id name rid rname : value)
    (price total : R) (s : state) :
  same_restaurant (cart s) restaurant = Ok true ->
  menu_item !! "id" = Some id ->
  menu_item !! "name" = Some name ->
  menu_item !! "price" = Some (VNum price) ->
  restaurant !! "id" = Some rid ->
  restaurant !! "name" = Some rname ->
  cart_total (cart s) = Ok total ->
  ((forall item, item ∈ cart s -> exists x, item !! "id" = Some x /\ x <> id) ->
   exists s',
     add_to_cart menu_item restaurant s = Ret tt s' /\
     length (cart s') = S (length (cart s)) /\
     cart_total (cart s') = Ok (total + price)) /\
  (forall i item,
     cart s !! i = Some item ->
     item !! "id" = Some id ->
     (forall j item', (j < i)%nat -> cart s !! j = Some item' ->
        exists x, item' !! "id" = Some x /\ x <> id) ->
     exists s' line_price,
       add_to_cart menu_item restaurant s = Ret tt s' /\
       length (cart s') = length (cart s) /\
       item !! "price" = Some (VNum line_price) /\
       cart_total (cart s') = Ok (total + line_price)).
Proof.
  intros Hsame Hid Hname Hprice Hrid Hrname Htotal. split.
  - intros Habsent.
    rewrite (add_to_cart_appends _ _ _ _ _ _ _ s Hsame Hid Hname Hprice Hrid Hrname Habsent).
    eexists. split; [reflexivity|]. cbn [cart set_cart].
    split; [rewrite length_app; simpl; lia|].
    rewrite (cart_total_snoc _ _ total price 1 Htotal); [f_equal; lra|done|done].
  - intros i item Hi Hitem Hbefore.
    destruct (cart_total_line _ _ _ _ Htotal Hi) as (p & q & Hp & Hq).
    rewrite (add_to_cart_merges _ _ _ _ _ _ _ _ _ _ s Hsame Hid Hname Hprice Hrid Hrname
               Hi Hitem Hbefore Hq).
    eexists _, p. split; [reflexivity|]. cbn [cart set_cart].
    split; [by rewrite length_insert|]. split; [done|].
    by apply cart_total_increment.
Qed.

Lemma add_to_cart_total_witness :
  (exists s',
     add_to_cart biryani dosa_corner cart_example = Ret tt s' /\
     length (cart s') = S (length (cart cart_example)) /\
     cart_total (cart s') = Ok (80 * 1 + 0 + 220)) /\
  (exists s' line_price,
     add_to_cart masala_dosa dosa_corner cart_example = Ret tt s' /\
     length (cart s') = length (cart cart_example) /\
     dosa_line !! "price" = Some (VNum line_price) /\
     cart_total (cart s') = Ok (80 * 1 + 0 + line_price)).
Proof.
  split.
  - apply (proj1 (add_to_cart_total biryani dosa_corner (VStr "item7") (VStr "Biryani")
                    (VStr "rest1") (VStr "Dosa Corner") 220 (80 * 1 + 0) cart_example
                    eq_refl eq_refl eq_refl eq_refl eq_refl eq_refl eq_refl)).
    intros item Hitem. apply list_elem_of_singleton in Hitem as ->.
    exists (VStr "item1"). split; [reflexivity|]. discriminate.
  - apply (proj2 (add_to_cart_total masala_dosa dosa_corner (VStr "item1") (VStr "Masala Dosa")
                    (VStr "rest1") (VStr "Dosa Corner") 80 (80 * 1 + 0) cart_example
                    eq_refl eq_refl eq_refl eq_refl eq_refl eq_refl eq_refl) 0%nat dosa_line);
      [reflexivity|reflexivity|].
    intros j item' Hj. lia.
Defined.

End CartTotal.

(** ** Removing from the cart *)

Lemma filter_Forall {A : Type} (P : A -> Prop) `{forall x, Decision (P x)} (l : list A) :
  Forall P l -> filter P l = l.
Proof.
  induction 1 as [|x l Hx _ IH]; [done|]. by rewrite filter_cons_True, IH.
Qed.

Lemma filter_none {A : Type} (P : A -> Prop) `{forall x, Decision (P x)} (l : list A) :
  Forall (fun x => ~ P x) l -> filter P l = [].
Proof.
  induction 1 as [|x l Hx _ IH]; [done|]. by rewrite filter_cons_False, IH.
Qed.

Lemma without_item_filter (item_id : value) (c : list dict) :
  Forall (fun d : dict => is_Some (d !! "id")) c ->
  without_item item_id c = Ok (filter (fun d : dict => d !! "id" <> Some item_id) c).
Proof.
  induction 1 as [|item c [x Hx] _ IH]; [done|].
  simpl. unfold getitem. rewrite Hx. simpl. rewrite IH. simpl.
  rewrite filter_cons, Hx. f_equal.
  destruct (py_eq x item_id) eqn:E.
  - apply py_eq_true in E as ->. by rewrite decide_False by (by intros []).
  - apply py_eq_false in E. rewrite decide_True; [done|congruence].
Qed.

Lemma without_item_missing (item_id : value) (c : list dict) (item : dict) :
  item ∈ c -> item !! "id" = None -> without_item item_id c = Err (KeyError "id").
Proof.
  induction c as [|item0 c IH]; intros Hin Hid; [by apply elem_of_nil in Hin|].
  simpl. unfold getitem. destruct (item0 !! "id") as [x|] eqn:Hx; [|done]. simpl.
  apply elem_of_cons in Hin as [->|Hin]; [congruence|].
  by rewrite IH.
Qed.

(** X20. [remove_from_cart] keeps exactly the lines whose id
    differs from the given one, in order, when every line has an id; it
    leaves the state as it is when no line has the id; and it raises
    [KeyError] and leaves the cart as it is when a line has no id. *)
Theorem remove_from_cart_spec (item_id : value) (s : state) :
  (Forall (fun d : dict => is_Some (d !! "id")) (cart s) ->
   remove_from_cart item_id s
     = Ret tt (set_cart (filter (fun d : dict => d !! "id" <> Some item_id) (cart s)) s)) /\
  (Forall (fun d : dict => exists x, d !! "id" = Some x /\ x <> item_id) (cart s) ->
   remove_from_cart item_id s = Ret tt s) /\
  (forall item, item ∈ cart s -> item !! "id" = None ->
   remove_from_cart item_id s = Raise (KeyError "id") s).
Proof.
  split; [|split].
  - intros Hids. unfold remove_from_cart, mbind, M_bind, gets, lift, modify. simpl.
    by rewrite without_item_filter.
  - intros Hids. unfold remove_from_cart, mbind, M_bind, gets, lift, modify. simpl.
    rewrite without_item_filter.
    + simpl. replace (filter _ (cart s)) with (cart s); [by destruct s|].
      symmetry. apply filter_Forall.
      eapply Forall_impl; [exact Hids|]. intros d (x & Hx & Hne). congruence.
    + eapply Forall_impl; [exact Hids|]. intros d (x & Hx & _). by exists x.
  - intros item Hin Hid. unfold remove_from_cart, mbind, M_bind, gets, lift, modify. simpl.
    by rewrite (without_item_missing _ _ item).
Qed.

Lemma remove_from_cart_spec_witness :
  remove_from_cart (VStr "item1") cart_example = Ret tt (set_cart [] cart_example) /\
  remove_from_cart (VStr "item7") cart_example = Ret tt cart_example.
Proof.
  split.
  - rewrite (proj1 (remove_from_cart_spec (VStr "item1") cart_example)).
    + cbn [cart cart_example]. by rewrite filter_cons_False by (intros H; by apply H).
    + repeat constructor. by exists (VStr "item1").
  - apply (proj1 (proj2 (remove_from_cart_spec (VStr "item7") cart_example))).
    repeat constructor. exists (VStr "item1"). split; [reflexivity|discriminate].
Defined.

(** ** One line for each menu item *)

Lemma find_item_None (v : value) (i0 : nat) (c : list dict) :
  find_item v i0 c = Ok None ->
  forall item, item ∈ c -> exists x, item !! "id" = Some x /\ x <> v.
Proof.
  revert i0. induction c as [|item0 c IH]; intros i0 H item Hin; [by apply elem_of_nil in Hin|].
  simpl in H. unfold getitem in H.
  destruct (item0 !! "id") as [x|] eqn:Hx; [|done]. simpl in H.
  destruct (py_eq x v) eqn:Hxv; [done|]. apply py_eq_false in Hxv.
  apply elem_of_cons in Hin as [->|Hin]; [by exists x|].
  by apply (IH (S i0)).
Qed.

Lemma add_to_cart_lines_distinct (menu_item restaurant : dict) (s : state) :
  lines_distinct (cart s) ->
  lines_distinct (cart (final (add_to_cart menu_item restaurant s))).
Proof.
  intros [Hids Hnodup].
  unfold add_to_cart, mbind, M_bind, gets, lift, modify. simpl.
  destruct (same_restaurant (cart s) restaurant) as [[|]|]; simpl; [|done..].
  unfold new_cart_item, getitem.
  destruct (menu_item !! "id") as [id|] eqn:Hid; [|done].
  destruct (menu_item !! "name") as [name|]; [|done].
  destruct (menu_item !! "price") as [price|]; [|done].
  destruct (restaurant !! "id") as [rid|]; [|done].
  destruct (restaurant !! "name") as [rname|]; [|done]. simpl.
  assert (Happend : forall item : dict,
            item !! "id" = Some id ->
            (forall item', item' ∈ cart s -> exists x, item' !! "id" = Some x /\ x <> id) ->
            lines_distinct (cart s ++ [item])).
  { intros item Hitem Habsent. split.
    - apply Forall_app. split; [done|]. repeat constructor. by exists id.
    - unfold line_ids. rewrite fmap_app. apply NoDup_app. split; [done|]. split.
      + intros x (d & -> & Hd)%list_elem_of_fmap Hx.
        apply list_elem_of_singleton in Hx.
        destruct (Habsent d Hd) as (y & Hy & Hne). congruence.
      + apply NoDup_singleton. }
  destruct (find_item id 0 (cart s)) as [[i|]|] eqn:Hfind; simpl; [| |done].
  - destruct (find_item_Some _ _ _ _ Hfind) as (item & x & _ & Hi & Hx & _).
    rewrite Nat.sub_0_r in Hi.
    rewrite (list_lookup_total_correct _ _ _ Hi).
    rewrite (dict_truthy_lookup _ _ _ Hx). simpl.
    unfold increment_quantity, getitem.
    destruct (item !! "quantity") as [q|]; simpl; [|done].
    destruct q as [|n| | |]; simpl; try done.
    assert (Hsame : line_ids (<[i := <["quantity" := VNum (n + 1)]> item]> (cart s))
                    = line_ids (cart s)).
    { unfold line_ids. rewrite list_fmap_insert, lookup_insert_ne by done.
      apply list_insert_id. by rewrite list_lookup_fmap, Hi. }
    split; [|by rewrite Hsame].
    apply Forall_insert; [done|]. exists x. by rewrite lookup_insert_ne.
  - apply Happend; [done|]. by apply (find_item_None _ 0).
Qed.

Lemma remove_from_cart_lines_distinct (item_id : value) (s : state) :
  lines_distinct (cart s) ->
  lines_distinct (cart (final (remove_from_cart item_id s))).
Proof.
  intros [Hids Hnodup].
  unfold remove_from_cart, mbind, M_bind, gets, lift, modify. simpl.
  rewrite without_item_filter by done. simpl. split.
  - apply Forall_forall. intros d [_ Hd]%list_elem_of_filter.
    by apply (proj1 (Forall_forall _ _) Hids).
  - eapply sublist_NoDup; [exact Hnodup|]. unfold line_ids.
    apply fmap_sublist, sublist_filter.
Qed.

(** X21. The cart has at most one line for each menu item:
    starting from the empty cart, [add_to_cart] and [remove_from_cart] keep
    every line with an id and no two lines with the same id; and after
    [remove_from_cart] no line has the removed id. *)
Theorem cart_lines_distinct :
  lines_distinct [] /\
  (forall menu_item restaurant s,
     lines_distinct (cart s) ->
     lines_distinct (cart (final (add_to_cart menu_item restaurant s)))) /\
  (forall item_id s,
     lines_distinct (cart s) ->
     lines_distinct (cart (final (remove_from_cart item_id s))) /\
     Forall (fun d : dict => d !! "id" <> Some item_id)
            (cart (final (remove_from_cart item_id s)))).
Proof.
  split; [split; [constructor|apply NoDup_nil_2]|].
  split; [apply add_to_cart_lines_distinct|].
  intros item_id s H. split; [by apply remove_from_cart_lines_distinct|].
  destruct H as [Hids _].
  unfold remove_from_cart, mbind, M_bind, gets, lift, modify. simpl.
  rewrite without_item_filter by done. simpl.
  apply Forall_forall. by intros d [? _]%list_elem_of_filter.
Qed.

Lemma cart_lines_distinct_witness :
  lines_distinct (cart (final (add_to_cart masala_dosa dosa_corner cart_example))) /\
  lines_distinct (cart (final (remove_from_cart (VStr "item1") cart_example))).
Proof.
  assert (H : lines_distinct (cart cart_example)).
  { split; [repeat constructor; by exists (VStr "item1")|].
    apply NoDup_singleton. }
  destruct cart_lines_distinct as (_ & Hadd & Hremove).
  split; [by apply Hadd|by apply Hremove].
Defined.

(** ** The menu by category *)

Lemma group_append_new (category : value) (item : loc) (groups : list (value * list loc)) :
  category ∉ (fst <$> groups) ->
  group_append category item groups = groups ++ [(category, [item])].
Proof.
  induction groups as [|[c items] groups IH]; intros Hnot; [done|].
  simpl. rewrite fmap_cons in Hnot. apply not_elem_of_cons in Hnot as [Hne Hnot].
  simpl in Hne. assert (E : py_eq c category = false) by (apply py_eq_false; congruence).
  rewrite E. by rewrite IH.
Qed.

Lemma group_append_keys (category : value) (item : loc) (groups : list (value * list loc)) :
  category ∈ (fst <$> groups) ->
  fst <$> group_append category item groups = fst <$> groups.
Proof.
  induction groups as [|[c items] groups IH]; intros Hin; [by apply elem_of_nil in Hin|].
  simpl. destruct (py_eq c category) eqn:E; [done|].
  apply py_eq_false in E. rewrite !fmap_cons. f_equal. apply IH.
  rewrite fmap_cons in Hin. apply elem_of_cons in Hin as [Hin|Hin]; [|done].
  simpl in Hin. congruence.
Qed.

Lemma group_append_elem (category : value) (item : loc) (groups : list (value * list loc))
    (c : value) (items' : list loc) :
  NoDup (fst <$> groups) ->
  (c, items') ∈ group_append category item groups ->
  (c <> category /\ (c, items') ∈ groups) \/
  (c = category /\ exists items, (category, items) ∈ groups /\ items' = items ++ [item]) \/
  (c = category /\ (category ∉ (fst <$> groups)) /\ items' = [item]).
Proof.
  induction groups as [|[c0 items0] groups IH]; intros Hnodup Hin; simpl in Hin.
  - apply list_elem_of_singleton in Hin. injection Hin as -> ->.
    right. right. split; [done|]. split; [apply not_elem_of_nil|done].
  - rewrite fmap_cons in Hnodup. apply NoDup_cons in Hnodup as [Hc0 Hnodup]. simpl in Hc0.
    destruct (py_eq c0 category) eqn:E.
    + apply py_eq_true in E as ->.
      apply elem_of_cons in Hin as [Hin|Hin].
      * injection Hin as -> ->. right. left. split; [done|]. exists items0. split; [left|done].
      * left. split; [|by right]. intros ->. apply Hc0.
        apply list_elem_of_fmap. by exists (category, items').
    + apply py_eq_false in E.
      apply elem_of_cons in Hin as [Hin|Hin].
      * injection Hin as -> ->. left. split; [done|left].
      * destruct (IH Hnodup Hin) as [[Hne Hin']|[[-> (items & Hin' & ->)]|[-> [Hnot ->]]]].
        -- left. split; [done|by right].
        -- right. left. split; [done|]. exists items. split; [by right|done].
        -- right. right. split; [done|]. split; [|done].
           rewrite fmap_cons. apply not_elem_of_cons. split; [simpl; congruence|done].
Qed.

Lemma grouped_step (h : heap_t) (ms : list loc) (groups : list (value * list loc))
    (item : loc) (category : value) :
  grouped h ms groups ->
  obj h item !! "category" = Some category ->
  grouped h (ms ++ [item]) (group_append category item groups).
Proof.
  intros (Hnodup & Hgroups & Hkeys) Hcat.
  assert (Hfilter : forall c,
    filter (fun l => obj h l !! "category" = Some c) (ms ++ [item])
    = filter (fun l => obj h l !! "category" = Some c) ms
      ++ (if decide (c = category) then [item] else [])).
  { intros c. rewrite filter_app. f_equal.
    rewrite filter_cons, filter_nil, Hcat.
    destruct (decide (c = category)) as [->|Hne]; [by rewrite decide_True|].
    rewrite decide_False; [done|congruence]. }
  destruct (decide (category ∈ (fst <$> groups))) as [Hin|Hnot].
  - split; [by rewrite group_append_keys|]. split.
    + intros c items' Hel.
      destruct (group_append_elem _ _ _ _ _ Hnodup Hel)
        as [[Hne Hel']|[[-> (items & Hel' & ->)]|[_ [Hnot _]]]]; [| |done].
      * destruct (Hgroups c items' Hel') as [Hnil ->]. split; [done|].
        by rewrite Hfilter, decide_False, app_nil_r.
      * destruct (Hgroups category items Hel') as [Hnil ->]. split.
        -- intros E. by apply app_eq_nil in E as [_ ?].
        -- by rewrite Hfilter, decide_True.
    + intros l c Hl Hc. rewrite group_append_keys by done.
      apply elem_of_app in Hl as [Hl|Hl]; [by apply (Hkeys l)|].
      apply list_elem_of_singleton in Hl as ->. congruence.
  - rewrite group_append_new by done. split; [|split].
    + rewrite fmap_app. apply NoDup_app. split; [done|]. split; [|apply NoDup_singleton].
      intros c Hc Hc'. apply list_elem_of_singleton in Hc'. simpl in Hc'. congruence.
    + intros c items Hel. apply elem_of_app in Hel as [Hel|Hel].
      * destruct (Hgroups c items Hel) as [Hnil ->]. split; [done|].
        rewrite Hfilter, decide_False, app_nil_r; [done|].
        intros ->. apply Hnot. apply list_elem_of_fmap.
        by exists (category, filter (fun l => obj h l !! "category" = Some category) ms).
      * apply list_elem_of_singleton in Hel. injection Hel as -> ->. split; [done|].
        rewrite Hfilter, decide_True by done.
        replace (filter _ ms) with (@nil loc); [done|].
        symmetry. apply filter_none. apply Forall_forall. intros l Hl Hc.
        apply Hnot. by apply (Hkeys l).
    + intros l c Hl Hc. rewrite fmap_app.
      apply elem_of_app in Hl as [Hl|Hl].
      * apply elem_of_app. left. by apply (Hkeys l).
      * apply list_elem_of_singleton in Hl as ->.
        apply elem_of_app. right. apply list_elem_of_singleton. simpl. congruence.
Qed.

Lemma menu_by_category_run (h : heap_t) (rest seen : list loc)
    (groups : list (value * list loc)) :
  (forall l, l ∈ rest -> exists c, obj h l !! "category" = Some c /\ hashable c = true) ->
  grouped h seen groups ->
  exists result, menu_by_category h rest groups = Ok result /\ grouped h (seen ++ rest) result.
Proof.
  revert seen groups. induction rest as [|item rest IH]; intros seen groups Hcats Hinv.
  - exists groups. by rewrite app_nil_r.
  - destruct (Hcats item) as (c & Hc & Hhash); [left|].
    simpl. unfold getitem. rewrite Hc. simpl. rewrite Hhash.
    destruct (IH (seen ++ [item]) (group_append c item groups)) as (result & Hrun & Hres).
    + intros l Hl. apply Hcats. by right.
    + by apply grouped_step.
    + exists result. split; [done|]. by rewrite <- app_assoc in Hres.
Qed.

Lemma menu_by_category_error (h : heap_t) (rest : list loc) (groups : list (value * list loc))
    (i : nat) (item : loc) :
  rest !! i = Some item ->
  (forall j l, j < i -> rest !! j = Some l ->
     exists c, obj h l !! "category" = Some c /\ hashable c = true) ->
  (obj h item !! "category" = None ->
     menu_by_category h rest groups = Err (KeyError "category")) /\
  (forall c, obj h item !! "category" = Some c -> hashable c = false ->
     menu_by_category h rest groups = Err TypeError).
Proof.
  revert i groups. induction rest as [|item0 rest IH]; intros i groups Hi Hbefore; [done|].
  destruct i as [|i].
  - injection Hi as ->. simpl. unfold getitem. split.
    + by intros ->.
    + intros c -> Hc. simpl. by rewrite Hc.
  - destruct (Hbefore 0 item0) as (c0 & Hc0 & Hhash); [lia|done|].
    simpl. unfold getitem. rewrite Hc0. simpl. rewrite Hhash.
    apply (IH i); [done|]. intros j l Hj Hl. apply (Hbefore (S j)); [lia|done].
Qed.

(** X22. The grouping of the menu in
    [show_restaurant_details]: when every item has a hashable category, no
    category gets two groups, every group is the non-empty list of exactly
    the items of its category in menu order, and every category of the menu
    has a group; the first item without a category raises [KeyError], the
    first with an unhashable one [TypeError]. *)
Theorem menu_by_category_grouped (h : heap_t) (menu_items : list loc) :
  ((forall l, l ∈ menu_items ->
      exists c, obj h l !! "category" = Some c /\ hashable c = true) ->
   exists groups,
     menu_by_category h menu_items [] = Ok groups /\
     NoDup (fst <$> groups) /\
     (forall c items, (c, items) ∈ groups ->
        items <> [] /\
        items = filter (fun l => obj h l !! "category" = Some c) menu_items) /\
     (forall l c, l ∈ menu_items -> obj h l !! "category" = Some c ->
        c ∈ (fst <$> groups))) /\
  (forall i item,
     menu_items !! i = Some item ->
     (forall j l, j < i -> menu_items !! j = Some l ->
        exists c, obj h l !! "category" = Some c /\ hashable c = true) ->
     (obj h item !! "category" = None ->
        menu_by_category h menu_items [] = Err (KeyError "category")) /\
     (forall c, obj h item !! "category" = Some c -> hashable c = false ->
        menu_by_category h menu_items [] = Err TypeError)).
Proof.
  split.
  - intros Hcats.
    destruct (menu_by_category_run h menu_items [] [] Hcats) as (groups & Hrun & Hres).
    + split; [apply NoDup_nil_2|]. split.
      * intros c items Hel. by apply elem_of_nil in Hel.
      * intros l c Hl. by apply elem_of_nil in Hl.
    + exists groups. split; [done|]. exact Hres.
  - intros i item. apply menu_by_category_error.
Qed.

Lemma menu_by_category_grouped_witness :
  exists groups,
    menu_by_category menu_example [0; 1; 2] [] = Ok groups /\
    NoDup (fst <$> groups) /\
    (forall c items, (c, items) ∈ groups ->
       items <> [] /\
       items = filter (fun l => obj menu_example l !! "category" = Some c) [0; 1; 2]) /\
    (forall l c, l ∈ [0; 1; 2] -> obj menu_example l !! "category" = Some c ->
       c ∈ (fst <$> groups)).
Proof.
  apply (proj1 (menu_by_category_grouped menu_example [0; 1; 2])).
  intros l Hl.
  apply elem_of_cons in Hl as [->|Hl]; [by exists (VStr "Starters")|].
  apply elem_of_cons in Hl as [->|Hl]; [by exists (VStr "Main Course")|].
  apply list_elem_of_singleton in Hl as ->. by exists (VStr "Main Course").
Defined.

(** ** Checkout and the confirmation *)

Lemma add_order_alloc (d : dict) (now : R) (io : write_result) (s : state) :
  let l := length (heap s) in
  exists s',
    add_order l now io (set_heap (heap s ++ [d]) s) = Ret l s' /\
    heap s' = heap s ++ [order_defaults (length (orders (data_store s))) now d] /\
    data_store s' = set_coll Orders (orders (data_store s) ++ [l]) (data_store s) /\
    cart s' = cart s /\
    simulate_status s' = simulate_status s /\
    disk s' = written io s'.
Proof.
  intros l. unfold add_order, l.
  unfold mbind at 1, M_bind at 1, gets at 1.
  unfold mbind at 1, M_bind at 1. rewrite setdefault_new.
  unfold mbind at 1, M_bind at 1. rewrite setdefault_new.
  unfold mbind at 1, M_bind at 1. rewrite setdefault_new.
  eexists. split; [reflexivity|]. by repeat split.
Qed.

Lemma build_order_fields (format_value : value -> string) (user : dict) (restaurant : value)
    (c : list dict) (total : R) (address phone payment_method : string) (now : R) (d : dict) :
  build_order format_value user restaurant c total address phone payment_method now = Ok d ->
  d !! "id" = None /\
  is_Some (d !! "restaurant_name") /\
  is_Some (d !! "eta") /\
  d !! "total_amount" = Some (VNum total) /\
  d !! "item_details" = Some (VList (VDict <$> c)) /\
  d !! "user_id" = user !! "id".
Proof.
  unfold build_order, mbind, res_bind. intros H.
  repeat res_step H.
  injection H as <-.
  split; [reflexivity|]. split; [eexists; reflexivity|]. split; [eexists; reflexivity|].
  split; [reflexivity|]. split; [reflexivity|].
  unfold getitem in E7. destruct (user !! "id") as [x|]; [|done].
  injection E7 as ->. reflexivity.
Qed.

Lemma send_order_confirmation_ok (order : dict) (customer : dict) (p : string) :
  customer !! "phone" = Some (VStr p) ->
  is_Some (customer !! "name") ->
  is_Some (order !! "id") ->
  is_Some (order !! "restaurant_name") ->
  is_Some (order !! "eta") ->
  send_order_confirmation order (Some customer) = Ok tt.
Proof.
  intros Hp [n Hn] [i Hi] [r Hr] [e He].
  unfold send_order_confirmation, user_fields, getitem. by rewrite Hp, Hn, Hi, Hr, He.
Qed.

(** X23. The Place Order handler stores the order before it
    prepares the confirmation.  When the customer's record is in the store
    with a phone number and a name, the handler returns the new order, the
    cart is empty and the file write was attempted with the order in the
    store; when the store has no record with the customer's id, the handler
    raises [TypeError] with the order stored and written all the same and
    the cart still full. *)
Theorem place_order_confirmation (format_value : value -> string) (user : dict)
    (selected_restaurant : value) (address phone payment_method : string) (now : R)
    (io : write_result) (s : state) (first : dict) (rest : list dict) (total : R) (d : dict)
    (user_id : value) :
  cart s = first :: rest ->
  cart_total (cart s) = Ok total ->
  address <> "" ->
  build_order format_value user selected_restaurant (cart s) total
            address phone payment_method now = Ok d ->
  user !! "id" = Some user_id ->
  let order := length (heap s) in
  let stored := order_defaults (length (orders (data_store s))) now d in
  let click := place_order format_value user selected_restaurant address phone
                 payment_method now io in
  (forall k u p,
     users (data_store s) !! k = Some u ->
     obj (heap s) u !! "id" = Some user_id ->
     (forall j u', j < k -> users (data_store s) !! j = Some u' ->
        exists x, obj (heap s) u' !! "id" = Some x /\ x <> user_id) ->
     obj (heap s) u !! "phone" = Some (VStr p) ->
     is_Some (obj (heap s) u !! "name") ->
     exists s',
       click s = Ret (Some order) s' /\
       cart s' = [] /\
       heap s' = heap s ++ [stored] /\
       orders (data_store s') = orders (data_store s) ++ [order] /\
       disk s' = written io s') /\
  ((forall u, u ∈ users (data_store s) ->
      exists x, obj (heap s) u !! "id" = Some x /\ x <> user_id) ->
   exists s',
     click s = Raise TypeError s' /\
     cart s' = cart s /\
     heap s' = heap s ++ [stored] /\
     orders (data_store s') = orders (data_store s) ++ [order] /\
     disk s' = written io s').
Proof.
  intros Hcart Htotal Haddress Horder Huser order stored click.
  subst order stored click.
  set (order := length (heap s)).
  set (stored := order_defaults (length (orders (data_store s))) now d).
  destruct (build_order_fields _ _ _ _ _ _ _ _ _ _ Horder) as (Hid & Hrn & Heta & _).
  destruct (add_order_alloc d now io s) as (s1 & Hadd & Hh & Hd & Hc & Hf & Hw).
  assert (Husers : users (data_store s1) = users (data_store s)) by (by rewrite Hd).
  assert (Horders : orders (data_store s1) = orders (data_store s) ++ [order])
    by (by rewrite Hd).
  assert (Hrun : forall customer outcome,
    find_by (heap s1) "id" user_id (users (data_store s1)) = Ok customer ->
    (lift (send_order_confirmation (obj (heap s1) order) (obj (heap s1) <$> customer));;
     modify (set_cart []);; mret (Some order)) s1 = outcome ->
    place_order format_value user selected_restaurant address phone
      payment_method now io s = outcome).
  { intros customer outcome Hfind Hout. unfold place_order.
    unfold mbind at 1, M_bind at 1, gets at 1. rewrite Hcart. cbv beta iota.
    rewrite Hcart in Htotal, Horder.
    unfold mbind at 1, M_bind at 1, lift at 1. rewrite Htotal. cbv beta iota.
    apply String.eqb_neq in Haddress. rewrite Haddress.
    unfold mbind at 1, M_bind at 1, lift at 1. rewrite Horder. cbv beta iota.
    unfold mbind at 1, M_bind at 1, alloc at 1. cbv beta iota.
    unfold mbind at 1, M_bind at 1. rewrite Hadd. cbv beta iota.
    unfold mbind at 1, M_bind at 1, lift at 1, getitem at 1. rewrite Huser. cbv beta iota.
    unfold mbind at 1, M_bind at 1, get_user_by_id, get_by.
    unfold mbind at 1, M_bind at 1, gets at 1.
    unfold mbind at 1, M_bind at 1, gets at 1. cbn [coll].
    unfold lift at 1. rewrite Hfind.
    unfold mbind at 1, M_bind at 1, gets at 1. exact Hout. }
  assert (Hstored : obj (heap s1) order = stored) by (rewrite Hh; apply obj_app_new).
  assert (Hold : forall u x, obj (heap s) u !! "id" = Some x ->
            obj (heap s1) u = obj (heap s) u).
  { intros u x Hx. rewrite Hh. apply obj_app_l. by apply obj_valid in Hx. }
  split.
  - intros k u p Hk Hu Hbefore Hp Hn.
    exists (set_cart [] s1).
    split; [|split; [done|split; [done|split; [done|]]]];
      [|cbn [disk set_cart]; rewrite Hw; by destruct io].
    apply (Hrun (Some u)).
    + apply (find_by_first _ _ _ _ k u); [by rewrite Husers|by rewrite (Hold u user_id)|].
      intros j u' Hj Hu'. rewrite Husers in Hu'.
      destruct (Hbefore j u' Hj Hu') as (x & Hx & Hne).
      exists x. by rewrite (Hold u' x).
    + unfold mbind, M_bind, lift, modify. cbn [fmap option_fmap option_map].
      rewrite Hstored, (Hold u user_id) by done.
      rewrite (send_order_confirmation_ok _ _ p); try done.
      * unfold stored, order_defaults.
        rewrite !with_default_lookup_ne, with_default_lookup by done. by eexists.
      * unfold stored. by rewrite order_defaults_other.
      * unfold stored. by rewrite order_defaults_other.
  - intros Habsent.
    exists s1. split; [|by repeat split].
    apply (Hrun None).
    + apply find_by_none. intros u Hu. rewrite Husers in Hu.
      destruct (Habsent u Hu) as (x & Hx & Hne). exists x. by rewrite (Hold u x).
    + reflexivity.
Qed.

Lemma place_order_confirmation_witness :
  let fv := fun _ : value => "" in
  exists s',
    place_order fv asha (VDict shown_far) "12 MG Road" "9845000000" "UPI" 1700000600 WriteOk
      checkout_example = Ret (Some 2) s' /\
    cart s' = [] /\
    heap s' = heap checkout_example ++ [order_defaults 0 1700000600 (checkout_order fv)] /\
    orders (data_store s') = [2] /\
    disk s' = written WriteOk s'.
Proof.
  intros fv.
  destruct (place_order_confirmation fv asha (VDict shown_far) "12 MG Road" "9845000000" "UPI"
              1700000600 WriteOk checkout_example dosa_line [] (80 * 1 + 0)%R
              (checkout_order fv) (VStr "1700000000"))
    as [Hfound _];
    [reflexivity|reflexivity|discriminate|apply build_order_example|reflexivity|].
  apply (Hfound 0 0 "9845000000"); [reflexivity|reflexivity| |reflexivity|by eexists].
  intros j u' Hj. lia.
Defined.

(** ** A vendor's click and the notification *)

Lemma send_order_status_update_ok (order customer : dict) (p status : string) :
  customer !! "phone" = Some (VStr p) ->
  is_Some (customer !! "name") ->
  is_Some (order !! "id") ->
  is_Some (order !! "restaurant_name") ->
  (status = "out_for_delivery" -> is_Some (order !! "eta")) ->
  send_order_status_update order (Some customer) status = Ok tt.
Proof.
  intros Hp [n Hn] [i Hi] [r Hr] He.
  unfold send_order_status_update, user_fields, getitem. rewrite Hp, Hn, Hi, Hr. simpl.
  destruct (String.eqb status "out_for_delivery") eqn:E; [|done].
  apply String.eqb_eq in E. destruct (He E) as [e ->]. done.
Qed.

(** X24. A click on a vendor's button that the page reaches (the
    page can print the captions that precede it) changes the status in
    memory before the notification is prepared and writes the file after
    it.  When the store has no record of the order's customer, the click
    raises [TypeError]: the order has the new status in memory and the file
    is as it was.  When the customer has a phone number and a name and the
    order what the message needs, the click returns, the collections are
    unchanged, and the file write is attempted on the store with the new
    status. *)
Theorem vendor_click_notification (platform : R -> res unit) (restaurant_id : value)
    (b : vendor_button) (order : loc) (io : write_result) (s : state) (user_id : value)
    (k : nat) :
  (forall l, l ∈ orders (data_store s) ->
     is_Some (obj (heap s) l !! "restaurant_id") /\ is_Some (status_of s l)) ->
  captions_render platform restaurant_id b s ->
  orders (data_store s) !! k = Some order ->
  obj (heap s) order !! "restaurant_id" = Some restaurant_id ->
  status_of s order = Some (VStr (button_section b)) ->
  obj (heap s) order !! "user_id" = Some user_id ->
  let clicked :=
    set_heap (<[order := <["status" := VStr (button_status b)]> (obj (heap s) order)]> (heap s))
             s in
  ((forall u, u ∈ users (data_store s) ->
      exists x, obj (heap s) u !! "id" = Some x /\ x <> user_id) ->
   show_vendor_tracking platform restaurant_id b order io s = Raise TypeError clicked) /\
  (forall j u p order_id,
     users (data_store s) !! j = Some u ->
     obj (heap s) u !! "id" = Some user_id ->
     (forall i u', i < j -> users (data_store s) !! i = Some u' ->
        exists x, obj (heap s) u' !! "id" = Some x /\ x <> user_id) ->
     obj (heap s) u !! "phone" = Some (VStr p) ->
     is_Some (obj (heap s) u !! "name") ->
     obj (heap s) order !! "id" = Some order_id ->
     (forall i o, i < k -> orders (data_store s) !! i = Some o ->
        exists x, obj (heap s) o !! "id" = Some x /\ x <> order_id) ->
     is_Some (obj (heap s) order !! "restaurant_name") ->
     (b = ReadyForDelivery -> is_Some (obj (heap s) order !! "eta")) ->
     show_vendor_tracking platform restaurant_id b order io s
       = Ret tt (set_disk (written io clicked) clicked)).
Proof.
  intros Hkeys Hcap Hk Hrid Hstatus Huid clicked.
  assert (Hin : order ∈ orders (data_store s)) by (by apply list_elem_of_lookup_2 in Hk).
  assert (Hlt : order < length (heap s)) by (by apply status_of_valid in Hstatus).
  set (h1 := <[order := <["status" := VStr (button_status b)]> (obj (heap s) order)]> (heap s)).
  assert (Hkey : forall l key, key <> "status" -> obj h1 l !! key = obj (heap s) l !! key).
  { intros l key Hne. unfold h1. destruct (decide (order = l)) as [<-|Hl].
    - rewrite obj_insert_eq by done. by rewrite lookup_insert_ne.
    - by rewrite obj_insert_ne. }
  assert (Hrun : forall customer outcome,
    find_by h1 "id" user_id (users (data_store s)) = Ok customer ->
    (lift (send_order_status_update (obj h1 order) (obj h1 <$> customer) (button_status b));;
     update_order order io;; mret tt) clicked = outcome ->
    show_vendor_tracking platform restaurant_id b order io s = outcome).
  { intros customer outcome Hfind Hout.
    rewrite (vendor_reached platform restaurant_id b order io s) by done.
    unfold on_click.
    unfold mbind at 1, M_bind at 1, setitem at 1, modify at 1. fold h1. fold clicked.
    unfold mbind at 1, M_bind at 1, gets at 1. cbn [heap clicked set_heap].
    unfold mbind at 1, M_bind at 1, lift at 1, getitem at 1.
    rewrite Hkey, Huid by done.
    unfold mbind at 1, M_bind at 1, get_user_by_id, get_by.
    unfold mbind at 1, M_bind at 1, gets at 1.
    unfold mbind at 1, M_bind at 1, gets at 1. cbn [coll heap data_store clicked set_heap].
    unfold lift at 1. rewrite Hfind. exact Hout. }
  split.
  - intros Habsent. apply (Hrun None); [|reflexivity].
    apply find_by_none. intros u Hu.
    destruct (Habsent u Hu) as (x & Hx & Hne). exists x. by rewrite Hkey.
  - intros j u p order_id Hj Hu Hbefore Hp Hn Hoid Hfirst Hrn Heta.
    apply (Hrun (Some u)).
    + apply (find_by_first _ _ _ _ j u); [done|by rewrite Hkey|].
      intros i u' Hi Hu'. destruct (Hbefore i u' Hi Hu') as (x & Hx & Hne).
      exists x. by rewrite Hkey.
    + unfold mbind at 1, M_bind at 1, lift at 1. cbn [fmap option_fmap option_map].
      rewrite (send_order_status_update_ok _ _ p); try by rewrite Hkey.
      2: { intros E. rewrite Hkey by done. apply Heta. by destruct b. }
      unfold update_order, update_record.
      unfold mbind, M_bind, gets, lift. cbn [heap data_store clicked set_heap coll].
      rewrite (update_index_first _ _ _ 0 k order Hk).
      * simpl. rewrite list_insert_id by done. unfold clicked. f_equal.
        unfold set_disk, set_data_store, set_heap. simpl. destruct (data_store s). simpl.
        destruct io; reflexivity.
      * exists order_id, order_id. rewrite !Hkey by done. by rewrite py_eq_refl.
      * intros i o Hi Ho. destruct (Hfirst i o Hi Ho) as (x & Hx & Hne).
        exists x, order_id. rewrite !Hkey by done. split; [done|]. split; [done|].
        by apply py_eq_false.
Qed.

Lemma vendor_click_notification_witness :
  let clock := fun _ : R => Ok tt in
  show_vendor_tracking clock (VStr "rest1") Accept 1 WriteOk vendor_example
    = Ret tt (set_disk
                (written WriteOk
                   (set_heap [asha; <["status" := VStr "preparing"]> asha_order; orphan_order]
                             vendor_example))
                (set_heap [asha; <["status" := VStr "preparing"]> asha_order; orphan_order]
                          vendor_example)) /\
  show_vendor_tracking clock (VStr "rest1") Reject 2 WriteOk vendor_example
    = Raise TypeError
        (set_heap [asha; asha_order; <["status" := VStr "cancelled"]> orphan_order]
                  vendor_example).
Proof.
  intros clock.
  assert (Hkeys : forall l, l ∈ orders (data_store vendor_example) ->
            is_Some (obj (heap vendor_example) l !! "restaurant_id") /\
            is_Some (status_of vendor_example l)).
  { intros l Hl. simpl in Hl.
    apply elem_of_cons in Hl as [->|Hl]; [|apply list_elem_of_singleton in Hl as ->];
      split; by eexists. }
  assert (Hcap : forall b, sections_until b = ["confirmed"] ->
            captions_render clock (VStr "rest1") b vendor_example).
  { intros b Hb l section Hl _ Hsection _. rewrite Hb in Hsection.
    apply list_elem_of_singleton in Hsection as ->. simpl in Hl.
    apply elem_of_cons in Hl as [->|Hl]; [|apply list_elem_of_singleton in Hl as ->];
      reflexivity. }
  split.
  - apply (proj2 (vendor_click_notification clock (VStr "rest1") Accept 1 WriteOk
                    vendor_example (VStr "1700000000") 0 Hkeys (Hcap Accept eq_refl)
                    eq_refl eq_refl eq_refl eq_refl)
             0 0 "9845000000" (VStr "order1"));
      try reflexivity; try (by eexists); try (intros i x Hi; lia); discriminate.
  - apply (proj1 (vendor_click_notification clock (VStr "rest1") Reject 2 WriteOk
                    vendor_example (VStr "1699999999") 1 Hkeys (Hcap Reject eq_refl)
                    eq_refl eq_refl eq_refl eq_refl)).
    intros u Hu. apply list_elem_of_singleton in Hu as ->.
    exists (VStr "1700000000"). split; [reflexivity|discriminate].
Defined.

(** ** The simulated progression happens once *)

Lemma keeps_flag_bind {A B : Type} (m : M A) (f : A -> M B) :
  keeps_flag m -> (forall a, keeps_flag (f a)) -> keeps_flag (m ≫= f).
Proof.
  intros Hm Hf s Hs. specialize (Hm s Hs). unfold mbind, M_bind.
  destruct (m s) as [a s'|e s']; simpl in *; [by apply Hf|done].
Qed.

Lemma keeps_flag_ret {A : Type} (a : A) : keeps_flag (mret a).
Proof. by intros s Hs. Qed.

Lemma keeps_flag_gets {A : Type} (f : state -> A) : keeps_flag (gets f).
Proof. by intros s Hs. Qed.

Lemma keeps_flag_lift {A : Type} (r : res A) : keeps_flag (lift r).
Proof. intros s Hs. unfold lift. by destruct r. Qed.

Lemma keeps_flag_modify (f : state -> state) :
  (forall s, simulate_status s = true -> simulate_status (f s) = true) ->
  keeps_flag (modify f).
Proof. intros Hf s Hs. by apply Hf. Qed.

Lemma keeps_flag_alloc (d : dict) : keeps_flag (alloc d).
Proof. by intros s Hs. Qed.

Lemma keeps_flag_setitem (l : loc) (k : string) (v : value) : keeps_flag (setitem l k v).
Proof. by intros s Hs. Qed.

Lemma keeps_flag_save (io : write_result) : keeps_flag (_save_data_to_file io).
Proof. by intros s Hs. Qed.

Lemma keeps_flag_setdefault (r : loc) (k : string) (v : value) : keeps_flag (setdefault r k v).
Proof.
  unfold setdefault. apply keeps_flag_bind; [apply keeps_flag_gets|]. intros h.
  destruct (obj h r !! k); [apply keeps_flag_ret|apply keeps_flag_setitem].
Qed.

Lemma keeps_flag_append_record (c : collection) (r : loc) (io : write_result) :
  keeps_flag (append_record c r io).
Proof.
  unfold append_record. apply keeps_flag_bind; [by apply keeps_flag_modify|].
  intros _. apply keeps_flag_save.
Qed.

Ltac flag_step :=
  first
    [ apply keeps_flag_ret
    | apply keeps_flag_gets
    | apply keeps_flag_lift
    | apply keeps_flag_alloc
    | apply keeps_flag_setitem
    | apply keeps_flag_save
    | apply keeps_flag_setdefault
    | apply keeps_flag_append_record
    | apply keeps_flag_modify; by intros ? ?
    | apply keeps_flag_bind; [|intros ?]
    | match goal with
      | |- keeps_flag (match ?x with _ => _ end) => destruct x
      end ].

Lemma keeps_flag_add_order (order : loc) (now : R) (io : write_result) :
  keeps_flag (add_order order now io).
Proof. unfold add_order. repeat flag_step. Qed.

Lemma keeps_flag_get_by (c : collection) (k : string) (v : value) : keeps_flag (get_by c k v).
Proof. unfold get_by. repeat flag_step. Qed.

Lemma keeps_flag_get_all_by (c : collection) (k : string) (v : value) :
  keeps_flag (get_all_by c k v).
Proof. unfold get_all_by. repeat flag_step. Qed.

Lemma keeps_flag_update_record (c : collection) (r : loc) (io : write_result) :
  keeps_flag (update_record c r io).
Proof. unfold update_record. repeat flag_step. Qed.

Lemma keeps_flag_add_to_cart (menu_item restaurant : dict) :
  keeps_flag (add_to_cart menu_item restaurant).
Proof. unfold add_to_cart. repeat flag_step. Qed.

Lemma keeps_flag_remove_from_cart (item_id : value) : keeps_flag (remove_from_cart item_id).
Proof. unfold remove_from_cart. repeat flag_step. Qed.

Lemma keeps_flag_place_order (format_value : value -> string) (user : dict)
    (selected_restaurant : value) (address phone payment_method : string) (now : R)
    (io : write_result) :
  keeps_flag (place_order format_value user selected_restaurant address phone
                payment_method now io).
Proof.
  unfold place_order.
  repeat first [flag_step | apply keeps_flag_add_order | apply keeps_flag_get_by].
Qed.

Lemma keeps_flag_on_click (b : vendor_button) (order : loc) (io : write_result) :
  keeps_flag (on_click b order io).
Proof.
  unfold on_click.
  repeat first [flag_step | apply keeps_flag_get_by | apply keeps_flag_update_record].
Qed.

Lemma keeps_flag_show_vendor_tracking (platform : R -> res unit) (restaurant_id : value)
    (b : vendor_button) (order : loc) (io : write_result) :
  keeps_flag (show_vendor_tracking platform restaurant_id b order io).
Proof.
  unfold show_vendor_tracking.
  repeat first [flag_step | apply keeps_flag_get_all_by | apply keeps_flag_on_click].
Qed.

Lemma keeps_flag_display_order_tracking (order : loc) (coin : bool) :
  keeps_flag (display_order_tracking order coin).
Proof. unfold display_order_tracking. repeat flag_step. Qed.

Lemma keeps_flag_run (format_value : value -> string) (o : op) (s : state) :
  simulate_status s = true -> simulate_status (run format_value o s) = true.
Proof.
  destruct o; simpl.
  - apply keeps_flag_add_to_cart.
  - apply keeps_flag_remove_from_cart.
  - apply keeps_flag_place_order.
  - unfold insert_order. revert s.
    change (keeps_flag (alloc order ≫= fun order => add_order order now io)).
    repeat first [flag_step | apply keeps_flag_add_order].
  - apply keeps_flag_show_vendor_tracking.
  - apply keeps_flag_display_order_tracking.
Qed.

Lemma track_with_flag (order : loc) (coin : bool) (s : state) :
  simulate_status s = true -> final (display_order_tracking order coin s) = s.
Proof.
  intros Hs. unfold display_order_tracking, mbind, M_bind, gets, lift. simpl.
  destruct (getitem (obj (heap s) order) "status") as [status|]; simpl; [|done].
  rewrite Hs, andb_false_r.
  by destruct (py_eq status (VStr "confirmed")), (py_eq status (VStr "preparing")).
Qed.

Lemma track_sets_flag (order : loc) (coin : bool) (s : state) :
  final (display_order_tracking order coin s) = s \/
  simulate_status (final (display_order_tracking order coin s)) = true.
Proof.
  unfold display_order_tracking, mbind, M_bind, gets, lift, setitem, modify. simpl.
  destruct (getitem (obj (heap s) order) "status") as [status|]; simpl; [|by left].
  destruct (py_eq status (VStr "confirmed")).
  - destruct (coin && negb (simulate_status s)); simpl; [by right|by left].
  - destruct (py_eq status (VStr "preparing")); [|by left].
    destruct (coin && negb (simulate_status s)); simpl; [by right|by left].
Qed.

(** X25. The simulated progression of
    [display_order_tracking] happens at most once in a session: a rendering
    either leaves the state as it is or sets the flag; no operation ever
    clears the flag; and while the flag is set a rendering changes
    nothing. *)
Theorem simulated_advance_once (format_value : value -> string) :
  (forall order coin s,
     run format_value (OpTrack order coin) s = s \/
     simulate_status (run format_value (OpTrack order coin) s) = true) /\
  (forall os s,
     simulate_status s = true ->
     simulate_status (foldl (fun s o => run format_value o s) s os) = true) /\
  (forall order coin s,
     simulate_status s = true ->
     run format_value (OpTrack order coin) s = s).
Proof.
  split; [|split].
  - intros order coin s. apply track_sets_flag.
  - intros os. induction os as [|o os IH]; intros s Hs; [done|].
    simpl. apply IH. by apply keeps_flag_run.
  - intros order coin s. apply track_with_flag.
Qed.

Lemma simulated_advance_once_witness :
  let s := set_simulate_status true vendor_example in
  run (fun _ => "") (OpTrack 1 true) s = s.
Proof.
  intros s.
  apply (proj2 (proj2 (simulated_advance_once (fun _ => ""))) 1 true s). reflexivity.
Defined.

(** ** The profile page *)

(** X26. Saving the personal information changes the
    record of the session's user in place: name, phone and the address in
    the profile are the entered ones, every other field and every other
    object is as before.  The collections of the store are unchanged, so a
    stored user shows the new values in the store, and the data file is not
    written. *)
Theorem show_personal_info_in_memory (user : loc) (name phone address : string) (s : state)
    (profile : dict) :
  user < length (heap s) ->
  is_Some (obj (heap s) user !! "name") ->
  is_Some (obj (heap s) user !! "email") ->
  is_Some (obj (heap s) user !! "phone") ->
  profile_of (obj (heap s) user) = Ok profile ->
  exists s',
    show_personal_info user name phone address s = Ret tt s' /\
    obj (heap s') user =
      <["profile" := VDict (<["address" := VStr address]> profile)]>
        (<["phone" := VStr phone]> (<["name" := VStr name]> (obj (heap s) user))) /\
    (forall l, l <> user -> obj (heap s') l = obj (heap s) l) /\
    data_store s' = data_store s /\
    disk s' = disk s /\
    (forall k, users (data_store s) !! k = Some user ->
       doc_users (snapshot s') !! k = Some (obj (heap s') user)).
Proof.
  intros Hlt [n Hn] [e He] [p Hp] Hprofile.
  unfold show_personal_info.
  unfold mbind at 1, M_bind at 1, gets at 1.
  unfold mbind at 1, M_bind at 1, lift at 1, getitem at 1. rewrite Hn.
  unfold mbind at 1, M_bind at 1, lift at 1, getitem at 1. rewrite He.
  unfold mbind at 1, M_bind at 1, lift at 1, getitem at 1. rewrite Hp.
  unfold mbind at 1, M_bind at 1, lift at 1. rewrite Hprofile.
  unfold mbind at 1, M_bind at 1, setitem at 1, modify at 1.
  unfold mbind at 1, M_bind at 1, setitem at 1, modify at 1. cbn [heap set_heap].
  rewrite obj_insert_eq by done. rewrite list_insert_insert_eq.
  set (d1 := <["phone" := VStr phone]> (<["name" := VStr name]> (obj (heap s) user))).
  set (h1 := <[user := d1]> (heap s)).
  assert (Hd1 : obj h1 user = d1) by (by apply obj_insert_eq).
  assert (Hp1 : d1 !! "profile" = obj (heap s) user !! "profile")
    by (unfold d1; by rewrite !lookup_insert_ne).
  assert (Hfinal : forall s' d,
    heap s' = <[user := d]> (heap s) -> data_store s' = data_store s ->
    obj (heap s') user = d /\
    (forall l, l <> user -> obj (heap s') l = obj (heap s) l) /\
    data_store s' = data_store s /\
    (forall k, users (data_store s) !! k = Some user ->
       doc_users (snapshot s') !! k = Some (obj (heap s') user))).
  { intros s' d Hh Hd. split; [rewrite Hh; by apply obj_insert_eq|].
    split; [intros l Hl; rewrite Hh; by apply obj_insert_ne|]. split; [done|].
    intros k Hk. unfold snapshot. cbn [doc_users]. rewrite Hd.
    by rewrite list_lookup_fmap, Hk. }
  unfold mbind at 1, M_bind at 1, setdefault at 1.
  unfold mbind at 1, M_bind at 1, gets at 1. cbn [heap set_heap]. fold h1.
  rewrite Hd1, Hp1.
  unfold profile_of in Hprofile.
  destruct (obj (heap s) user !! "profile") as [v|] eqn:Hv.
  - destruct v as [| | | |p0]; try done. injection Hprofile as <-.
    unfold mret at 1, M_ret at 1.
    unfold mbind at 1, M_bind at 1, gets at 1. cbn [heap set_heap].
    unfold mbind at 1, M_bind at 1, lift at 1, getitem at 1. rewrite Hd1, Hp1, ?Hv.
    unfold setitem, modify. cbn [heap set_heap]. rewrite Hd1.
    unfold h1. rewrite list_insert_insert_eq.
    eexists. split; [reflexivity|].
    destruct (Hfinal (set_heap (<[user := <["profile" := VDict (<["address" := VStr address]> p0)]> d1]>
                                  (heap s)) s) _ eq_refl eq_refl) as (H1 & H2 & H3 & H4).
    split; [exact H1|]. split; [exact H2|]. split; [done|]. split; [done|exact H4].
  - injection Hprofile as <-.
    unfold setitem at 1, modify at 1. cbn [heap set_heap]. rewrite Hd1.
    unfold h1. rewrite list_insert_insert_eq.
    unfold mbind at 1, M_bind at 1, gets at 1. cbn [heap set_heap].
    rewrite obj_insert_eq by done.
    unfold mbind at 1, M_bind at 1, lift at 1, getitem at 1. rewrite lookup_insert_eq.
    unfold setitem, modify. cbn [heap set_heap].
    rewrite obj_insert_eq by done. rewrite list_insert_insert_eq, insert_insert_eq.
    eexists. split; [reflexivity|].
    destruct (Hfinal (set_heap (<[user := <["profile" := VDict (<["address" := VStr address]> ∅)]> d1]>
                                  (heap s)) s) _ eq_refl eq_refl) as (H1 & H2 & H3 & H4).
    split; [exact H1|]. split; [exact H2|]. split; [done|]. split; [done|exact H4].
Qed.

Lemma show_personal_info_in_memory_witness :
  exists s',
    show_personal_info 0 "Asha K" "9845011111" "12 MG Road" login_example = Ret tt s' /\
    obj (heap s') 0 =
      <["profile" := VDict (<["address" := VStr "12 MG Road"]>
           (list_to_map [("address", VStr ""); ("preferences", VList []);
                         ("allergies", VList [])]))]>
        (<["phone" := VStr "9845011111"]>
           (<["name" := VStr "Asha K"]> (obj (heap login_example) 0))) /\
    (forall l, l <> 0 -> obj (heap s') l = obj (heap login_example) l) /\
    data_store s' = data_store login_example /\
    disk s' = disk login_example /\
    (forall k, users (data_store login_example) !! k = Some 0 ->
       doc_users (snapshot s') !! k = Some (obj (heap s') 0)).
Proof.
  apply (show_personal_info_in_memory 0 "Asha K" "9845011111" "12 MG Road" login_example);
    [simpl; lia|by eexists|by eexists|by eexists|reflexivity].
Defined.
